(** * Sales dashboard: import normaliser, aggregation and persistence

    A shallow embedding of [src/App.tsx] and of
    [src/components/DataInput.tsx] (the [DataInput] form, the
    [SalesDashboard] component and its helpers [getWeekString],
    [getMonthString], [handleFileUpload] and [processedData]), together
    with the part of the ECMAScript [Date] semantics these functions rely
    on.

    Conventions of the model.
    - A time value is an integral number of milliseconds since the epoch;
      [None] stands for [NaN] (an invalid [Date]).
    - Other numbers (spreadsheet cells, quantities, amounts) are exact
      rationals; [None] stands for [NaN].  Infinite values and the rounding
      of binary floating point are outside the model: a statement compares
      sums added in the order of the code, or, where it regroups a sum, is
      made for whole amounts that binary floating point adds exactly
      ([wholeAmounts]).
    - Strings are byte strings (UTF-8); [localeCompare] is the ordinal
      comparison of [String.compare], which is what the collation gives on
      the digits, [-] and [W] that bucket keys are made of; [sort] without
      a comparator is the order of the UTF-16 code units ([codeUnitLe]).
    - An object used as a map is the list of its own properties, in the
      order the language enumerates them.  Keys that name a property of
      [Object.prototype] are outside the model.
    - What the host decides (the fallback of [Date.parse] for strings that
      are not a date in the ISO format [YYYY-MM-DD], number/string
      conversions, the local time zone) is a field of the class [JsHost]. *)

From Stdlib Require Import ZArith QArith Qround Lia Bool List Ascii String.
From Stdlib Require Import DecimalString Sorted Permutation Lqa Qabs.
Import ListNotations.

Local Open Scope string_scope.
Local Open Scope Z_scope.

(* ===================================================================== *)
(** * ECMAScript time arithmetic (ECMA-262, "Time Values and Time Range") *)
(* ===================================================================== *)

Module Time.

Definition msPerDay : Z := 86400000.

(** [NaN] is [None]. *)
Definition time : Type := option Z.

Definition Day (t : Z) : Z := t / msPerDay.
Definition TimeWithinDay (t : Z) : Z := t mod msPerDay.

Definition isLeap (y : Z) : bool :=
  if negb (y mod 4 =? 0) then false
  else if negb (y mod 100 =? 0) then true
  else if negb (y mod 400 =? 0) then false
  else true.

Definition DaysInYear (y : Z) : Z := if isLeap y then 366 else 365.

Definition DayFromYear (y : Z) : Z :=
  365 * (y - 1970) + (y - 1969) / 4 - (y - 1901) / 100 + (y - 1601) / 400.

(** The largest [y] with [DayFromYear y <= d]: the mean-year estimate is
    off by at most one, which the two comparisons repair. *)
Definition YearFromDay (d : Z) : Z :=
  let y := 1970 + (d * 400) / 146097 in
  if d <? DayFromYear y then y - 1
  else if DayFromYear (y + 1) <=? d then y + 1
  else y.

Definition DayWithinYear (d : Z) : Z := d - DayFromYear (YearFromDay d).

(** Number of days of the year before month [m] (0 = January). *)
Definition daysBeforeMonth (leap : bool) (m : Z) : Z :=
  let l := if leap then 1 else 0 in
  match m with
  | 0 => 0
  | 1 => 31
  | 2 => 59 + l
  | 3 => 90 + l
  | 4 => 120 + l
  | 5 => 151 + l
  | 6 => 181 + l
  | 7 => 212 + l
  | 8 => 243 + l
  | 9 => 273 + l
  | 10 => 304 + l
  | 11 => 334 + l
  | _ => 365 + l
  end.

Definition monthOfYearDay (leap : bool) (dwy : Z) : Z :=
  if dwy <? daysBeforeMonth leap 1 then 0
  else if dwy <? daysBeforeMonth leap 2 then 1
  else if dwy <? daysBeforeMonth leap 3 then 2
  else if dwy <? daysBeforeMonth leap 4 then 3
  else if dwy <? daysBeforeMonth leap 5 then 4
  else if dwy <? daysBeforeMonth leap 6 then 5
  else if dwy <? daysBeforeMonth leap 7 then 6
  else if dwy <? daysBeforeMonth leap 8 then 7
  else if dwy <? daysBeforeMonth leap 9 then 8
  else if dwy <? daysBeforeMonth leap 10 then 9
  else if dwy <? daysBeforeMonth leap 11 then 10
  else 11.

Definition MonthFromDay (d : Z) : Z :=
  monthOfYearDay (isLeap (YearFromDay d)) (DayWithinYear d).

Definition DateFromDay (d : Z) : Z :=
  DayWithinYear d
  - daysBeforeMonth (isLeap (YearFromDay d)) (MonthFromDay d) + 1.

Definition YearFromTime (t : Z) : Z := YearFromDay (Day t).
Definition MonthFromTime (t : Z) : Z := MonthFromDay (Day t).
Definition DateFromTime (t : Z) : Z := DateFromDay (Day t).
Definition WeekDay (t : Z) : Z := (Day t + 4) mod 7.

Definition HourFromTime (t : Z) : Z := (t / 3600000) mod 24.
Definition MinFromTime (t : Z) : Z := (t / 60000) mod 60.
Definition SecFromTime (t : Z) : Z := (t / 1000) mod 60.
Definition msFromTime (t : Z) : Z := t mod 1000.

(** [MakeDay(year, month, date)], month counted from 0; [month] and [date]
    may lie outside their calendar ranges. *)
Definition MakeDay (year month date : Z) : Z :=
  let ym := year + month / 12 in
  let mn := month mod 12 in
  DayFromYear ym + daysBeforeMonth (isLeap ym) mn + date - 1.

Definition MakeDate (day tm : Z) : Z := day * msPerDay + tm.

Definition TimeClip (t : Z) : time :=
  if Z.abs t <=? 8640000000000000 then Some t else None.

Definition DaysInMonth (y m : Z) : Z :=
  daysBeforeMonth (isLeap y) (m + 1) - daysBeforeMonth (isLeap y) m.

End Time.

Import Time.

(* ===================================================================== *)
(** * Strings, numbers and values of the host language                    *)
(* ===================================================================== *)

Module Js.

(** ** Decimal digits *)

Definition digit (n : Z) : ascii := ascii_of_N (48 + Z.to_N (n mod 10)).

Definition digitVal (c : ascii) : option Z :=
  let n := Z.of_N (N_of_ascii c) in
  if (48 <=? n) && (n <=? 57) then Some (n - 48) else None.

(** The [w] low decimal digits of [n], most significant first. *)
Fixpoint fixedDigits (w : nat) (n : Z) : string :=
  match w with
  | O => ""
  | S w' => fixedDigits w' (n / 10) ++ String (digit n) ""
  end.

(** [String(n)] for an integral number. *)
Definition ZToString (n : Z) : string :=
  DecimalString.NilZero.string_of_int (Z.to_int n).

(** [s.padStart(w, c)] with a one-character filler. *)
Definition padStart (w : nat) (c : ascii) (s : string) : string :=
  string_of_list_ascii (repeat c (w - String.length s)) ++ s.

(** [s.split(c)[0]]: the part of [s] before the first [c]. *)
Fixpoint splitHead (c : ascii) (s : string) : string :=
  match s with
  | EmptyString => ""
  | String a s' => if Ascii.eqb a c then "" else String a (splitHead c s')
  end.

Fixpoint join (sep : string) (l : list string) : string :=
  match l with
  | [] => ""
  | [x] => x
  | x :: l' => x ++ sep ++ join sep l'
  end.

(** [a.localeCompare(b) <= 0], see the conventions above: the collation
    of the host and the ordinal comparison agree on strings made of digits,
    [-] and [W]; on other strings the host decides, and the statements
    about the order of keys are made for keys of that kind. *)
Definition localeLe (a b : string) : bool := String.leb a b.

(** The order of [Array.prototype.sort] without a comparator: the
    elements, as strings, by their UTF-16 code units.  On the UTF-8 bytes
    this is the comparison byte by byte, except that a character beyond
    U+FFFF, which UTF-16 writes with two surrogates (D800 to DFFF), goes
    before the characters U+E000 to U+FFFF: the lead bytes F0 to F4 weigh
    less than the lead bytes EE and EF. *)
Definition unitWeight (c : ascii) : N :=
  let b := N_of_ascii c in
  if (240 <=? b)%N then (b - 2)%N
  else if (238 <=? b)%N then (b + 5)%N
  else b.

Fixpoint codeUnitLe (a b : string) : bool :=
  match a, b with
  | EmptyString, _ => true
  | String _ _, EmptyString => false
  | String x a', String y b' =>
      if (unitWeight x <? unitWeight y)%N then true
      else if (unitWeight y <? unitWeight x)%N then false
      else codeUnitLe a' b'
  end.

(** ** Numbers *)

(** A number: a rational, or [NaN]. *)
Definition number : Type := option Q.

Definition MathRound (q : Q) : Z := Qfloor (q + (1 # 2)).

(** [n || 0] *)
Definition orZero (n : number) : Q :=
  match n with
  | Some q => if Qeq_bool q 0 then 0%Q else q
  | None => 0%Q
  end.

Definition Qgtb (a b : Q) : bool := negb (Qle_bool a b).

(** [Math.ceil(a / b)] for integers with [0 < b]. *)
Definition ceilDiv (a b : Z) : Z := - ((- a) / b).

(** ** Values found in a parsed sheet *)

Inductive jsval : Type :=
| VUndef
| VBool (b : bool)
| VNum (q : Q)
| VStr (s : string).

(** ** What the host decides *)

Class JsHost : Type := {
  (** [Date.parse] on a string that is not a date in the form [YYYY-MM-DD] *)
  legacyDateParse : string -> time;
  (** [Number(s)] on a string *)
  StringToNumber : string -> number;
  (** [String(n)] on a number *)
  NumberToString : Q -> string;
  (** offset of local time from UTC, in milliseconds, at a UTC time *)
  LocalTZA : Z -> Z
}.

Definition ToNumber `{JsHost} (v : jsval) : number :=
  match v with
  | VUndef => None
  | VBool b => Some (if b then 1%Q else 0%Q)
  | VNum q => Some q
  | VStr s => StringToNumber s
  end.

Definition ToString `{JsHost} (v : jsval) : string :=
  match v with
  | VUndef => "undefined"
  | VBool b => if b then "true" else "false"
  | VNum q => NumberToString q
  | VStr s => s
  end.

(** ** Objects used as maps

    Own-property order: array-index keys in ascending numeric order, then
    the other keys in the order of their creation. *)

Definition obj (V : Type) : Type := list (string * V).

Fixpoint digitsValue (acc : Z) (s : string) : option Z :=
  match s with
  | EmptyString => Some acc
  | String c s' =>
      match digitVal c with
      | Some d => digitsValue (10 * acc + d) s'
      | None => None
      end
  end.

(** The canonical numeric strings below [2^32 - 1]. *)
Definition arrayIndex (k : string) : option Z :=
  match k with
  | EmptyString => None
  | String c rest =>
      if Ascii.eqb c "0" && negb (String.eqb rest "") then None
      else if Nat.ltb 10 (String.length k) then None
      else match digitsValue 0 k with
           | Some n => if n <? 4294967295 then Some n else None
           | None => None
           end
  end.

Fixpoint get {V} (k : string) (o : obj V) : option V :=
  match o with
  | [] => None
  | (k', v) :: o' => if String.eqb k k' then Some v else get k o'
  end.

Definition has {V} (k : string) (o : obj V) : bool :=
  match get k o with Some _ => true | None => false end.

Fixpoint replace {V} (k : string) (v : V) (o : obj V) : obj V :=
  match o with
  | [] => []
  | (k', v') :: o' =>
      if String.eqb k k' then (k', v) :: o' else (k', v') :: replace k v o'
  end.

(** Creation of the array-index key [k], of index [n]. *)
Fixpoint addIndex {V} (n : Z) (k : string) (v : V) (o : obj V) : obj V :=
  match o with
  | [] => [(k, v)]
  | (k', v') :: o' =>
      match arrayIndex k' with
      | Some n' => if n' <? n then (k', v') :: addIndex n k v o'
                   else (k, v) :: o
      | None => (k, v) :: o
      end
  end.

(** [o[k] = v] *)
Definition set {V} (k : string) (v : V) (o : obj V) : obj V :=
  if has k o then replace k v o
  else match arrayIndex k with
       | Some n => addIndex n k v o
       | None => (o ++ [(k, v)])%list
       end.

Definition keys {V} (o : obj V) : list string := map fst o.
Definition values {V} (o : obj V) : list V := map snd o.

(** ** Arrays *)

(** [a.sort(cmp)] is stable; [le x y] stands for [cmp(x, y) <= 0]. *)
Fixpoint insertSorted {A} (le : A -> A -> bool) (x : A) (l : list A) : list A :=
  match l with
  | [] => [x]
  | y :: l' => if le x y then x :: l else y :: insertSorted le x l'
  end.

Definition sortBy {A} (le : A -> A -> bool) (l : list A) : list A :=
  fold_right (insertSorted le) [] l.

(** [new Set(l)] followed by [Array.from]: first occurrences, in order. *)
Fixpoint dedup (seen l : list string) : list string :=
  match l with
  | [] => []
  | x :: l' =>
      if existsb (String.eqb x) seen then dedup seen l'
      else x :: dedup (x :: seen) l'
  end.

(** ** Date *)

(** The date-only ISO format [YYYY-MM-DD], which denotes midnight UTC. *)
Definition parseIsoDate (s : string) : time :=
  match s with
  | String y1 (String y2 (String y3 (String y4 (String "-"
    (String m1 (String m2 (String "-"
    (String d1 (String d2 EmptyString))))))))) =>
      match digitVal y1, digitVal y2, digitVal y3, digitVal y4,
            digitVal m1, digitVal m2, digitVal d1, digitVal d2 with
      | Some a, Some b, Some c, Some d, Some e, Some f, Some g, Some h =>
          let y := 1000 * a + 100 * b + 10 * c + d in
          let m := 10 * e + f in
          let dt := 10 * g + h in
          if (1 <=? m) && (m <=? 12) && (1 <=? dt)
             && (dt <=? DaysInMonth y (m - 1))
          then Some (MakeDate (MakeDay y (m - 1) dt) 0)
          else None
      | _, _, _, _, _, _, _, _ => None
      end
  | _ => None
  end.

(** [Date.parse(s)]: the ISO format first, then the host's own formats. *)
Definition DateParse `{JsHost} (s : string) : time :=
  match parseIsoDate s with
  | Some t => Some t
  | None => legacyDateParse s
  end.

(** A [Date] object is its time value. *)
Definition Date : Type := time.

(** [new Date(n)] for a number that is integral *)
Definition DateOfTime (t : time) : Date :=
  match t with Some n => TimeClip n | None => None end.

(** [new Date(v)] *)
Definition DateOfValue `{JsHost} (v : jsval) : Date :=
  match v with
  | VStr s => DateOfTime (DateParse s)
  | VNum q => TimeClip (Z.quot (Qnum q) (Z.pos (Qden q)))
  | VBool b => TimeClip (if b then 1 else 0)
  | VUndef => None
  end.

Definition getTime (d : Date) : time := d.

(** [Date.UTC(year, month, date)] on integral arguments *)
Definition DateUTC (year month date : Z) : time :=
  let yr := if (0 <=? year) && (year <=? 99) then 1900 + year else year in
  TimeClip (MakeDate (MakeDay yr month date) 0).

Definition LocalTime `{JsHost} (t : Z) : Z := t + LocalTZA t.

Definition isoYear (y : Z) : string :=
  if (0 <=? y) && (y <=? 9999) then fixedDigits 4 y
  else (if y <? 0 then "-" else "+") ++ fixedDigits 6 (Z.abs y).

(** The date part of [toISOString()], [YYYY-MM-DD] *)
Definition isoDate (t : Z) : string :=
  isoYear (YearFromTime t) ++ "-" ++ fixedDigits 2 (MonthFromTime t + 1)
  ++ "-" ++ fixedDigits 2 (DateFromTime t).

Definition isoTime (t : Z) : string :=
  fixedDigits 2 (HourFromTime t) ++ ":" ++ fixedDigits 2 (MinFromTime t)
  ++ ":" ++ fixedDigits 2 (SecFromTime t) ++ "." ++ fixedDigits 3 (msFromTime t)
  ++ "Z".

(** [d.toISOString()]; [None] is the [RangeError] of an invalid date. *)
Definition toISOString (d : Date) : option string :=
  match d with
  | Some t => Some (isoDate t ++ "T" ++ isoTime t)
  | None => None
  end.

End Js.

Import Js.

(* ===================================================================== *)
(** * src/types.ts                                                         *)
(* ===================================================================== *)

Module Types.

Record SalesData : Type := {
  id : string;
  日期 : string;
  類別 : string;
  品名 : string;
  數量 : Q;
  銷售金額 : Q;
  timestamp : time
}.

Record DateRange : Type := {
  start : string;
  end_ : string
}.

End Types.

Import Types.

(* ===================================================================== *)
(** * src/components/DataInput.tsx, the [SalesDashboard] part             *)
(* ===================================================================== *)

Module SalesDashboard.

(** ** Helpers *)

(** A number that may be [NaN], inside a template literal *)
Definition show (n : option Z) : string :=
  match n with
  | Some z => ZToString z
  | None => "NaN"
  end.

Definition getFullYear `{JsHost} (d : Date) : option Z :=
  option_map (fun t => YearFromTime (LocalTime t)) d.
Definition getMonth `{JsHost} (d : Date) : option Z :=
  option_map (fun t => MonthFromTime (LocalTime t)) d.
Definition getDate `{JsHost} (d : Date) : option Z :=
  option_map (fun t => DateFromTime (LocalTime t)) d.

Definition getUTCFullYear (d : Date) : option Z := option_map YearFromTime d.
Definition getUTCDate (d : Date) : option Z := option_map DateFromTime d.
Definition getUTCDay (d : Date) : option Z := option_map WeekDay d.

(** [d.setUTCDate(dt)], giving the date after the call *)
Definition setUTCDate (d : Date) (dt : option Z) : Date :=
  match d, dt with
  | Some t, Some n =>
      TimeClip (MakeDate (MakeDay (YearFromTime t) (MonthFromTime t) n)
                         (TimeWithinDay t))
  | _, _ => None
  end.

Definition UTC (year month date : option Z) : time :=
  match year, month, date with
  | Some y, Some m, Some d => DateUTC y m d
  | _, _, _ => None
  end.

Definition getWeekString `{JsHost} (date : Date) : string :=
  let d := DateOfTime (UTC (getFullYear date) (getMonth date) (getDate date)) in
  let dayNum := match getUTCDay d with
                | Some 0 | None => 7
                | Some n => n
                end in
  let d := setUTCDate d (option_map (fun x => x + 4 - dayNum) (getUTCDate d)) in
  let year := getUTCFullYear d in
  let weekNo :=
    match getTime d, getTime (DateOfTime (UTC year (Some 0) (Some 1))) with
    | Some a, Some b => Some (ceilDiv (a - b + 86400000) (7 * 86400000))
    | _, _ => None
    end in
  show year ++ "-W" ++ show weekNo.

Definition getMonthString `{JsHost} (date : Date) : string :=
  show (getFullYear date) ++ "-"
  ++ padStart 2 "0" (show (option_map (fun m => m + 1) (getMonth date))).

(** ** Spreadsheet import: [handleFileUpload] *)

(** A row of [sheet_to_json]: header name to cell; an empty cell has no key. *)
Definition row : Type := obj jsval.

Definition cell (k : string) (r : row) : jsval :=
  match get k r with Some v => v | None => VUndef end.

Definition requiredKeys : list string :=
  ["日期"; "類別"; "品名"; "數量"; "銷售金額"].

(** The callback of [data.map]; [None] is a thrown [RangeError].  Where the
    date is not parseable the source leaves the raw cell in the date field;
    the model puts its string form there (such a row has [timestamp] 0 and
    does not pass the filter that follows). *)
Definition formatRow `{JsHost} (clock : nat -> Z) (r : row) (index : nat)
  : option SalesData :=
  let dateStr := cell "日期" r in
  let mk (dateStr : string) (timestamp : Z) :=
    {| id := "excel-" ++ ZToString (clock index) ++ "-"
             ++ ZToString (Z.of_nat index);
       日期 := dateStr;
       類別 := ToString (cell "類別" r);
       品名 := ToString (cell "品名" r);
       數量 := orZero (ToNumber (cell "數量" r));
       銷售金額 := orZero (ToNumber (cell "銷售金額" r));
       timestamp := Some timestamp |} in
  match dateStr with
  | VNum q =>
      let dateObj :=
        DateOfTime (Some (MathRound ((q - 25569) * 86400 * 1000))) in
      match toISOString dateObj, getTime dateObj with
      | Some iso, Some t => Some (mk (splitHead "T" iso) t)
      | _, _ => None
      end
  | _ =>
      let dateObj := DateOfValue dateStr in
      match getTime dateObj, toISOString dateObj with
      | Some t, Some iso => Some (mk (splitHead "T" iso) t)
      | _, _ => Some (mk (ToString dateStr) 0)
      end
  end.

(** [data.map(f)], stopping at the first exception *)
Fixpoint mapRows (f : row -> nat -> option SalesData) (data : list row)
  (index : nat) : option (list SalesData) :=
  match data with
  | [] => Some []
  | r :: data' =>
      match f r index with
      | None => None
      | Some x =>
          match mapRows f data' (S index) with
          | None => None
          | Some xs => Some (x :: xs)
          end
      end
  end.

Definition positiveTimestamp (item : SalesData) : bool :=
  match timestamp item with
  | Some t => 0 <? t
  | None => false
  end.

(** What the file reader hands over: no file, a file that [XLSX.read]
    cannot read (it throws), or the rows of the first sheet. *)
Inductive Workbook : Type :=
| Unreadable
| Sheet (data : list row).

Record UploadResult : Type := {
  errorMsg : string;
  onImportData : option (list SalesData)
}.

Definition handleFileUpload `{JsHost} (isScriptLoaded XLSX : bool)
  (clock : nat -> Z) (errorMsg0 : string) (file : option Workbook)
  : UploadResult :=
  let report msg := {| errorMsg := msg; onImportData := None |} in
  if negb isScriptLoaded then report "系統初始化中...請稍後再試"
  else match file with
  | None => report errorMsg0
  | Some wb =>
    if negb XLSX then report "Excel 解析庫載入失敗"
    else match wb with
    | Unreadable => report "無法解析檔案，請確認格式。"
    | Sheet data =>
      match data with
      | [] => report ""
      | firstRow :: _ =>
        let missingKeys :=
          filter (fun key => negb (has key firstRow)) requiredKeys in
        if Nat.ltb 0 (List.length missingKeys)
        then report ("缺少欄位：" ++ join ", " missingKeys)
        else match mapRows (formatRow clock) data 0 with
        | None => report "無法解析檔案，請確認格式。"
        | Some mapped =>
          let formattedData := filter positiveTimestamp mapped in
          if Nat.ltb 0 (List.length formattedData)
          then {| errorMsg := ""; onImportData := Some formattedData |}
          else report "檔案中沒有有效的銷售數據"
        end
      end
    end
  end.

(** ** Filter state *)

Inductive ViewMode : Type := day | week | month.

Definition byTimestamp (a b : SalesData) : bool :=
  match timestamp a, timestamp b with
  | Some x, Some y => x <=? y
  | _, _ => true
  end.

(** The effect that initialises the date range when data arrives *)
Definition initDateRange (externalData : list SalesData) (dateRange : DateRange)
  : DateRange :=
  if Nat.ltb 0 (List.length externalData) && String.eqb (start dateRange) ""
  then
    let sorted := sortBy byTimestamp externalData in
    match sorted, rev sorted with
    | first :: _, last :: _ => {| start := 日期 first; end_ := 日期 last |}
    | _, _ => dateRange
    end
  else dateRange.

(** ** Aggregation: [allCategories] and [processedData] *)

Definition allCategories (externalData : list SalesData) : list string :=
  sortBy codeUnitLe (dedup [] (map 類別 externalData)).

Definition allProducts (externalData : list SalesData) : list string :=
  sortBy codeUnitLe (dedup [] (map 品名 externalData)).

(** A trend bucket [{date, amount, qty, [category]: amount ...}].  The
    per-category amounts are kept apart from the three fixed fields; the
    source stores them in the same object, so the model stands for it when
    no category is called [date], [amount] or [qty]. *)
Record TrendBucket : Type := {
  date : string;
  amount : Q;
  qty : Q;
  byCategory : obj Q
}.

Record ViewModel : Type := {
  filteredRaw : list SalesData;
  totalSales : Q;
  totalQty : Q;
  topProduct : string;
  trendData : list TrendBucket;
  categoryData : list (string * Q)
}.

Definition addTo (k : string) (x : Q) (o : obj Q) : obj Q :=
  set k (orZero (get k o) + x)%Q o.

Definition inRange (startTs endTs : Z) (d : SalesData) : bool :=
  match timestamp d with
  | Some currentTs =>
      let bufferEnd := endTs + 86400000 in
      (startTs <=? currentTs) && (currentTs <? bufferEnd)
  | None => false
  end.

Definition bucketKey `{JsHost} (viewMode : ViewMode) (d : SalesData) : string :=
  match viewMode with
  | day => 日期 d
  | week => getWeekString (DateOfTime (timestamp d))
  | month => getMonthString (DateOfTime (timestamp d))
  end.

Definition trendStep `{JsHost} (viewMode : ViewMode) (isGroupByCategory : bool)
  (categories : list string) (trendMap : obj TrendBucket) (d : SalesData)
  : obj TrendBucket :=
  let key := bucketKey viewMode d in
  let trendMap :=
    if has key trendMap then trendMap
    else set key {| date := key; amount := 0; qty := 0;
                    byCategory :=
                      if isGroupByCategory
                      then fold_left (fun o c => set c 0%Q o) categories []
                      else [] |} trendMap in
  match get key trendMap with
  | Some b =>
      replace key
        {| date := date b;
           amount := (amount b + 銷售金額 d)%Q;
           qty := (qty b + 數量 d)%Q;
           byCategory :=
             if isGroupByCategory
             then addTo (類別 d) (銷售金額 d) (byCategory b)
             else byCategory b |} trendMap
  | None => trendMap
  end.

Definition pickTop (acc : string * Q) (entry : string * Q) : string * Q :=
  let '(topProduct, maxSale) := acc in
  let '(name, sale) := entry in
  if Qgtb sale maxSale then (name, sale) else (topProduct, maxSale).

(** [None] is [null]. *)
Definition processedData `{JsHost} (externalData : list SalesData)
  (dateRange : DateRange) (viewMode : ViewMode) (selectedProduct : string)
  (isGroupByCategory : bool) : option ViewModel :=
  if Nat.eqb (List.length externalData) 0 then None
  else if String.eqb (start dateRange) "" || String.eqb (end_ dateRange) ""
  then None
  else
    match getTime (DateOfValue (VStr (start dateRange))),
          getTime (DateOfValue (VStr (end_ dateRange))) with
    | Some startTs, Some endTs =>
        let filtered :=
          filter (fun d =>
                    inRange startTs endTs d
                    && (String.eqb selectedProduct "all"
                        || String.eqb (品名 d) selectedProduct))
                 externalData in
        if Nat.eqb (List.length filtered) 0
        then Some {| filteredRaw := []; totalSales := 0; totalQty := 0;
                     topProduct := "-"; trendData := [];
                     categoryData := [] |}
        else
          let totalSales :=
            fold_left (fun acc curr => (acc + 銷售金額 curr)%Q) filtered 0%Q in
          let totalQty :=
            fold_left (fun acc curr => (acc + 數量 curr)%Q) filtered 0%Q in
          let productSales :=
            fold_left (fun o d => addTo (品名 d) (銷售金額 d) o) filtered [] in
          let topProduct := fst (fold_left pickTop productSales ("-", 0%Q)) in
          let trendMap :=
            fold_left (trendStep viewMode isGroupByCategory
                                 (allCategories externalData)) filtered [] in
          let trendData :=
            sortBy (fun a b => localeLe (date a) (date b)) (values trendMap) in
          let categoryMap :=
            fold_left (fun o d => addTo (類別 d) (銷售金額 d) o) filtered [] in
          Some {| filteredRaw := filtered; totalSales := totalSales;
                  totalQty := totalQty; topProduct := topProduct;
                  trendData := trendData; categoryData := categoryMap |}
    | _, _ => None
    end.

End SalesDashboard.

(* ===================================================================== *)
(** * src/App.tsx                                                          *)
(* ===================================================================== *)

Module App.

Definition GOOGLE_SCRIPT_URL : string :=
  "https://script.google.com/macros/s/AKfycbw_ijNH2_T8WOZxhunsH68R8Zuv0a09AyI4rM-JK4k3s1-1lwPSZv_eVybJKX0qyv0uMw/exec".

(** [if (GOOGLE_SCRIPT_URL)] *)
Definition remoteMode : bool := negb (String.eqb GOOGLE_SCRIPT_URL "").

(** The item of local storage: a text that [JSON.parse] accepts as a list
    of records, or one it rejects. *)
Inductive Blob : Type :=
| Corrupt
| Stored (records : list SalesData).

(** The component's state, with what it wrote to the console, the alerts
    it raised and the local storage slot [morandi_sales_data]. *)
Record State : Type := {
  data : list SalesData;
  isLoading : bool;
  console : list string;
  alerts : list string;
  localStorage : option Blob
}.

Definition setData (d : list SalesData) (s : State) : State :=
  {| data := d; isLoading := isLoading s; console := console s;
     alerts := alerts s; localStorage := localStorage s |}.
Definition setIsLoading (b : bool) (s : State) : State :=
  {| data := data s; isLoading := b; console := console s;
     alerts := alerts s; localStorage := localStorage s |}.
Definition consoleError (msg : string) (s : State) : State :=
  {| data := data s; isLoading := isLoading s;
     console := (console s ++ [msg])%list;
     alerts := alerts s; localStorage := localStorage s |}.
Definition alert (msg : string) (s : State) : State :=
  {| data := data s; isLoading := isLoading s; console := console s;
     alerts := (alerts s ++ [msg])%list; localStorage := localStorage s |}.
Definition setItem (d : list SalesData) (s : State) : State :=
  {| data := data s; isLoading := isLoading s; console := console s;
     alerts := alerts s; localStorage := Some (Stored d) |}.

(** ** Statements that may throw *)

Inductive completion (A : Type) : Type :=
| Normal (a : A)
| Thrown.
Arguments Normal {A} a.
Arguments Thrown {A}.

Definition M (A : Type) : Type := State -> completion A * State.

Definition ret {A} (a : A) : M A := fun s => (Normal a, s).
Definition throw {A} : M A := fun s => (Thrown, s).
Definition bind {A B} (m : M A) (k : A -> M B) : M B :=
  fun s => match m s with
           | (Normal a, s') => k a s'
           | (Thrown, s') => (Thrown, s')
           end.
Definition update (f : State -> State) : M unit := fun s => (Normal tt, f s).
Definition read {A} (f : State -> A) : M A := fun s => (Normal (f s), s).

Notation "x <- m ;; k" := (bind m (fun x => k))
  (at level 61, m at next level, right associativity).
Notation "m ;; k" := (bind m (fun _ => k))
  (at level 61, right associativity).

(** [try { body } catch (error) { handler } finally { final }] *)
Definition tryCatchFinally (body handler final : M unit) : M unit :=
  fun s =>
    let '(c, s1) := match body s with
                    | (Normal tt, s') => (Normal tt, s')
                    | (Thrown, s') => handler s'
                    end in
    match final s1 with
    | (Normal tt, s2) => (c, s2)
    | (Thrown, s2) => (Thrown, s2)
    end.

(** ** The remote endpoint *)

(** A parsed response body: [null], or a value whose [status] property is
    the given string ([None] when it has none, or one that is no string)
    and whose [data] property is the given list. *)
Inductive Json : Type :=
| JsonNull
| JsonObject (status : option string) (payload : list SalesData).

(** [fetch] rejects, or resolves to a response whose [json()] rejects
    ([None]) or resolves. *)
Inductive Reply : Type :=
| NetworkError
| Response (body : option Json).

Definition fetch (r : Reply) : M (option Json) :=
  match r with
  | NetworkError => throw
  | Response body => ret body
  end.

Definition json (body : option Json) : M Json :=
  match body with
  | None => throw
  | Some j => ret j
  end.

Definition statusOf (result : Json) : M (option string) :=
  match result with
  | JsonNull => throw
  | JsonObject status _ => ret status
  end.

Definition dataOf (result : Json) : list SalesData :=
  match result with
  | JsonNull => []
  | JsonObject _ payload => payload
  end.

Definition isSuccess (status : option string) : bool :=
  match status with
  | Some s => String.eqb s "success"
  | None => false
  end.

Definition fetchData (reply : Reply) : M unit :=
  update (setIsLoading true) ;;
  tryCatchFinally
    (if remoteMode then
       response <- fetch reply ;;
       result <- json response ;;
       status <- statusOf result ;;
       if isSuccess status then update (setData (dataOf result))
       else ret tt
     else
       localData <- read localStorage ;;
       match localData with
       | Some (Stored records) => update (setData records)
       | Some Corrupt => throw
       | None => ret tt
       end)
    (update (consoleError "Failed to fetch data"))
    (update (setIsLoading false)).

(** ** Saving a form entry *)

(** [Omit<SalesData, 'id' | 'timestamp'>] *)
Record NewData : Type := {
  new日期 : string;
  new類別 : string;
  new品名 : string;
  new數量 : Q;
  new銷售金額 : Q
}.

(** The [entry] that [handleSaveData] builds; [uuid] is the result of
    [crypto.randomUUID()]. *)
Definition makeEntry `{JsHost} (newData : NewData) (uuid : string) : SalesData :=
  let timestamp := getTime (DateOfValue (VStr (new日期 newData))) in
  {| id := uuid;
     日期 := new日期 newData;
     類別 := new類別 newData;
     品名 := new品名 newData;
     數量 := new數量 newData;
     銷售金額 := new銷售金額 newData;
     timestamp := timestamp |}.

(** [postOk] tells whether the POST request went through; [reply] answers
    the fetch that follows it. *)
Definition handleSaveData `{JsHost} (newData : NewData) (uuid : string)
  (postOk : bool) (reply : Reply) : M unit :=
  update (setIsLoading true) ;;
  let entry := makeEntry newData uuid in
  tryCatchFinally
    (if remoteMode then
       (if postOk then ret tt else throw) ;;
       fetchData reply
     else
       d <- read data ;;
       let updatedData := (d ++ [entry])%list in
       update (setData updatedData) ;;
       update (setItem updatedData))
    (update (consoleError "Save failed") ;; update (alert "儲存失敗"))
    (update (setIsLoading false)).

Definition handleImportData (importedData : list SalesData) : M unit :=
  d <- read data ;;
  let updatedData := (d ++ importedData)%list in
  update (setData updatedData) ;;
  (if negb remoteMode then update (setItem updatedData) else ret tt) ;;
  update (alert ("成功匯入 "
                 ++ ZToString (Z.of_nat (List.length importedData))
                 ++ " 筆資料！")).

(** The dashboard is rendered with [onImportData={handleImportData}]: an
    upload reaches the record set through that callback only. *)
Definition upload `{JsHost} (isScriptLoaded XLSX : bool) (clock : nat -> Z)
  (errorMsg0 : string) (file : option SalesDashboard.Workbook) : M string :=
  let r := SalesDashboard.handleFileUpload isScriptLoaded XLSX clock
                                           errorMsg0 file in
  match SalesDashboard.onImportData r with
  | Some formattedData => handleImportData formattedData
  | None => ret tt
  end ;;
  ret (SalesDashboard.errorMsg r).

End App.

(* ===================================================================== *)
(** * src/components/DataInput.tsx, the [DataInput] form                   *)
(* ===================================================================== *)

Module DataInput.

Definition PRODUCT_DATA : obj (list string) :=
  [("洗髮露",
    ["強健頭皮洗髮露500ml"; "豐盈彈韌洗髮露500ml"; "結構修護洗髮露500ml";
     "染燙護色洗髮露500ml"; "濃縮咖啡因養髮洗髮露500mL"]);
   ("養髮液",
    ["咖啡因養髮液100ml_PRO"; "咖啡因麥拉寧養髮液100ml_PRO";
     "女士養髮液70ml"; "男士養髮液70ml"]);
   ("居家保養",
    ["豐盈彈韌精華油70ml"; "豐盈彈韌調理精華220ml"; "結構修護精華乳70ml";
     "染燙護色精華油70ml"]);
   ("洗髮精",
    ["香檸草修護洗髮精2L_3入"; "木蘭保濕洗髮精2L_3入"; "薔薇護色洗髮精2L_3入";
     "雪松橙控油洗髮精2L_3入"; "薰衣草深層洗髮精2L_3入"])].

Definition CATEGORIES : list string := keys PRODUCT_DATA.

(** [now] is the time value of [new Date()]. *)
Definition getTodayString `{JsHost} (now : Z) : string :=
  let d : Date := Some now in
  let year := SalesDashboard.show (SalesDashboard.getFullYear d) in
  let month :=
    padStart 2 "0"
      (SalesDashboard.show
         (option_map (fun m => m + 1) (SalesDashboard.getMonth d))) in
  let day :=
    padStart 2 "0" (SalesDashboard.show (SalesDashboard.getDate d)) in
  year ++ "-" ++ month ++ "-" ++ day.

(** The form state.  [product] is [None] when it is [undefined]; the two
    number fields hold a number set by the code or the text of the input. *)
Record FormData : Type := {
  date : string;
  category : string;
  product : option string;
  quantity : jsval;
  amount : jsval
}.

(** [PRODUCT_DATA[c][0]]: [None] is the [TypeError] of an unknown category,
    [Some None] the [undefined] of an empty list. *)
Definition firstProduct (c : string) : option (option string) :=
  match get c PRODUCT_DATA with
  | Some products => Some (hd_error products)
  | None => None
  end.

(** The initial state; [now] is the time of the first render. *)
Definition initialFormData `{JsHost} (now : Z) : FormData :=
  let category0 := hd "" CATEGORIES in
  {| date := getTodayString now;
     category := category0;
     product := match firstProduct category0 with
                | Some p => p
                | None => None
                end;
     quantity := VNum 1;
     amount := VNum 0 |}.

Inductive NotificationType : Type := success | error.

Definition Notification : Type := option (string * NotificationType).

(** The argument of [onSave]; its numbers may be [NaN]. *)
Record Payload : Type := {
  日期 : string;
  類別 : string;
  品名 : string;
  數量 : number;
  銷售金額 : number
}.

(** [!formData.product] *)
Definition noProduct (f : FormData) : bool :=
  match product f with
  | Some p => String.eqb p ""
  | None => true
  end.

(** [v <= 0] *)
Definition notPositive `{JsHost} (v : jsval) : bool :=
  match ToNumber v with
  | Some q => Qle_bool q 0
  | None => false
  end.

(** The updater that follows a save; [None] when it throws. *)
Definition resetAfterSave (prev : FormData) : option FormData :=
  match firstProduct (category prev) with
  | Some p => Some {| date := date prev;
                      category := category prev;
                      product := p;
                      quantity := VNum 1;
                      amount := VNum 0 |}
  | None => None
  end.

(** What [handleSubmit] leaves behind: the notification, and the form data
    of the next render ([None] when the updater throws). *)
Record SubmitResult : Type := {
  notification : Notification;
  nextFormData : option FormData
}.

Definition handleSubmit `{JsHost} (formData : FormData)
  (onSave : Payload -> App.M unit) : App.M SubmitResult :=
  if noProduct formData || notPositive (amount formData)
  then App.ret {| notification := Some ("請填寫完整的商品名稱與金額", error);
                  nextFormData := Some formData |}
  else
    let payload :=
      {| 日期 := date formData;
         類別 := category formData;
         品名 := match product formData with Some p => p | None => "" end;
         數量 := ToNumber (quantity formData);
         銷售金額 := ToNumber (amount formData) |} in
    fun st =>
      match onSave payload st with
      | (App.Normal _, st') =>
          (App.Normal {| notification := Some ("資料儲存成功！", success);
                         nextFormData := resetAfterSave formData |}, st')
      | (App.Thrown, st') =>
          (App.Normal {| notification := Some ("儲存失敗，請稍後再試", error);
                         nextFormData := Some formData |}, st')
      end.

(** [name] and [value] are those of the changed input or select. *)
Definition handleChange (name value : string) (prev : FormData) : FormData :=
  if String.eqb name "category" then
    {| date := date prev;
       category := value;
       product := match firstProduct value with
                  | Some p => p
                  | None => Some ""
                  end;
       quantity := quantity prev;
       amount := amount prev |}
  else if String.eqb name "date" then
    {| date := value; category := category prev; product := product prev;
       quantity := quantity prev; amount := amount prev |}
  else if String.eqb name "product" then
    {| date := date prev; category := category prev; product := Some value;
       quantity := quantity prev; amount := amount prev |}
  else if String.eqb name "quantity" then
    {| date := date prev; category := category prev; product := product prev;
       quantity := VStr value; amount := amount prev |}
  else if String.eqb name "amount" then
    {| date := date prev; category := category prev; product := product prev;
       quantity := quantity prev; amount := VStr value |}
  else prev.

End DataInput.

(* ===================================================================== *)
(** * src/components/DataInput.tsx, what [SalesDashboard] renders          *)
(* ===================================================================== *)

Module DashboardView.

(** [(a, b) => b.timestamp - a.timestamp] is at most 0, or [NaN] *)
Definition newestFirst (a b : SalesData) : bool :=
  match timestamp a, timestamp b with
  | Some x, Some y => y <=? x
  | _, _ => true
  end.

(** The rows of the detail table *)
Definition tableRows (vm : SalesDashboard.ViewModel) : list SalesData :=
  firstn 100 (sortBy newestFirst (SalesDashboard.filteredRaw vm)).

(** The value of the third card *)
Definition thirdCard (selectedProduct : string)
  (vm : SalesDashboard.ViewModel) : string :=
  if negb (String.eqb selectedProduct "all") then selectedProduct
  else SalesDashboard.topProduct vm.

(** The body of the page: the dashboard with its filter bar, cards, charts
    and table, or the empty state that points to the input page. *)
Inductive Screen : Type :=
| Dashboard (vm : SalesDashboard.ViewModel) (card : string)
            (rows : list SalesData)
| EmptyState.

Definition render `{JsHost} (externalData : list SalesData)
  (dateRange : DateRange) (viewMode : SalesDashboard.ViewMode)
  (selectedProduct : string) (isGroupByCategory : bool) : Screen :=
  match SalesDashboard.processedData externalData dateRange viewMode
                                     selectedProduct isGroupByCategory with
  | Some vm =>
      if Nat.ltb 0 (List.length (SalesDashboard.filteredRaw vm))
      then Dashboard vm (thirdCard selectedProduct vm) (tableRows vm)
      else EmptyState
  | None => EmptyState
  end.

End DashboardView.

(* ===================================================================== *)
(** * Vocabulary of the statements                                         *)
(* ===================================================================== *)

Import SalesDashboard.

(** [epochMillis(date)]: [new Date(date).getTime()] *)
Definition epochMillis `{JsHost} (date : string) : time :=
  getTime (DateOfValue (VStr date)).

(** A [YYYY-MM-DD] string that names a day of the calendar *)
Definition isYMD (s : string) : bool :=
  match parseIsoDate s with Some _ => true | None => false end.

(** [sum(l)], adding from the left, starting at 0 *)
Definition sum (l : list Q) : Q := fold_left Qplus l 0%Q.

(** The first instant of the year 10000, where ISO strings stop having a
    four-digit year; serial day 2958466 of a spreadsheet. *)
Definition year10000 : Z := 253402300800000.

(** [YYYY-MM-DD], digit by digit *)
Definition ymd (y m d : Z) : string :=
  String (digit (y / 10 / 10 / 10)) (String (digit (y / 10 / 10))
  (String (digit (y / 10)) (String (digit y) (String "-"
  (String (digit (m / 10)) (String (digit m) (String "-"
  (String (digit (d / 10)) (String (digit d) ""))))))))).

(** The view of an empty selection *)
Definition emptyView : ViewModel :=
  {| filteredRaw := []; totalSales := 0; totalQty := 0; topProduct := "-";
     trendData := []; categoryData := [] |}.

(** The test of [filtered] in [processedData] *)
Definition selected (startTs endTs : Z) (selectedProduct : string)
  (d : SalesData) : bool :=
  inRange startTs endTs d
  && (String.eqb selectedProduct "all" || String.eqb (品名 d) selectedProduct).

(** The payload of a reply whose status is ["success"] *)
Definition successPayload (reply : App.Reply) : option (list SalesData) :=
  match reply with
  | App.Response (Some (App.JsonObject status payload)) =>
      if App.isSuccess status then Some payload else None
  | _ => None
  end.

(** A reply that fails in transport or in parsing: the request is
    rejected, the body is not JSON, or it is [null]. *)
Definition failedReply (reply : App.Reply) : bool :=
  match reply with
  | App.NetworkError => true
  | App.Response None => true
  | App.Response (Some App.JsonNull) => true
  | App.Response (Some (App.JsonObject _ _)) => false
  end.

(** Hosts to evaluate on.  They know the ISO date format only; a string
    of decimal digits is the number it writes, the empty string is 0 and
    any other string is not a number; integral numbers are printed in
    decimal (the statements below print no other number).  The local time
    zone is at a fixed offset from UTC. *)
Definition sampleHost (tza : Z) : JsHost :=
  {| legacyDateParse := fun _ => None;
     StringToNumber := fun s => option_map inject_Z (digitsValue 0 s);
     NumberToString := fun q => ZToString (Qfloor q);
     LocalTZA := fun _ => tza |}.

(** UTC; eight hours ahead (Asia/Taipei); five hours behind
    (America/New_York in winter) *)
Definition hostUTC : JsHost := sampleHost 0.
Definition hostTaipei : JsHost := sampleHost 28800000.
Definition hostNewYork : JsHost := sampleHost (-18000000).

(** A form entry of one unit of product [X], category [A] *)
Definition formEntry `{JsHost} (date uuid : string) (amount : Q) : SalesData :=
  App.makeEntry {| App.new日期 := date; App.new類別 := "A"; App.new品名 := "X";
                   App.new數量 := 1; App.new銷售金額 := amount |} uuid.

(** A sheet row with the five required columns *)
Definition sheetRow (d c p q a : jsval) : row :=
  [("日期", d); ("類別", c); ("品名", p); ("數量", q); ("銷售金額", a)].

(** The sum of a list from the right; it is [sum], up to [==] *)
Definition Qsum (l : list Q) : Q := fold_right Qplus 0%Q l.

(** The amounts of the records that pass a test, added up *)
Definition amountWhere (p : SalesData -> bool) (l : list SalesData) : Q :=
  Qsum (map 銷售金額 (filter p l)).

(** The record has the key [k] (its category, its product name) *)
Definition keyIs (key : SalesData -> string) (k : string) (d : SalesData)
  : bool := String.eqb (key d) k.

(** What an object holds after tallying the records [seen]: one entry for
    each key that occurs, with the amounts of its records added up *)
Definition tallied (key : SalesData -> string) (o : obj Q)
  (seen : list SalesData) : Prop :=
  NoDup (keys o)
  /\ Qsum (values o) == Qsum (map 銷售金額 seen)
  /\ forall k,
       (get k o = None -> forall d, In d seen -> key d <> k)
       /\ (forall v, get k o = Some v ->
             v == amountWhere (keyIs key k) seen
             /\ exists d, In d seen /\ key d = k).

(** The object that a [forEach] over the filtered records builds when it
    adds each amount under a key of the record ([productSales] with the
    product name, [categoryMap] with the category) *)
Definition tally (key : SalesData -> string) (l : list SalesData) : obj Q :=
  fold_left (fun o d => addTo (key d) (銷售金額 d) o) l [].

(** [trendMap] after the loop over the filtered records *)
Definition trendMapOf `{JsHost} (viewMode : ViewMode) (isGroupByCategory : bool)
  (categories : list string) (l : list SalesData) : obj TrendBucket :=
  fold_left (trendStep viewMode isGroupByCategory categories) l [].

(** The quantities of the records that pass a test, added up *)
Definition qtyWhere (p : SalesData -> bool) (l : list SalesData) : Q :=
  Qsum (map 數量 (filter p l)).

(** The bucket that [trendStep] creates for a new key, and the bucket it
    puts in the place of [b] for the record [d] *)
Definition freshBucket (isGroupByCategory : bool) (categories : list string)
  (key : string) : TrendBucket :=
  {| date := key; amount := 0; qty := 0;
     byCategory := if isGroupByCategory
                   then fold_left (fun o c => set c 0%Q o) categories []
                   else [] |}.

Definition bumpBucket (isGroupByCategory : bool) (b : TrendBucket)
  (d : SalesData) : TrendBucket :=
  {| date := date b;
     amount := (amount b + 銷售金額 d)%Q;
     qty := (qty b + 數量 d)%Q;
     byCategory := if isGroupByCategory
                   then addTo (類別 d) (銷售金額 d) (byCategory b)
                   else byCategory b |}.

(** The record falls into the bucket [k] and has the category [c] *)
Definition inBucketOf `{JsHost} (viewMode : ViewMode) (k c : string)
  (d : SalesData) : bool :=
  keyIs (bucketKey viewMode) k d && keyIs 類別 c d.

(** What the bucket of the key [k] holds after the records [seen] *)
Definition bucketFor `{JsHost} (viewMode : ViewMode) (isGroupByCategory : bool)
  (categories : list string) (k : string) (seen : list SalesData)
  (b : TrendBucket) : Prop :=
  date b = k
  /\ amount b == amountWhere (keyIs (bucketKey viewMode) k) seen
  /\ qty b == qtyWhere (keyIs (bucketKey viewMode) k) seen
  /\ if isGroupByCategory
     then NoDup (keys (byCategory b))
          /\ (forall c, In c categories -> has c (byCategory b) = true)
          /\ (forall c, get c (byCategory b) = None ->
                        forall d, In d seen ->
                                  inBucketOf viewMode k c d = false)
          /\ (forall c v, get c (byCategory b) = Some v ->
                          v == amountWhere (inBucketOf viewMode k c) seen)
          /\ Qsum (values (byCategory b)) == amount b
     else byCategory b = [].

(** What [trendMap] holds after the records [seen] *)
Definition trended `{JsHost} (viewMode : ViewMode) (isGroupByCategory : bool)
  (categories : list string) (tm : obj TrendBucket) (seen : list SalesData)
  : Prop :=
  NoDup (keys tm)
  /\ Qsum (map amount (values tm)) == Qsum (map 銷售金額 seen)
  /\ Qsum (map qty (values tm)) == Qsum (map 數量 seen)
  /\ forall k,
       (get k tm = None ->
        forall d, In d seen -> bucketKey viewMode d <> k)
       /\ (forall b, get k tm = Some b ->
             bucketFor viewMode isGroupByCategory categories k seen b
             /\ exists d, In d seen /\ bucketKey viewMode d = k).

(** The record has a timestamp that is a number *)
Definition hasTimestamp (d : SalesData) : Prop :=
  exists t, timestamp d = Some t.

(** The record's timestamp lies within the day that its date names, and
    its date is not the empty string *)
Definition datedWithinDay `{JsHost} (d : SalesData) : Prop :=
  日期 d <> ""
  /\ exists m t, epochMillis (日期 d) = Some m /\ timestamp d = Some t
                 /\ m <= t < m + msPerDay.

(** The product of the form is one of the products of its category *)
Definition formConsistent (f : DataInput.FormData) : Prop :=
  exists products p,
    get (DataInput.category f) DataInput.PRODUCT_DATA = Some products
    /\ DataInput.product f = Some p /\ In p products.

(** The month of the local time of [t], counted from the year 0 *)
Definition localMonthIndex `{JsHost} (t : Z) : Z :=
  12 * YearFromTime (LocalTime t) + MonthFromTime (LocalTime t).

(** The day number of the Thursday of the week, from Monday to Sunday,
    that holds the local day of [t] (day 0, 1970-01-01, was a Thursday) *)
Definition isoThursday `{JsHost} (t : Z) : Z :=
  7 * ((Day (LocalTime t) + 3) / 7).

(** The names that an object answers to before a property of that name is
    set, and the fixed fields of a trend bucket.  On every other key an
    object used as a map behaves as the list of its own properties. *)
Definition inheritedNames : list string :=
  ["constructor"; "__proto__"; "hasOwnProperty"; "isPrototypeOf";
   "propertyIsEnumerable"; "toLocaleString"; "toString"; "valueOf";
   "__defineGetter__"; "__defineSetter__"; "__lookupGetter__";
   "__lookupSetter__"].

Definition bucketFields : list string := ["date"; "amount"; "qty"].

Definition plainKeys (names : list string) (key : SalesData -> string)
  (l : list SalesData) : bool :=
  forallb (fun d => negb (existsb (String.eqb (key d)) names)) l.

(** The keys of the trend map, and with the stacking on the categories
    stored beside the fixed fields of a bucket, are plain. *)
Definition plainTrend `{JsHost} (viewMode : ViewMode) (isGroupByCategory : bool)
  (l : list SalesData) : bool :=
  plainKeys inheritedNames (bucketKey viewMode) l
  && (negb isGroupByCategory
      || plainKeys (inheritedNames ++ bucketFields)%list 類別 l).

(** A row that [formatRow] converts without an exception: its date cell,
    when a number, gives a time within the range of [Date]. *)
Definition serialInRange (r : row) : bool :=
  match cell "日期" r with
  | VNum q =>
      Z.abs (MathRound ((q - 25569) * 86400 * 1000)) <=? 8640000000000000
  | _ => true
  end.

(** Amounts and quantities that binary floating point adds without
    rounding, in whatever order: whole numbers whose absolute values add
    up to no more than 2^53. *)
Definition isWhole (q : Q) : bool := Qeq_bool q (inject_Z (Qfloor q)).

Definition wholeAmounts (l : list SalesData) : bool :=
  forallb (fun d => isWhole (銷售金額 d) && isWhole (數量 d)) l
  && Qle_bool (Qsum (map (fun d => Qabs (銷售金額 d)) l))
              (inject_Z 9007199254740992)
  && Qle_bool (Qsum (map (fun d => Qabs (數量 d)) l))
              (inject_Z 9007199254740992).

(** Bucket keys made of digits, [-] and [W], on which [localeCompare] is
    the ordinal comparison. *)
Definition keyChar (c : ascii) : bool :=
  let b := N_of_ascii c in
  ((48 <=? b) && (b <=? 57) || (b =? 45) || (b =? 87))%N.

Definition collatedKeys `{JsHost} (viewMode : ViewMode) (l : list SalesData)
  : bool :=
  forallb (fun d => forallb keyChar
                      (list_ascii_of_string (bucketKey viewMode d))) l.

(** Records, a range and a sheet to evaluate on *)
Definition sampleRecords : list SalesData :=
  [ {| id := "1"; 日期 := "2024-01-15"; 類別 := "A"; 品名 := "X";
       數量 := 2; 銷售金額 := 100; timestamp := Some 1705276800000 |};
    {| id := "2"; 日期 := "2024-03-04"; 類別 := "B"; 品名 := "Y";
       數量 := 1; 銷售金額 := 50; timestamp := Some 1709553600000 |};
    {| id := "3"; 日期 := "2024-03-05"; 類別 := "A"; 品名 := "X";
       數量 := 3; 銷售金額 := 150; timestamp := Some 1709596800000 |} ].

Definition sampleRange : DateRange :=
  {| start := "2024-01-01"; end_ := "2024-03-31" |}.

Definition sampleSheet : list row :=
  [sheetRow (VStr "2024-01-15") (VStr "A") (VStr "X") (VNum 2) (VNum 100);
   sheetRow (VStr "1970-01-01") (VStr "A") (VStr "X") (VNum 2) (VNum 100);
   sheetRow (VNum 45355) (VStr "B") (VStr "Y") (VStr "") (VNum 50)].

Definition sampleState : App.State :=
  {| App.data := sampleRecords; App.isLoading := false; App.console := [];
     App.alerts := []; App.localStorage := None |}.

(* ===================================================================== *)
(** * Calendar arithmetic                                                  *)
(* ===================================================================== *)

Lemma DayFromYear_step y :
  DayFromYear (y + 1) = DayFromYear y + DaysInYear y.
Proof.
  unfold DayFromYear, DaysInYear, isLeap.
  repeat match goal with
         | |- context [?a =? ?b] => destruct (Z.eqb_spec a b)
         end; cbn [negb]; Z.div_mod_to_equations; lia.
Qed.

Lemma YearFromDay_bracket d :
  DayFromYear (YearFromDay d) <= d < DayFromYear (YearFromDay d + 1).
Proof.
  unfold YearFromDay.
  set (y := 1970 + d * 400 / 146097).
  destruct (Z.ltb_spec d (DayFromYear y)).
  - replace (y - 1 + 1) with y by lia. split; [|lia].
    subst y. unfold DayFromYear in *. Z.div_mod_to_equations. lia.
  - destruct (Z.leb_spec (DayFromYear (y + 1)) d).
    + split; [lia|].
      subst y. unfold DayFromYear in *. Z.div_mod_to_equations. lia.
    + lia.
Qed.




Lemma DaysInYear_step y :
  DayFromYear (y + 1) - DayFromYear y = if isLeap y then 366 else 365.
Proof. rewrite DayFromYear_step. unfold DaysInYear. lia. Qed.

Lemma DayWithinYear_range d :
  0 <= DayWithinYear d < (if isLeap (YearFromDay d) then 366 else 365).
Proof.
  unfold DayWithinYear.
  pose proof (YearFromDay_bracket d). pose proof (DaysInYear_step (YearFromDay d)).
  lia.
Qed.

Ltac split_ltb :=
  repeat match goal with
         | |- context [?a <? ?b] => destruct (Z.ltb_spec a b)
         end.

Lemma monthOfYearDay_spec (leap : bool) (dwy : Z) :
  0 <= dwy < (if leap then 366 else 365) ->
  let m := monthOfYearDay leap dwy in
  0 <= m <= 11 /\
  daysBeforeMonth leap m <= dwy < daysBeforeMonth leap (m + 1).
Proof.
  intros Hd. unfold monthOfYearDay.
  destruct leap; cbn [daysBeforeMonth] in *; split_ltb; cbn; lia.
Qed.

Lemma MonthFromDay_range d : 0 <= MonthFromDay d <= 11.
Proof.
  unfold MonthFromDay.
  apply (monthOfYearDay_spec _ _ (DayWithinYear_range d)).
Qed.

Lemma DateFromDay_range d :
  1 <= DateFromDay d <= DaysInMonth (YearFromDay d) (MonthFromDay d).
Proof.
  unfold DateFromDay, DaysInMonth, MonthFromDay.
  pose proof (monthOfYearDay_spec _ _ (DayWithinYear_range d)) as [_ H].
  lia.
Qed.

Lemma MakeDay_civil d :
  MakeDay (YearFromDay d) (MonthFromDay d) (DateFromDay d) = d.
Proof.
  pose proof (MonthFromDay_range d) as Hm.
  unfold MakeDay.
  replace (MonthFromDay d / 12) with 0 by (Z.div_mod_to_equations; lia).
  replace (MonthFromDay d mod 12) with (MonthFromDay d)
    by (Z.div_mod_to_equations; lia).
  rewrite Z.add_0_r. unfold DateFromDay, DayWithinYear. lia.
Qed.

(** ** Decimal strings *)

Lemma digit_cases n :
  exists k, 0 <= k < 10 /\ k = n mod 10 /\
            digit n = ascii_of_N (48 + Z.to_N k).
Proof.
  exists (n mod 10). repeat split; try reflexivity;
    Z.div_mod_to_equations; lia.
Qed.

Ltac digit_case n :=
  let k := fresh "k" in
  let Hk := fresh "Hk" in
  let Hd := fresh "Hd" in
  let E := fresh "E" in
  destruct (digit_cases n) as (k & Hk & E & Hd); rewrite Hd;
  assert (k = 0 \/ k = 1 \/ k = 2 \/ k = 3 \/ k = 4 \/ k = 5 \/ k = 6
          \/ k = 7 \/ k = 8 \/ k = 9) as Hc by lia;
  clear Hk Hd; try rewrite <- E; clear E;
  repeat (destruct Hc as [Hc | Hc]; [subst k | ]); [.. | subst k].

Lemma digitVal_digit n : digitVal (digit n) = Some (n mod 10).
Proof. digit_case n; reflexivity. Qed.

Lemma digit_not_T n : Ascii.eqb (digit n) "T" = false.
Proof. digit_case n; reflexivity. Qed.

Lemma isoDate_ymd t :
  0 <= YearFromTime t <= 9999 ->
  isoDate t = ymd (YearFromTime t) (MonthFromTime t + 1) (DateFromTime t).
Proof.
  intros Hy. unfold isoDate, isoYear.
  destruct (Z.leb_spec 0 (YearFromTime t)); [|lia].
  destruct (Z.leb_spec (YearFromTime t) 9999); [|lia].
  reflexivity.
Qed.

Lemma splitHead_ymd y m d rest :
  splitHead "T" (ymd y m d ++ String "T" rest) = ymd y m d.
Proof.
  unfold ymd. cbn [append splitHead].
  rewrite !digit_not_T. reflexivity.
Qed.

Lemma parseIsoDate_ymd y m d :
  0 <= y <= 9999 -> 1 <= m <= 12 -> 1 <= d <= DaysInMonth y (m - 1) ->
  parseIsoDate (ymd y m d) = Some (MakeDate (MakeDay y (m - 1) d) 0).
Proof.
  intros Hy Hm Hd.
  assert (Hd31 : d <= 31).
  { unfold DaysInMonth in Hd.
    assert (m = 1 \/ m = 2 \/ m = 3 \/ m = 4 \/ m = 5 \/ m = 6 \/ m = 7
            \/ m = 8 \/ m = 9 \/ m = 10 \/ m = 11 \/ m = 12) as Hc by lia.
    repeat (destruct Hc as [Hc | Hc]; [subst m | ]); [.. | subst m];
      destruct (isLeap y); cbn in Hd; lia. }
  unfold ymd, parseIsoDate. rewrite !digitVal_digit.
  replace (1000 * (y / 10 / 10 / 10 mod 10) + 100 * (y / 10 / 10 mod 10)
           + 10 * (y / 10 mod 10) + y mod 10) with y
    by (Z.div_mod_to_equations; lia).
  replace (10 * (m / 10 mod 10) + m mod 10) with m
    by (Z.div_mod_to_equations; lia).
  replace (10 * (d / 10 mod 10) + d mod 10) with d
    by (Z.div_mod_to_equations; lia).
  destruct (Z.leb_spec 1 m); [|lia].
  destruct (Z.leb_spec m 12); [|lia].
  destruct (Z.leb_spec 1 d); [|lia].
  destruct (Z.leb_spec d (DaysInMonth y (m - 1))); [|lia].
  reflexivity.
Qed.

(** Reading back the date part of an ISO string gives midnight of the
    same day. *)
Lemma parseIsoDate_isoDate t :
  0 <= YearFromTime t <= 9999 ->
  parseIsoDate (isoDate t) = Some (Day t * msPerDay).
Proof.
  intros Hy. rewrite isoDate_ymd by assumption.
  unfold YearFromTime, MonthFromTime, DateFromTime in *.
  pose proof (MonthFromDay_range (Day t)).
  pose proof (DateFromDay_range (Day t)).
  rewrite parseIsoDate_ymd; try lia.
  - replace (MonthFromDay (Day t) + 1 - 1) with (MonthFromDay (Day t)) by lia.
    rewrite MakeDay_civil. unfold MakeDate. f_equal. lia.
  - replace (MonthFromDay (Day t) + 1 - 1) with (MonthFromDay (Day t)) by lia.
    assumption.
Qed.

Lemma YearFromTime_range t :
  0 <= t < 253402300800000 -> 1970 <= YearFromTime t <= 9999.
Proof.
  intros Ht. unfold YearFromTime.
  pose proof (YearFromDay_bracket (Day t)) as Hb.
  assert (0 <= Day t < 2932897)
    by (unfold Day, msPerDay; Z.div_mod_to_equations; lia).
  unfold DayFromYear in Hb. Z.div_mod_to_equations. lia.
Qed.

(** ** Rows of an import *)

Section ImportRows.
Context `{JsHost}.

Lemma Day_midnight t : Day (Day t * msPerDay) = Day t.
Proof. unfold Day at 1. apply Z.div_mul. discriminate. Qed.

Lemma isoDate_midnight t : isoDate (Day t * msPerDay) = isoDate t.
Proof.
  unfold isoDate, YearFromTime, MonthFromTime, DateFromTime.
  rewrite Day_midnight. reflexivity.
Qed.

Lemma midnight_bounds t :
  Day t * msPerDay <= t < Day t * msPerDay + msPerDay.
Proof. unfold Day, msPerDay. Z.div_mod_to_equations. lia. Qed.

Lemma TimeClip_inv t u : TimeClip t = Some u -> u = t.
Proof. unfold TimeClip. destruct (_ <=? _); congruence. Qed.

Lemma TimeClip_small t : 0 <= t < year10000 -> TimeClip t = Some t.
Proof.
  intros Ht. unfold TimeClip, year10000 in *.
  destruct (Z.leb_spec (Z.abs t) 8640000000000000); [reflexivity | lia].
Qed.

Lemma isoString_date t :
  0 <= t < year10000 ->
  splitHead "T" (isoDate t ++ "T" ++ isoTime t) = isoDate t.
Proof.
  intros Ht. pose proof (YearFromTime_range t Ht).
  rewrite isoDate_ymd by lia. apply splitHead_ymd.
Qed.

Lemma epochMillis_isoDate t :
  0 <= t < year10000 -> epochMillis (isoDate t) = Some (Day t * msPerDay).
Proof.
  intros Ht. pose proof (YearFromTime_range t Ht).
  unfold epochMillis, getTime, DateOfValue, DateParse.
  rewrite parseIsoDate_isoDate by lia. cbn [DateOfTime].
  apply TimeClip_small. pose proof (midnight_bounds t).
  unfold Day, msPerDay, year10000 in *. Z.div_mod_to_equations. lia.
Qed.

(** What [formatRow] returns: the two number fields are coerced, and the
    date and timestamp either both come from one valid [Date], or are the
    raw cell and 0. *)
Lemma formatRow_inv clock r index x :
  formatRow clock r index = Some x ->
  數量 x = orZero (ToNumber (cell "數量" r)) /\
  銷售金額 x = orZero (ToNumber (cell "銷售金額" r)) /\
  ((exists t, timestamp x = Some t
              /\ 日期 x = splitHead "T" (isoDate t ++ "T" ++ isoTime t))
   \/ (timestamp x = Some 0 /\ DateOfValue (cell "日期" r) = None)).
Proof.
  unfold formatRow. intros Hx.
  destruct (cell "日期" r) eqn:Ec.
  - cbn in Hx. injection Hx as <-. cbn. auto.
  - cbn [DateOfValue getTime toISOString] in Hx.
    destruct (TimeClip (if b then 1 else 0)) as [t|] eqn:Et;
      injection Hx as <-; cbn; eauto 6.
  - cbn [DateOfTime getTime toISOString] in Hx.
    destruct (TimeClip _) as [t|] eqn:Et; [|discriminate].
    injection Hx as <-. cbn. eauto 6.
  - cbn [getTime toISOString] in Hx.
    destruct (DateOfValue (VStr s)) as [t|] eqn:Et;
      injection Hx as <-; cbn; eauto 6.
Qed.

Lemma formatRow_date clock r index x t :
  formatRow clock r index = Some x -> timestamp x = Some t ->
  0 < t < year10000 -> 日期 x = isoDate t.
Proof.
  intros Hx Ht Hr.
  destruct (formatRow_inv _ _ _ _ Hx) as (_ & _ & [(u & Hu & Hd) | (H0 & _)]).
  - assert (u = t) by congruence. subst u.
    rewrite Hd. apply isoString_date. lia.
  - rewrite Ht in H0. injection H0 as ->. lia.
Qed.

(** A row whose date cell is the string [isoDate t] *)
Lemma formatRow_isoDate clock r index t :
  0 <= t < year10000 -> cell "日期" r = VStr (isoDate t) ->
  exists x, formatRow clock r index = Some x /\ 日期 x = isoDate t
            /\ timestamp x = Some (Day t * msPerDay).
Proof.
  intros Ht Hc. unfold formatRow. rewrite Hc.
  pose proof (epochMillis_isoDate t Ht) as He.
  unfold epochMillis, getTime in He. rewrite He.
  cbn [getTime toISOString]. eexists. split; [reflexivity|].
  cbn [日期 timestamp]. split; [|reflexivity].
  rewrite isoDate_midnight.
  pose proof (midnight_bounds t).
  rewrite <- (isoDate_midnight t) at 1.
  rewrite isoString_date.
  - apply isoDate_midnight.
  - unfold Day, msPerDay, year10000 in *. Z.div_mod_to_equations. lia.
Qed.

End ImportRows.

(** ** Batches of an import *)

Section Batch.
Context `{JsHost}.

Lemma mapRows_nth f data : forall index0 mapped,
  mapRows f data index0 = Some mapped ->
  forall i r, nth_error data i = Some r ->
  exists x, f r (index0 + i)%nat = Some x /\ nth_error mapped i = Some x.
Proof.
  induction data as [|r0 data IH]; intros index0 mapped Hm i r Hi.
  - destruct i; discriminate.
  - cbn in Hm. destruct (f r0 index0) as [x0|] eqn:E0; [|discriminate].
    destruct (mapRows f data (S index0)) as [xs|] eqn:Es; [|discriminate].
    injection Hm as <-.
    destruct i as [|i].
    + injection Hi as <-. exists x0. rewrite Nat.add_0_r. auto.
    + cbn in Hi. destruct (IH _ _ Es i r Hi) as (x & Hx & Hn).
      exists x. rewrite Nat.add_succ_r. auto.
Qed.

Lemma mapRows_In f data : forall index0 mapped,
  mapRows f data index0 = Some mapped ->
  forall x, In x mapped ->
  exists i r, nth_error data i = Some r /\ f r (index0 + i)%nat = Some x.
Proof.
  induction data as [|r0 data IH]; intros index0 mapped Hm x Hx.
  - injection Hm as <-. destruct Hx.
  - cbn in Hm. destruct (f r0 index0) as [x0|] eqn:E0; [|discriminate].
    destruct (mapRows f data (S index0)) as [xs|] eqn:Es; [|discriminate].
    injection Hm as <-. destruct Hx as [<- | Hx].
    + exists 0%nat, r0. rewrite Nat.add_0_r. auto.
    + destruct (IH _ _ Es x Hx) as (i & r & Hi & Hf).
      exists (S i), r. rewrite Nat.add_succ_r. auto.
Qed.

(** Records reach [onImportData] in one way only. *)
Lemma handleFileUpload_imported isScriptLoaded XLSX clock errorMsg0 file recs :
  onImportData (handleFileUpload isScriptLoaded XLSX clock errorMsg0 file)
  = Some recs ->
  exists data mapped,
    file = Some (Sheet data)
    /\ mapRows (formatRow clock) data 0 = Some mapped
    /\ recs = filter positiveTimestamp mapped.
Proof.
  unfold handleFileUpload.
  destruct isScriptLoaded; [|discriminate]. cbn [negb].
  destruct file as [[|data]|]; try discriminate;
    destruct XLSX; try discriminate. cbn [negb].
  destruct data as [|firstRow rest]; [discriminate|].
  destruct (Nat.ltb 0 (List.length (filter _ requiredKeys))); [discriminate|].
  destruct (mapRows _ _ _) as [mapped|] eqn:Em; [|discriminate].
  destruct (Nat.ltb 0 (List.length (filter positiveTimestamp mapped)));
    [|discriminate].
  cbn. intros [= <-]. eauto.
Qed.

Lemma imported_iff isScriptLoaded XLSX clock errorMsg0 data recs :
  onImportData (handleFileUpload isScriptLoaded XLSX clock errorMsg0
                                 (Some (Sheet data))) = Some recs ->
  forall i r x, nth_error data i = Some r -> formatRow clock r i = Some x ->
  (In x recs <-> positiveTimestamp x = true).
Proof.
  intros Hr i r x Hi Hx.
  destruct (handleFileUpload_imported _ _ _ _ _ _ Hr)
    as (data' & mapped & [= <-] & Hm & ->).
  rewrite filter_In. split; [tauto|]. intros Hp. split; [|assumption].
  destruct (mapRows_nth _ _ _ _ Hm i r Hi) as (x' & Hx' & Hn).
  cbn in Hx'. rewrite Hx in Hx'. injection Hx' as <-.
  eapply nth_error_In; eassumption.
Qed.

(** [formatRow] throws on one kind of row only. *)
Lemma formatRow_None clock r index :
  formatRow clock r index = None <-> serialInRange r = false.
Proof.
  unfold formatRow, serialInRange.
  destruct (cell "日期" r) as [| b | q | s].
  - cbn. split; discriminate.
  - cbn [DateOfValue getTime toISOString].
    destruct (TimeClip _); split; discriminate.
  - cbn [DateOfTime getTime toISOString]. unfold TimeClip.
    destruct (_ <=? _); split; (discriminate || reflexivity).
  - cbn [getTime toISOString].
    destruct (DateOfValue (VStr s)); split; discriminate.
Qed.

Lemma mapRows_defined clock data : forall index0,
  forallb serialInRange data = true ->
  exists mapped, mapRows (formatRow clock) data index0 = Some mapped.
Proof.
  induction data as [|r data IH]; intros index0 Hd.
  - exists []. reflexivity.
  - cbn [forallb] in Hd. apply andb_prop in Hd. destruct Hd as [Hr Hd].
    cbn [mapRows].
    destruct (formatRow clock r index0) as [x|] eqn:Ex.
    + destruct (IH (S index0) Hd) as (xs & ->). eauto.
    + apply formatRow_None in Ex. congruence.
Qed.

Lemma requiredKeys_present (firstRow : row) :
  (forall key, In key requiredKeys -> has key firstRow = true) ->
  filter (fun key => negb (has key firstRow)) requiredKeys = [].
Proof.
  intros Hkeys. induction requiredKeys as [|key l IH]; [reflexivity|].
  cbn [filter]. rewrite (Hkeys key) by (left; reflexivity). cbn [negb].
  apply IH. intros key' Hk. apply Hkeys. right. exact Hk.
Qed.

(** In a batch whose first row has the required keys and in which no row
    throws, a row with a positive timestamp is handed on. *)
Lemma upload_keeps clock errorMsg0 firstRow rest i r x :
  (forall key, In key requiredKeys -> has key firstRow = true) ->
  forallb serialInRange (firstRow :: rest) = true ->
  nth_error (firstRow :: rest) i = Some r ->
  formatRow clock r i = Some x ->
  positiveTimestamp x = true ->
  exists recs,
    handleFileUpload true true clock errorMsg0
                     (Some (Sheet (firstRow :: rest)))
    = {| errorMsg := ""; onImportData := Some recs |}
    /\ In x recs.
Proof.
  intros Hkeys Hd Hi Hx Hp.
  destruct (mapRows_defined clock _ 0%nat Hd) as (mapped & Hm).
  destruct (mapRows_nth _ _ _ _ Hm i r Hi) as (x' & Hx' & Hn).
  cbn [Nat.add] in Hx'. rewrite Hx in Hx'. injection Hx' as <-.
  assert (Hin : In x (filter positiveTimestamp mapped)).
  { apply filter_In. split; [eapply nth_error_In; eassumption | exact Hp]. }
  exists (filter positiveTimestamp mapped). split; [|exact Hin].
  unfold handleFileUpload. cbn [negb].
  rewrite (requiredKeys_present firstRow Hkeys).
  cbn [List.length Nat.ltb Nat.leb]. rewrite Hm.
  destruct (filter positiveTimestamp mapped); [destruct Hin | reflexivity].
Qed.

End Batch.

(* ===================================================================== *)
(** * Spreadsheet import                                                   *)
(* ===================================================================== *)

Lemma join_concat sep l : join sep l = String.concat sep l.
Proof.
  induction l as [|x [|y l] IH]; [reflexivity | reflexivity |].
  cbn [join String.concat] in *. rewrite IH. reflexivity.
Qed.

Lemma append_assoc (a b c : string) : (a ++ b) ++ c = a ++ b ++ c.
Proof. induction a as [|x a IH]; cbn; [reflexivity | rewrite IH; reflexivity]. Qed.

Lemma append_nil_r (a : string) : a ++ "" = a.
Proof. induction a as [|x a IH]; cbn; [reflexivity | rewrite IH; reflexivity]. Qed.

(** Every element of a joined list can be read in the result. *)
Lemma concat_names sep k l :
  In k l -> exists pre post, String.concat sep l = pre ++ k ++ post.
Proof.
  induction l as [|x l IH]; intros Hk; [destruct Hk|].
  destruct Hk as [-> | Hk].
  - destruct l as [|y l].
    + exists "", "". cbn. rewrite append_nil_r. reflexivity.
    + exists "", (sep ++ String.concat sep (y :: l)). reflexivity.
  - destruct (IH Hk) as (pre & post & E). destruct l as [|y l]; [destruct Hk|].
    exists (x ++ sep ++ pre), post.
    change (String.concat sep (x :: y :: l))
      with (x ++ sep ++ String.concat sep (y :: l)).
    rewrite E, !append_assoc. reflexivity.
Qed.

(** C5, as the code has it.  When a required column is missing from a
    batch that has rows (no row carries its key), the upload stops at the
    check of the first row: the error message is the fixed prefix followed
    by the required keys that the first row lacks, in the order of the
    required keys and separated by a comma and a space, so that the key of
    the missing column can be read in it; [onImportData] is not called,
    and the record set of the application is left as it was. *)
Theorem missing_column_rejects_batch `{JsHost} (clock : nat -> Z)
  (errorMsg0 : string) (firstRow : row) (rest : list row) (k : string)
  (st : App.State) :
  In k requiredKeys ->
  (forall r, In r (firstRow :: rest) -> has k r = false) ->
  let missingKeys :=
    filter (fun key => negb (has key firstRow)) requiredKeys in
  let result :=
    handleFileUpload true true clock errorMsg0
                     (Some (Sheet (firstRow :: rest))) in
  result = {| errorMsg := "缺少欄位：" ++ String.concat ", " missingKeys;
              onImportData := None |}
  /\ In k missingKeys
  /\ (forall k', In k' missingKeys
                 <-> In k' requiredKeys /\ has k' firstRow = false)
  /\ (forall k', In k' missingKeys ->
        exists pre post, errorMsg result = "缺少欄位：" ++ pre ++ k' ++ post)
  /\ App.upload true true clock errorMsg0
                (Some (Sheet (firstRow :: rest))) st
     = (App.Normal ("缺少欄位：" ++ String.concat ", " missingKeys), st).
Proof.
  intros Hk Hmiss missingKeys result.
  assert (Hin : In k missingKeys).
  { apply filter_In. split; [assumption|].
    rewrite (Hmiss firstRow) by (left; reflexivity). reflexivity. }
  assert (Hlen : Nat.ltb 0 (List.length missingKeys) = true).
  { destruct missingKeys; [destruct Hin | reflexivity]. }
  assert (Hres : result
                 = {| errorMsg := "缺少欄位：" ++ String.concat ", " missingKeys;
                      onImportData := None |}).
  { subst result. unfold handleFileUpload. cbn [negb]. fold missingKeys.
    rewrite Hlen, join_concat. reflexivity. }
  split; [exact Hres|]. split; [exact Hin|]. split; [|split].
  - intros k'. unfold missingKeys. rewrite filter_In.
    destruct (has k' firstRow); cbn; intuition congruence.
  - intros k' Hk'. rewrite Hres. cbn [errorMsg].
    destruct (concat_names ", " k' missingKeys Hk') as (pre & post & E).
    exists pre, post. rewrite E. reflexivity.
  - unfold App.upload. fold result. rewrite Hres. reflexivity.
Qed.

Lemma missing_column_rejects_batch_witness :
  let firstRow := [("日期", VStr "2024-01-15"); ("品名", VStr "X");
                   ("銷售金額", VNum 100)] in
  let rest := [[("日期", VStr "2024-01-16"); ("品名", VStr "Y");
                ("類別", VStr "B"); ("銷售金額", VNum 50)]] in
  handleFileUpload (H := hostUTC) true true (fun _ => 0) ""
                   (Some (Sheet (firstRow :: rest)))
  = {| errorMsg := "缺少欄位：類別, 數量"; onImportData := None |}
  /\ App.upload (H := hostUTC) true true (fun _ => 0) ""
                (Some (Sheet (firstRow :: rest))) sampleState
     = (App.Normal "缺少欄位：類別, 數量", sampleState).
Proof.
  intros firstRow rest.
  destruct (missing_column_rejects_batch (H := hostUTC) (fun _ => 0) ""
              firstRow rest "數量" sampleState)
    as (Hres & _ & _ & _ & Hup).
  - cbn. tauto.
  - intros r [<- | [<- | []]]; reflexivity.
  - split; [exact Hres | exact Hup].
Defined.

(** A sheet without rows is skipped by the guard [data.length > 0]: no
    column is looked for, nothing is reported and nothing is handed on,
    whichever columns its header has. *)
Lemma rowless_sheet_reports_nothing :
  (forall r, In r (@nil row) -> has "數量" r = false)
  /\ handleFileUpload (H := hostUTC) true true (fun _ => 0) ""
                      (Some (Sheet []))
     = {| errorMsg := ""; onImportData := None |}
  /\ App.upload (H := hostUTC) true true (fun _ => 0) "" (Some (Sheet []))
                sampleState
     = (App.Normal "", sampleState).
Proof.
  split; [intros r []|]. split; reflexivity.
Qed.

(** The check reads the first row only: a later row without a quantity
    cell does not stop the import, its quantity becomes 0. *)
Lemma later_row_missing_cell_is_kept :
  onImportData
    (handleFileUpload (H := hostUTC) true true (fun _ => 7) ""
       (Some (Sheet [sheetRow (VStr "2024-01-15") (VStr "A") (VStr "X")
                              (VNum 2) (VNum 100);
                     [("日期", VStr "2024-01-16"); ("類別", VStr "A");
                      ("品名", VStr "X"); ("銷售金額", VNum 50)]])))
  = Some [ {| id := "excel-7-0"; 日期 := "2024-01-15"; 類別 := "A";
              品名 := "X"; 數量 := 2; 銷售金額 := 100;
              timestamp := Some 1705276800000 |};
           {| id := "excel-7-1"; 日期 := "2024-01-16"; 類別 := "A";
              品名 := "X"; 數量 := 0; 銷售金額 := 50;
              timestamp := Some 1705363200000 |} ].
Proof. vm_compute. reflexivity. Qed.

(** C10.  Only rows with a timestamp above 0 survive an import: every
    record handed to [onImportData] has a positive timestamp, and a row
    whose date parses to 0 or less is not among them.  The calendar dates
    1970-01-01 and 1969-12-31 are such rows (timestamps 0 and -86400000),
    and so is the serial day 25569. *)
Theorem import_drops_nonpositive_timestamps `{JsHost}
  (isScriptLoaded XLSX : bool) (clock : nat -> Z) (errorMsg0 : string)
  (data : list row) (recs : list SalesData) :
  onImportData (handleFileUpload isScriptLoaded XLSX clock errorMsg0
                                 (Some (Sheet data))) = Some recs ->
  (forall x, In x recs -> exists t, timestamp x = Some t /\ 0 < t)
  /\ (forall i r x t,
        nth_error data i = Some r -> formatRow clock r i = Some x ->
        timestamp x = Some t -> t <= 0 -> ~ In x recs)
  /\ (forall r index, cell "日期" r = VStr "1970-01-01" ->
        exists x, formatRow clock r index = Some x
                  /\ 日期 x = "1970-01-01" /\ timestamp x = Some 0)
  /\ (forall r index, cell "日期" r = VStr "1969-12-31" ->
        exists x, formatRow clock r index = Some x
                  /\ 日期 x = "1969-12-31"
                  /\ timestamp x = Some (-86400000))
  /\ (forall r index, cell "日期" r = VNum 25569 ->
        exists x, formatRow clock r index = Some x
                  /\ 日期 x = "1970-01-01" /\ timestamp x = Some 0).
Proof.
  intros Hr.
  assert (Hpos : forall x, In x recs -> exists t, timestamp x = Some t /\ 0 < t).
  { destruct (handleFileUpload_imported _ _ _ _ _ _ Hr)
      as (data' & mapped & _ & _ & ->).
    intros x Hx. apply filter_In in Hx. destruct Hx as [_ Hp].
    unfold positiveTimestamp in Hp.
    destruct (timestamp x) as [t|]; [|discriminate].
    exists t. split; [reflexivity|]. apply Z.ltb_lt. exact Hp. }
  split; [exact Hpos|]. split.
  - intros i r x t _ _ Ht Hle Hin.
    destruct (Hpos x Hin) as (t' & Ht' & Hlt). rewrite Ht in Ht'.
    injection Ht' as <-. lia.
  - repeat split; intros r index Hc; unfold formatRow; rewrite Hc;
      eexists; (split; [reflexivity|]); split; reflexivity.
Qed.

Lemma import_drops_nonpositive_timestamps_witness :
  let data := [sheetRow (VStr "1970-01-01") (VStr "A") (VStr "X") (VNum 2)
                        (VNum 100);
               sheetRow (VStr "2024-01-15") (VStr "A") (VStr "X") (VNum 2)
                        (VNum 100)] in
  let recs := [ {| id := "excel-0-1"; 日期 := "2024-01-15"; 類別 := "A";
                   品名 := "X"; 數量 := 2; 銷售金額 := 100;
                   timestamp := Some 1705276800000 |} ] in
  onImportData (handleFileUpload (H := hostUTC) true true (fun _ => 0) ""
                                 (Some (Sheet data))) = Some recs
  /\ forall x, In x recs -> exists t, timestamp x = Some t /\ 0 < t.
Proof.
  intros data recs.
  assert (Hr : onImportData
                 (handleFileUpload (H := hostUTC) true true (fun _ => 0) ""
                                   (Some (Sheet data))) = Some recs)
    by (vm_compute; reflexivity).
  split; [exact Hr|].
  exact (proj1 (import_drops_nonpositive_timestamps (H := hostUTC)
                  true true (fun _ => 0) "" data recs Hr)).
Defined.




(** C7, as the code has it.  A formatted row whose timestamp is positive
    and before the year 10000 (every date a spreadsheet can hold, serial
    days 25570 to 2958465, is) has as date the [YYYY-MM-DD] form of the
    UTC day of its timestamp, whether the cell was a serial number or a
    string; and a row whose date cell is that string is given the same
    date again, with the midnight that opens that day as timestamp. *)
Theorem import_date_roundtrip `{JsHost} (clock : nat -> Z) (r : row)
  (index : nat) (x : SalesData) (t : Z) :
  formatRow clock r index = Some x ->
  timestamp x = Some t ->
  0 < t < year10000 ->
  日期 x = isoDate t
  /\ 日期 x = ymd (YearFromTime t) (MonthFromTime t + 1) (DateFromTime t)
  /\ isYMD (日期 x) = true
  /\ forall clock' r' index',
       cell "日期" r' = VStr (日期 x) ->
       exists x', formatRow clock' r' index' = Some x'
                  /\ 日期 x' = 日期 x
                  /\ timestamp x' = Some (Day t * msPerDay).
Proof.
  intros Hx Ht Hr.
  pose proof (formatRow_date _ _ _ _ _ Hx Ht Hr) as Hd.
  unfold year10000 in Hr.
  assert (Hy : 1970 <= YearFromTime t <= 9999)
    by (apply YearFromTime_range; lia).
  split; [exact Hd|]. split; [|split].
  - rewrite Hd. apply isoDate_ymd. lia.
  - unfold isYMD. rewrite Hd, parseIsoDate_isoDate by lia. reflexivity.
  - intros clock' r' index' Hc. rewrite Hd in Hc |- *.
    destruct (formatRow_isoDate clock' r' index' t) as (x' & Hx' & Hd' & Ht');
      [unfold year10000; lia | exact Hc |].
    exists x'. split; [exact Hx'|]. split; assumption.
Qed.

Lemma import_date_roundtrip_witness :
  formatRow (H := hostUTC) (fun _ => 0)
    (sheetRow (VNum 45306.5) (VStr "A") (VStr "X") (VNum 2) (VNum 100)) 0
  = Some {| id := "excel-0-0"; 日期 := "2024-01-15"; 類別 := "A";
            品名 := "X"; 數量 := 2; 銷售金額 := 100;
            timestamp := Some 1705320000000 |}
  /\ 0 < 1705320000000 < year10000
  /\ isYMD "2024-01-15" = true.
Proof.
  assert (Hx : formatRow (H := hostUTC) (fun _ => 0)
                 (sheetRow (VNum 45306.5) (VStr "A") (VStr "X") (VNum 2)
                           (VNum 100)) 0
               = Some {| id := "excel-0-0"; 日期 := "2024-01-15"; 類別 := "A";
                         品名 := "X"; 數量 := 2; 銷售金額 := 100;
                         timestamp := Some 1705320000000 |})
    by (vm_compute; reflexivity).
  assert (Hr : 0 < 1705320000000 < year10000) by (unfold year10000; lia).
  split; [exact Hx|]. split; [exact Hr|].
  exact (proj1 (proj2 (proj2
    (import_date_roundtrip (H := hostUTC) _ _ _ _ _ Hx eq_refl Hr)))).
Defined.

(** C7 as stated fails on a row that survives the import: the numeric
    date cell 2958466 (the day after 9999-12-31) is kept with a date that
    is not of the form [YYYY-MM-DD]. *)
Lemma import_date_year_10000 :
  onImportData
    (handleFileUpload (H := hostUTC) true true (fun _ => 0) ""
       (Some (Sheet [sheetRow (VNum 2958466) (VStr "A") (VStr "X")
                              (VNum 2) (VNum 100)])))
  = Some [ {| id := "excel-0-0"; 日期 := "+010000-01-01"; 類別 := "A";
              品名 := "X"; 數量 := 2; 銷售金額 := 100;
              timestamp := Some 253402300800000 |} ]
  /\ isYMD "+010000-01-01" = false.
Proof. split; vm_compute; reflexivity. Qed.

(** C9, as the code has it.  A form entry takes its timestamp from its
    date, so the two agree.  A formatted row of an import, with a positive
    timestamp before the year 10000, has as date the UTC day of its
    timestamp: [epochMillis] of the date is the midnight that opens that
    day, at most the timestamp and less than a day below it, and equal to
    it exactly when the timestamp falls on a midnight. *)
Theorem timestamp_within_day_of_date `{JsHost} (newData : App.NewData)
  (uuid : string) (clock : nat -> Z) (r : row) (index : nat) (x : SalesData)
  (t : Z) :
  formatRow clock r index = Some x ->
  timestamp x = Some t ->
  0 < t < year10000 ->
  timestamp (App.makeEntry newData uuid)
  = epochMillis (日期 (App.makeEntry newData uuid))
  /\ exists m,
       epochMillis (日期 x) = Some m
       /\ m = Day t * msPerDay
       /\ m <= t < m + msPerDay
       /\ (timestamp x = epochMillis (日期 x) <-> t mod msPerDay = 0).
Proof.
  intros Hx Ht Hr. split; [reflexivity|].
  exists (Day t * msPerDay).
  rewrite (formatRow_date _ _ _ _ _ Hx Ht Hr).
  rewrite epochMillis_isoDate by (unfold year10000 in *; lia). rewrite Ht.
  split; [reflexivity|]. split; [reflexivity|].
  split; [apply midnight_bounds|].
  split.
  - intros [= E]. unfold Day, msPerDay in *. Z.div_mod_to_equations. lia.
  - intros E. f_equal. unfold Day, msPerDay in *.
    Z.div_mod_to_equations. lia.
Qed.

Lemma timestamp_within_day_of_date_witness :
  formatRow (H := hostUTC) (fun _ => 0)
    (sheetRow (VNum 45306.5) (VStr "A") (VStr "X") (VNum 2) (VNum 100)) 0
  = Some {| id := "excel-0-0"; 日期 := "2024-01-15"; 類別 := "A";
            品名 := "X"; 數量 := 2; 銷售金額 := 100;
            timestamp := Some 1705320000000 |}
  /\ 0 < 1705320000000 < year10000
  /\ exists m,
       epochMillis (H := hostUTC) "2024-01-15" = Some m
       /\ m = Day 1705320000000 * msPerDay
       /\ m <= 1705320000000 < m + msPerDay
       /\ (Some 1705320000000 = epochMillis (H := hostUTC) "2024-01-15"
           <-> 1705320000000 mod msPerDay = 0).
Proof.
  assert (Hx : formatRow (H := hostUTC) (fun _ => 0)
                 (sheetRow (VNum 45306.5) (VStr "A") (VStr "X") (VNum 2)
                           (VNum 100)) 0
               = Some {| id := "excel-0-0"; 日期 := "2024-01-15"; 類別 := "A";
                         品名 := "X"; 數量 := 2; 銷售金額 := 100;
                         timestamp := Some 1705320000000 |})
    by (vm_compute; reflexivity).
  assert (Hr : 0 < 1705320000000 < year10000) by (unfold year10000; lia).
  split; [exact Hx|]. split; [exact Hr|].
  exact (proj2
    (timestamp_within_day_of_date (H := hostUTC)
       {| App.new日期 := "2024-01-15"; App.new類別 := "A"; App.new品名 := "X";
          App.new數量 := 2; App.new銷售金額 := 100 |} "uuid"
       _ _ _ _ _ Hx eq_refl Hr)).
Defined.

(** C9 as stated fails on an imported row: the serial day 45306.5 (noon
    of 2024-01-15) survives with the timestamp of noon, twelve hours after
    [epochMillis] of its date. *)
Lemma import_timestamp_differs_from_date :
  exists x,
    onImportData
      (handleFileUpload (H := hostUTC) true true (fun _ => 0) ""
         (Some (Sheet [sheetRow (VNum 45306.5) (VStr "A") (VStr "X")
                                (VNum 2) (VNum 100)]))) = Some [x]
    /\ 日期 x = "2024-01-15"
    /\ timestamp x = Some 1705320000000
    /\ epochMillis (H := hostUTC) (日期 x) = Some 1705276800000
    /\ timestamp x <> epochMillis (H := hostUTC) (日期 x).
Proof.
  eexists. split; [vm_compute; reflexivity|]. cbn [日期 timestamp].
  split; [reflexivity|]. split; [reflexivity|].
  split; [vm_compute; reflexivity|].
  intros E. vm_compute in E. discriminate E.
Qed.

(* ===================================================================== *)
(** * Loading from the remote endpoint                                     *)
(* ===================================================================== *)

(** C8, as the code has it.  [fetchData] always completes normally and
    resets the loading flag.  A reply with status ["success"] replaces the
    record set by its payload; after any other reply the record set is the
    one before the call.  A failure of transport or parsing adds one line
    to the console, any other reply adds none; no alert is raised. *)
Theorem fetchData_outcome (reply : App.Reply) (st : App.State) :
  exists st',
    App.fetchData reply st = (App.Normal tt, st')
    /\ App.isLoading st' = false
    /\ App.data st' = match successPayload reply with
                      | Some payload => payload
                      | None => App.data st
                      end
    /\ App.console st' = (if failedReply reply
                          then App.console st ++ ["Failed to fetch data"]
                          else App.console st)%list
    /\ App.alerts st' = App.alerts st
    /\ App.localStorage st' = App.localStorage st.
Proof.
  unfold App.fetchData, App.tryCatchFinally, App.bind, App.update.
  change App.remoteMode with true. cbv iota.
  destruct reply as [|[[|status payload]|]]; cbn;
    try (eexists; repeat split; reflexivity).
  destruct (App.isSuccess status); cbn; eexists; repeat split; reflexivity.
Qed.

(** C8 as stated fails once records are loaded: after a reply whose
    status is not ["success"] the record set is not empty and nothing is
    reported, and after a failed request the records are kept as well. *)
Lemma fetchData_failure_keeps_records :
  let r := {| id := "1"; 日期 := "2024-01-15"; 類別 := "A"; 品名 := "X";
              數量 := 2; 銷售金額 := 100;
              timestamp := Some 1705276800000 |} in
  let st := {| App.data := [r]; App.isLoading := false; App.console := [];
               App.alerts := []; App.localStorage := None |} in
  App.fetchData (App.Response (Some (App.JsonObject (Some "error") []))) st
  = (App.Normal tt, st)
  /\ App.fetchData App.NetworkError st
     = (App.Normal tt,
        {| App.data := [r]; App.isLoading := false;
           App.console := ["Failed to fetch data"];
           App.alerts := []; App.localStorage := None |}).
Proof. split; reflexivity. Qed.

(* ===================================================================== *)
(** * Aggregation                                                          *)
(* ===================================================================== *)

Lemma filter_all {A} (f : A -> bool) (l : list A) :
  (forall x, In x l -> f x = true) -> filter f l = l.
Proof.
  induction l as [|a l IH]; intros Hall; [reflexivity|].
  cbn. rewrite (Hall a) by (left; reflexivity).
  f_equal. apply IH. intros x Hx. apply Hall. right. exact Hx.
Qed.

Lemma filter_none {A} (f : A -> bool) (l : list A) :
  (forall x, In x l -> f x = false) -> filter f l = [].
Proof.
  induction l as [|a l IH]; intros Hall; [reflexivity|].
  cbn. rewrite (Hall a) by (left; reflexivity).
  apply IH. intros x Hx. apply Hall. right. exact Hx.
Qed.

Lemma reduce_sum {A} (f : A -> Q) (l : list A) : forall acc,
  fold_left (fun acc curr => (acc + f curr)%Q) l acc
  = fold_left Qplus (map f l) acc.
Proof. induction l as [|a l IH]; intros acc; [reflexivity | apply IH]. Qed.

Section Aggregation.
Context `{JsHost}.

(** [processedData] past its guards *)
Lemma processedData_selected externalData dateRange viewMode selectedProduct
  isGroupByCategory startTs endTs :
  externalData <> [] ->
  start dateRange <> "" -> end_ dateRange <> "" ->
  epochMillis (start dateRange) = Some startTs ->
  epochMillis (end_ dateRange) = Some endTs ->
  let filtered := filter (selected startTs endTs selectedProduct) externalData in
  exists vm,
    processedData externalData dateRange viewMode selectedProduct
                  isGroupByCategory = Some vm
    /\ (filtered = [] -> vm = emptyView)
    /\ (filtered <> [] ->
        filteredRaw vm = filtered
        /\ totalSales vm = sum (map 銷售金額 filtered)
        /\ totalQty vm = sum (map 數量 filtered)).
Proof.
  intros Hne Hs He Hst Hen filtered.
  unfold processedData.
  destruct (Nat.eqb_spec (List.length externalData) 0) as [E|_];
    [destruct externalData; [congruence|discriminate]|].
  destruct (String.eqb_spec (start dateRange) ""); [congruence|].
  destruct (String.eqb_spec (end_ dateRange) ""); [congruence|].
  cbn [orb]. unfold epochMillis in Hst, Hen. rewrite Hst, Hen.
  cbn [getTime].
  change (filter _ externalData) with filtered.
  destruct filtered as [|f0 frest] eqn:Ef.
  - cbn [List.length Nat.eqb]. eexists. split; [reflexivity|].
    split; [reflexivity | congruence].
  - cbn [List.length Nat.eqb]. eexists. split; [reflexivity|].
    split; [discriminate|]. intros _. cbn [filteredRaw totalSales totalQty].
    split; [reflexivity|]. unfold sum. rewrite <- !reduce_sum. split; reflexivity.
Qed.

End Aggregation.

(** C1.  Take a record set that is not empty, whose records carry a
    timestamp within the day their date names, and a date range whose two
    ends parse and enclose the date of every record (as the range from the
    earliest to the latest record date does).  With the product filter
    [all], whatever the view mode and grouping, nothing is filtered out:
    [totalSales] is the sum of the amounts of all records and [totalQty]
    the sum of the quantities of the filtered set. *)
Theorem full_range_totals `{JsHost} (externalData : list SalesData)
  (dateRange : DateRange) (viewMode : ViewMode) (isGroupByCategory : bool)
  (startTs endTs : Z) :
  externalData <> [] ->
  start dateRange <> "" -> end_ dateRange <> "" ->
  epochMillis (start dateRange) = Some startTs ->
  epochMillis (end_ dateRange) = Some endTs ->
  (forall d, In d externalData ->
     exists m t, epochMillis (日期 d) = Some m /\ timestamp d = Some t
                 /\ m <= t < m + msPerDay /\ startTs <= m <= endTs) ->
  exists vm,
    processedData externalData dateRange viewMode "all" isGroupByCategory
    = Some vm
    /\ filteredRaw vm = externalData
    /\ totalSales vm = sum (map 銷售金額 externalData)
    /\ totalQty vm = sum (map 數量 (filteredRaw vm)).
Proof.
  intros Hne Hs He Hst Hen Hall.
  destruct (processedData_selected externalData dateRange viewMode "all"
              isGroupByCategory startTs endTs Hne Hs He Hst Hen)
    as (vm & Hvm & _ & Hsel).
  assert (Hf : filter (selected startTs endTs "all") externalData
               = externalData).
  { apply filter_all. intros d Hd.
    destruct (Hall d Hd) as (m & t & _ & Ht & Hday & Hrange).
    unfold selected, inRange. rewrite Ht. cbn [String.eqb orb].
    rewrite andb_true_r. unfold msPerDay in Hday.
    apply andb_true_iff. split; [apply Z.leb_le | apply Z.ltb_lt]; lia. }
  rewrite Hf in Hsel. destruct (Hsel Hne) as (Hraw & Hsales & Hqty).
  exists vm. rewrite Hraw. auto.
Qed.

Lemma full_range_totals_witness :
  let a := {| id := "1"; 日期 := "2024-01-15"; 類別 := "A"; 品名 := "X";
              數量 := 2; 銷售金額 := 100;
              timestamp := Some 1705276800000 |} in
  let b := {| id := "2"; 日期 := "2024-03-04"; 類別 := "B"; 品名 := "Y";
              數量 := 1; 銷售金額 := 50;
              timestamp := Some 1709553600000 |} in
  exists vm,
    processedData (H := hostUTC) [a; b]
      {| start := "2024-01-15"; end_ := "2024-03-04" |} month "all" true
    = Some vm
    /\ filteredRaw vm = [a; b]
    /\ totalSales vm = sum [100%Q; 50%Q]
    /\ totalQty vm = sum (map 數量 (filteredRaw vm)).
Proof.
  intros a b.
  apply (full_range_totals (H := hostUTC) [a; b]
           {| start := "2024-01-15"; end_ := "2024-03-04" |} month true
           1705276800000 1709510400000).
  - discriminate.
  - discriminate.
  - discriminate.
  - vm_compute. reflexivity.
  - vm_compute. reflexivity.
  - intros d [<- | [<- | []]].
    + exists 1705276800000, 1705276800000.
      split; [vm_compute; reflexivity|]. split; [reflexivity|].
      unfold msPerDay. lia.
    + exists 1709510400000, 1709553600000.
      split; [vm_compute; reflexivity|]. split; [reflexivity|].
      unfold msPerDay. lia.
Defined.

(** C2, as the code has it.  For a record set that is not empty and a
    date range whose two ends are set and parse, a selection that keeps no
    record gives the view with totals 0, no trend bucket, no category and
    top product ["-"].  Without records there is no view at all (the
    result is [null]), and likewise when an end of the range is unset or
    does not parse.  The function is total: it returns in every case. *)
Theorem empty_selection_view `{JsHost} (externalData : list SalesData)
  (dateRange : DateRange) (viewMode : ViewMode) (selectedProduct : string)
  (isGroupByCategory : bool) (startTs endTs : Z) :
  externalData <> [] ->
  start dateRange <> "" -> end_ dateRange <> "" ->
  epochMillis (start dateRange) = Some startTs ->
  epochMillis (end_ dateRange) = Some endTs ->
  (forall d, In d externalData ->
             selected startTs endTs selectedProduct d = false) ->
  processedData externalData dateRange viewMode selectedProduct
                isGroupByCategory = Some emptyView
  /\ (forall range mode product group,
        processedData [] range mode product group = None)
  /\ (forall records range mode product group,
        start range = "" \/ end_ range = ""
        \/ epochMillis (start range) = None
        \/ epochMillis (end_ range) = None ->
        processedData records range mode product group = None).
Proof.
  intros Hne Hs He Hst Hen Hnone. split; [|split].
  - destruct (processedData_selected externalData dateRange viewMode
                selectedProduct isGroupByCategory startTs endTs
                Hne Hs He Hst Hen) as (vm & Hvm & Hempty & _).
    rewrite Hvm. f_equal. apply Hempty. apply filter_none. exact Hnone.
  - reflexivity.
  - intros records range mode product group Hbad. unfold processedData.
    destruct (Nat.eqb _ 0); [reflexivity|].
    destruct (String.eqb_spec (start range) ""); [reflexivity|].
    destruct (String.eqb_spec (end_ range) ""); [reflexivity|].
    cbn [orb]. unfold epochMillis in Hbad.
    destruct Hbad as [E | [E | [E | E]]]; try contradiction.
    + rewrite E. reflexivity.
    + rewrite E.
      destruct (getTime (DateOfValue (VStr (start range)))); reflexivity.
Qed.

Lemma empty_selection_view_witness :
  processedData (H := hostUTC)
    [ {| id := "1"; 日期 := "2024-01-15"; 類別 := "A"; 品名 := "X";
         數量 := 2; 銷售金額 := 100; timestamp := Some 1705276800000 |} ]
    {| start := "2024-02-01"; end_ := "2024-02-29" |} week "all" false
  = Some emptyView.
Proof.
  refine (proj1 (empty_selection_view (H := hostUTC) _ _ week "all" false
                   1706745600000 1709164800000 _ _ _ _ _ _)).
  - discriminate.
  - discriminate.
  - discriminate.
  - vm_compute. reflexivity.
  - vm_compute. reflexivity.
  - intros d [<- | []]. vm_compute. reflexivity.
Defined.

(** C2 as stated fails on the empty record set: the result is [null], not
    a view with zeroed totals. *)
Lemma empty_records_no_view :
  processedData (H := hostUTC) []
    {| start := "2024-01-01"; end_ := "2024-01-31" |} day "all" false = None
  /\ processedData (H := hostUTC) []
       {| start := "2024-01-01"; end_ := "2024-01-31" |} day "all" false
     <> Some emptyView.
Proof. split; [reflexivity | discriminate]. Qed.

(** ** Trend buckets *)

Lemma insertSorted_Sorted {A} (le : A -> A -> bool) :
  (forall a b, le a b = false -> le b a = true) ->
  forall x l, Sorted (fun a b => le a b = true) l ->
              Sorted (fun a b => le a b = true) (insertSorted le x l).
Proof.
  intros Htot x l. induction l as [|y l IH]; intros Hs.
  - cbn. constructor; constructor.
  - cbn. destruct (le x y) eqn:E.
    + constructor; [assumption | constructor; assumption].
    + apply Sorted_inv in Hs. destruct Hs as [Hs Hhd].
      constructor; [apply IH; assumption|].
      destruct l as [|z l]; cbn.
      * constructor. apply Htot. assumption.
      * destruct (le x z); constructor.
        -- apply Htot. assumption.
        -- inversion Hhd. assumption.
Qed.

Lemma sortBy_Sorted {A} (le : A -> A -> bool) :
  (forall a b, le a b = false -> le b a = true) ->
  forall l, Sorted (fun a b => le a b = true) (sortBy le l).
Proof.
  intros Htot l. induction l as [|x l IH]; cbn.
  - constructor.
  - apply insertSorted_Sorted; assumption.
Qed.

(** The trend buckets come out in ascending order of their keys, in every
    view mode. *)
Lemma trendData_sorted `{JsHost} externalData dateRange viewMode
  selectedProduct isGroupByCategory vm :
  processedData externalData dateRange viewMode selectedProduct
                isGroupByCategory = Some vm ->
  Sorted (fun a b => localeLe (date a) (date b) = true) (trendData vm).
Proof.
  unfold processedData.
  destruct (Nat.eqb _ 0); [discriminate|].
  destruct (_ || _); [discriminate|].
  destruct (getTime _); [|discriminate].
  destruct (getTime _); [|discriminate].
  destruct (Nat.eqb _ 0); intros [= <-]; cbn [trendData].
  - constructor.
  - apply (sortBy_Sorted (fun a b => localeLe (date a) (date b))).
    intros a b E. unfold localeLe in *.
    destruct (String.leb_total (date a) (date b)); congruence.
Qed.

Lemma getWeekString_2024_01_01 `{JsHost} :
  0 <= LocalTZA 1704067200000 < msPerDay ->
  getWeekString (Some 1704067200000) = "2024-W1".
Proof.
  intros Htz.
  assert (HD : Day (LocalTime 1704067200000) = 19723).
  { unfold Day, LocalTime, msPerDay in *. Z.div_mod_to_equations. lia. }
  unfold getWeekString, getFullYear, getMonth, getDate.
  cbn [option_map].
  unfold YearFromTime, MonthFromTime, DateFromTime. rewrite HD.
  vm_compute. reflexivity.
Qed.

(** West of UTC the same record falls into the last week of 2023: the
    timestamp is midnight UTC, and the week is taken from the local date. *)
Lemma week_key_west_of_UTC :
  bucketKey (H := hostNewYork) week
            (formEntry (H := hostNewYork) "2024-01-01" "id" 100)
  = "2023-W52".
Proof. vm_compute. reflexivity. Qed.

(** C3, on the code.  On a host at or east of UTC, a form entry dated
    2024-01-01 has the timestamp of that midnight in UTC, and its week key
    is ["2024-W1"]: year and week number are those of ISO 8601, the week
    number is written without a leading zero, so the key is not
    ["2024-W01"]. *)
Theorem week_key_not_padded `{JsHost} (uuid : string) (amount : Q) :
  0 <= LocalTZA 1704067200000 < msPerDay ->
  timestamp (formEntry "2024-01-01" uuid amount) = Some 1704067200000
  /\ WeekDay 1704067200000 = 1
  /\ bucketKey week (formEntry "2024-01-01" uuid amount) = "2024-W1"
  /\ bucketKey week (formEntry "2024-01-01" uuid amount) <> "2024-W01".
Proof.
  intros Htz.
  assert (Hk : bucketKey week (formEntry "2024-01-01" uuid amount)
               = "2024-W1").
  { unfold bucketKey.
    change (DateOfTime (timestamp (formEntry "2024-01-01" uuid amount)))
      with (Some 1704067200000).
    apply getWeekString_2024_01_01. exact Htz. }
  split; [reflexivity|]. split; [reflexivity|]. split; [exact Hk|].
  rewrite Hk. discriminate.
Qed.

Lemma week_key_not_padded_witness :
  0 <= @LocalTZA hostTaipei 1704067200000 < msPerDay
  /\ bucketKey (H := hostTaipei) week
               (formEntry (H := hostTaipei) "2024-01-01" "id" 100)
     = "2024-W1".
Proof.
  assert (Htz : 0 <= @LocalTZA hostTaipei 1704067200000 < msPerDay)
    by (cbn; unfold msPerDay; lia).
  split; [exact Htz|].
  exact (proj1 (proj2 (proj2
    (week_key_not_padded (H := hostTaipei) "id" 100 Htz)))).
Defined.

(** C4, on the code.  Two form entries, of 2024-01-08 (week 2) and of
    2024-03-04 (week 10), in week view over the first quarter: the bucket
    of the March entry comes first, because ["2024-W10"] sorts before
    ["2024-W2"]; the order of the keys is not the order of the weeks. *)
Theorem week_buckets_out_of_order :
  let january := formEntry (H := hostTaipei) "2024-01-08" "a" 10 in
  let march := formEntry (H := hostTaipei) "2024-03-04" "b" 20 in
  timestamp january = Some 1704672000000
  /\ timestamp march = Some 1709510400000
  /\ bucketKey (H := hostTaipei) week january = "2024-W2"
  /\ bucketKey (H := hostTaipei) week march = "2024-W10"
  /\ localeLe "2024-W10" "2024-W2" = true
  /\ exists vm,
       processedData (H := hostTaipei) [january; march]
         {| start := "2024-01-01"; end_ := "2024-03-31" |} week "all" false
       = Some vm
       /\ trendData vm
          = [ {| date := "2024-W10"; amount := 20; qty := 1;
                 byCategory := [] |};
              {| date := "2024-W2"; amount := 10; qty := 1;
                 byCategory := [] |} ].
Proof.
  cbv zeta. repeat (split; [vm_compute; reflexivity|]).
  eexists. split; vm_compute; reflexivity.
Qed.

(* ===================================================================== *)
(** * Objects used as maps                                                 *)
(* ===================================================================== *)

Section Objects.
Context {V : Type}.
Implicit Types (o : obj V) (k : string) (v : V).

Lemma has_get k o : has k o = true <-> exists v, get k o = Some v.
Proof.
  unfold has. destruct (get k o) as [v|].
  - split; [eauto | reflexivity].
  - split; [discriminate | intros [v Hv]; discriminate].
Qed.

Lemma has_false_get k o : has k o = false <-> get k o = None.
Proof.
  unfold has. destruct (get k o); split; congruence.
Qed.

Lemma get_In k v o : get k o = Some v -> In (k, v) o.
Proof.
  induction o as [|[k' v'] o IH]; cbn; [discriminate|].
  destruct (String.eqb_spec k k') as [->|_].
  - intros [= ->]. left. reflexivity.
  - intros Hg. right. apply IH. exact Hg.
Qed.

Lemma get_None_keys k o : get k o = None <-> ~ In k (keys o).
Proof.
  induction o as [|[k' v'] o IH]; cbn.
  - split; [intros _ [] | reflexivity].
  - destruct (String.eqb_spec k k') as [->|Hne].
    + split; [discriminate | intros Hn; exfalso; apply Hn; left; reflexivity].
    + rewrite IH. split.
      * intros Hn [E | Hi]; [congruence | contradiction].
      * intros Hn Hi. apply Hn. right. exact Hi.
Qed.

Lemma In_get k v o : NoDup (keys o) -> In (k, v) o -> get k o = Some v.
Proof.
  induction o as [|[k' v'] o IH]; cbn; [intros _ []|].
  intros Hnd [E | Hi].
  - injection E as -> ->. rewrite String.eqb_refl. reflexivity.
  - apply NoDup_cons_iff in Hnd. destruct Hnd as [Hn Hnd].
    destruct (String.eqb_spec k k') as [->|_].
    + exfalso. apply Hn. change (In (fst (k', v)) (map fst o)).
      apply in_map. exact Hi.
    + apply IH; assumption.
Qed.

(** An entry that is present splits the object at its first occurrence. *)
Lemma get_split k v0 o :
  get k o = Some v0 ->
  exists l1 l2, o = (l1 ++ (k, v0) :: l2)%list
                /\ get k l1 = None
                /\ forall v, replace k v o = (l1 ++ (k, v) :: l2)%list.
Proof.
  induction o as [|[k' v'] o IH]; cbn; [discriminate|].
  destruct (String.eqb_spec k k') as [->|Hne].
  - intros [= ->]. exists [], o. repeat split.
  - intros Hg. destruct (IH Hg) as (l1 & l2 & -> & Hn & Hr).
    exists ((k', v') :: l1), l2. cbn.
    destruct (String.eqb_spec k k') as [E|_]; [contradiction|].
    repeat split; [assumption|]. intros v. rewrite Hr. reflexivity.
Qed.

Lemma addIndex_Permutation n k v o :
  Permutation (addIndex n k v o) ((k, v) :: o).
Proof.
  induction o as [|[k' v'] o IH]; cbn; [reflexivity|].
  destruct (arrayIndex k') as [n'|]; [|reflexivity].
  destruct (n' <? n); [|reflexivity].
  rewrite IH. apply perm_swap.
Qed.

(** Creating a key adds one entry; the others stay. *)
Lemma set_absent k v o :
  has k o = false -> Permutation (set k v o) ((k, v) :: o).
Proof.
  intros Hh. unfold set. rewrite Hh.
  destruct (arrayIndex k) as [n|].
  - apply addIndex_Permutation.
  - symmetry. apply Permutation_cons_append.
Qed.

Lemma set_present k v o : has k o = true -> set k v o = replace k v o.
Proof. intros Hh. unfold set. rewrite Hh. reflexivity. Qed.

Lemma keys_replace k v o : keys (replace k v o) = keys o.
Proof.
  unfold keys. induction o as [|[k' v'] o IH]; cbn; [reflexivity|].
  destruct (String.eqb k k'); cbn; [reflexivity|]. rewrite IH. reflexivity.
Qed.

Lemma keys_set k v o :
  Permutation (keys (set k v o)) (if has k o then keys o else k :: keys o).
Proof.
  destruct (has k o) eqn:Hh.
  - rewrite set_present by assumption. rewrite keys_replace. reflexivity.
  - unfold keys. rewrite (set_absent k v o Hh). reflexivity.
Qed.

Lemma NoDup_keys_set k v o : NoDup (keys o) -> NoDup (keys (set k v o)).
Proof.
  intros Hnd. pose proof (keys_set k v o) as Hp.
  destruct (has k o) eqn:Hh.
  - eapply Permutation_NoDup; [symmetry; exact Hp | exact Hnd].
  - eapply Permutation_NoDup; [symmetry; exact Hp |].
    constructor; [|exact Hnd].
    apply get_None_keys. apply has_false_get. exact Hh.
Qed.

Lemma get_Permutation k o o' :
  NoDup (keys o) -> Permutation o o' -> get k o' = get k o.
Proof.
  intros Hnd Hp.
  assert (Hnd' : NoDup (keys o'))
    by (eapply Permutation_NoDup; [apply Permutation_map; exact Hp | exact Hnd]).
  destruct (get k o) as [v|] eqn:Hg.
  - apply In_get; [exact Hnd'|]. eapply Permutation_in; [exact Hp|].
    apply get_In. exact Hg.
  - apply get_None_keys. intros Hi. apply get_None_keys in Hg. apply Hg.
    eapply Permutation_in; [symmetry; apply Permutation_map; exact Hp | exact Hi].
Qed.

(** Reading back what was written, and what was not touched *)
Lemma get_set k v o k' :
  NoDup (keys o) ->
  get k' (set k v o) = if String.eqb k' k then Some v else get k' o.
Proof.
  intros Hnd. destruct (has k o) eqn:Hh.
  - rewrite set_present by assumption.
    apply has_get in Hh. destruct Hh as [v0 Hg].
    destruct (get_split _ _ _ Hg) as (l1 & l2 & Ho & Hn & Hr).
    rewrite Hr. rewrite Ho. clear Hr Ho Hg Hnd o.
    induction l1 as [|[k1 v1] l1 IH]; cbn.
    + destruct (String.eqb k' k); reflexivity.
    + cbn in Hn. destruct (String.eqb_spec k k1) as [->|Hne]; [discriminate|].
      destruct (String.eqb_spec k' k1) as [->|Hne'].
      * destruct (String.eqb_spec k1 k); [congruence | reflexivity].
      * apply IH. exact Hn.
  - assert (Hnd' : NoDup (keys ((k, v) :: o))).
    { cbn. constructor; [|exact Hnd].
      apply get_None_keys. apply has_false_get. exact Hh. }
    rewrite (get_Permutation k' ((k, v) :: o) (set k v o) Hnd').
    + cbn. reflexivity.
    + symmetry. apply set_absent. exact Hh.
Qed.

End Objects.

(** ** Sums *)

Lemma Qsum_app l1 l2 : Qsum (l1 ++ l2) == Qsum l1 + Qsum l2.
Proof.
  unfold Qsum. induction l1 as [|x l1 IH]; cbn [fold_right app]; [lra|].
  rewrite IH. lra.
Qed.

Lemma Qsum_Permutation l l' : Permutation l l' -> Qsum l == Qsum l'.
Proof.
  unfold Qsum. induction 1; cbn [fold_right]; lra.
Qed.

Lemma fold_left_Qplus l : forall acc, fold_left Qplus l acc == acc + Qsum l.
Proof.
  unfold Qsum. induction l as [|x l IH]; intros acc; cbn [fold_left fold_right];
    [lra|]. rewrite IH. lra.
Qed.

Lemma sum_Qsum l : sum l == Qsum l.
Proof. unfold sum. rewrite fold_left_Qplus. lra. Qed.

Lemma orZero_Some q : orZero (Some q) == q.
Proof.
  cbn [orZero]. destruct (Qeq_bool q 0) eqn:E; [|reflexivity].
  apply Qeq_bool_iff in E. symmetry. exact E.
Qed.

Lemma Qsum_values_addTo k x (o : obj Q) :
  Qsum (values (addTo k x o)) == Qsum (values o) + x.
Proof.
  unfold addTo. destruct (has k o) eqn:Hh.
  - rewrite set_present by assumption.
    apply has_get in Hh. destruct Hh as [v0 Hg]. rewrite Hg.
    destruct (get_split _ _ _ Hg) as (l1 & l2 & Ho & _ & Hr).
    rewrite Hr. rewrite Ho. unfold values. rewrite !map_app, !Qsum_app.
    cbn [map snd]. unfold Qsum at 2 4. cbn [fold_right].
    fold (Qsum (map snd l2)). rewrite orZero_Some. lra.
  - pose proof (set_absent k (orZero (get k o) + x)%Q o Hh) as Hp.
    unfold values. rewrite (Qsum_Permutation _ _ (Permutation_map snd Hp)).
    apply has_false_get in Hh. rewrite Hh.
    cbn [map snd]. unfold Qsum at 1. cbn [fold_right orZero].
    fold (Qsum (map snd o)). lra.
Qed.

(** ** The tallies by product and by category *)

Section Tally.
Variable key : SalesData -> string.

Lemma amountWhere_snoc p seen d :
  amountWhere p (seen ++ [d])
  == amountWhere p seen + (if p d then 銷售金額 d else 0)%Q.
Proof.
  unfold amountWhere. rewrite filter_app, map_app, Qsum_app.
  cbn [filter]. destruct (p d); cbn; lra.
Qed.

Lemma amountWhere_none p seen :
  (forall d, In d seen -> p d = false) -> amountWhere p seen == 0.
Proof.
  intros Hn. unfold amountWhere. rewrite (filter_none p seen Hn). reflexivity.
Qed.

Lemma tallied_step o seen d :
  tallied key o seen ->
  tallied key (addTo (key d) (銷售金額 d) o) (seen ++ [d]).
Proof.
  intros (Hnd & Hsum & Hk). split; [|split].
  - apply NoDup_keys_set. exact Hnd.
  - rewrite Qsum_values_addTo, Hsum, map_app, Qsum_app. cbn. lra.
  - intros k. unfold addTo. rewrite get_set by exact Hnd.
    destruct (String.eqb_spec k (key d)) as [->|Hne].
    + split; [discriminate|]. intros v [= <-]. split.
      * rewrite amountWhere_snoc. unfold keyIs at 2.
        rewrite String.eqb_refl.
        destruct (get (key d) o) as [v0|] eqn:Hg.
        -- rewrite orZero_Some. destruct (Hk (key d)) as [_ Hs].
           destruct (Hs v0 Hg) as [Hv _]. rewrite Hv. reflexivity.
        -- destruct (Hk (key d)) as [Hn _].
           rewrite amountWhere_none.
           ++ cbn [orZero]. reflexivity.
           ++ intros d' Hd'. unfold keyIs.
              destruct (String.eqb_spec (key d') (key d)); [|reflexivity].
              exfalso. exact (Hn Hg d' Hd' e).
      * exists d. split; [|reflexivity]. apply in_or_app. right. left.
        reflexivity.
    + destruct (Hk k) as [Hn Hs]. split.
      * intros Hg d' Hd'. apply in_app_or in Hd'.
        destruct Hd' as [Hd' | [<- | []]]; [exact (Hn Hg d' Hd') | congruence].
      * intros v Hg. destruct (Hs v Hg) as [Hv (d' & Hd' & Hkd)]. split.
        -- rewrite amountWhere_snoc. unfold keyIs at 2.
           destruct (String.eqb_spec (key d) k); [congruence|].
           rewrite Hv. lra.
        -- exists d'. split; [apply in_or_app; left|]; assumption.
Qed.

Lemma tallied_fold l : forall o seen,
  tallied key o seen ->
  tallied key (fold_left (fun o d => addTo (key d) (銷售金額 d) o) l o)
          (seen ++ l).
Proof.
  induction l as [|d l IH]; intros o seen Ht; cbn [fold_left].
  - rewrite app_nil_r. exact Ht.
  - replace (seen ++ d :: l)%list with ((seen ++ [d]) ++ l)%list
      by (rewrite <- app_assoc; reflexivity).
    apply IH. apply tallied_step. exact Ht.
Qed.

Lemma tally_tallied l : tallied key (tally key l) l.
Proof.
  apply (tallied_fold l [] []). split; [constructor|]. split; [reflexivity|].
  intros k. split; [intros _ d []|discriminate].
Qed.

End Tally.

(** ** The view of a selection *)

Section View.
Context `{JsHost}.

(** Every view is the empty one, or is built from the records that pass
    the filter, which are some. *)
Lemma processedData_inv externalData dateRange viewMode selectedProduct
  isGroupByCategory vm :
  processedData externalData dateRange viewMode selectedProduct
                isGroupByCategory = Some vm ->
  exists startTs endTs,
    epochMillis (start dateRange) = Some startTs
    /\ epochMillis (end_ dateRange) = Some endTs
    /\ let filtered :=
         filter (selected startTs endTs selectedProduct) externalData in
       (filtered = [] /\ vm = emptyView)
       \/ (filtered <> []
           /\ vm = {| filteredRaw := filtered;
                      totalSales :=
                        fold_left (fun acc curr => (acc + 銷售金額 curr)%Q)
                                  filtered 0%Q;
                      totalQty :=
                        fold_left (fun acc curr => (acc + 數量 curr)%Q)
                                  filtered 0%Q;
                      topProduct :=
                        fst (fold_left pickTop (tally 品名 filtered)
                                       ("-", 0%Q));
                      trendData :=
                        sortBy (fun a b => localeLe (date a) (date b))
                          (values (trendMapOf viewMode isGroupByCategory
                                     (allCategories externalData) filtered));
                      categoryData := tally 類別 filtered |}).
Proof.
  unfold processedData, epochMillis.
  destruct (Nat.eqb _ 0); [discriminate|].
  destruct (_ || _); [discriminate|].
  destruct (getTime (DateOfValue (VStr (start dateRange)))) as [startTs|];
    [|discriminate].
  destruct (getTime (DateOfValue (VStr (end_ dateRange)))) as [endTs|];
    [|discriminate].
  cbv beta iota.
  change (fun d : SalesData =>
            inRange startTs endTs d
            && (String.eqb selectedProduct "all"
                || String.eqb (品名 d) selectedProduct))
    with (selected startTs endTs selectedProduct).
  intros Hvm. exists startTs, endTs. split; [reflexivity|].
  split; [reflexivity|]. cbv zeta.
  destruct (filter (selected startTs endTs selectedProduct) externalData)
    as [|d0 rest] eqn:Ef.
  - left. cbn in Hvm. injection Hvm as <-. auto.
  - right. split; [discriminate|].
    cbn [List.length Nat.eqb] in Hvm. injection Hvm as <-. reflexivity.
Qed.

Lemma filtered_totalSales (l : list SalesData) :
  fold_left (fun acc curr => (acc + 銷售金額 curr)%Q) l 0%Q
  == Qsum (map 銷售金額 l).
Proof. rewrite reduce_sum, fold_left_Qplus. lra. Qed.

Lemma filtered_totalQty (l : list SalesData) :
  fold_left (fun acc curr => (acc + 數量 curr)%Q) l 0%Q
  == Qsum (map 數量 l).
Proof. rewrite reduce_sum, fold_left_Qplus. lra. Qed.


End View.

(** ** The top product *)

Lemma pickTop_fold entries : forall n0 s0 n s,
  fold_left pickTop entries (n0, s0) = (n, s) ->
  (s0 <= s)%Q
  /\ (forall k v, In (k, v) entries -> (v <= s)%Q)
  /\ ((n, s) = (n0, s0) \/ (In (n, s) entries /\ (s0 < s)%Q)).
Proof.
  induction entries as [|[k v] entries IH]; intros n0 s0 n s Hf.
  - cbn in Hf. injection Hf as <- <-. split; [lra|]. split; [intros k v []|].
    left. reflexivity.
  - cbn [fold_left pickTop] in Hf. unfold Qgtb in Hf.
    destruct (Qle_bool v s0) eqn:E; cbn [negb] in Hf.
    + apply Qle_bool_iff in E.
      destruct (IH _ _ _ _ Hf) as (H0 & Hall & Hor).
      split; [exact H0|]. split.
      * intros k' v' [[= <- <-] | Hin]; [lra | eauto].
      * destruct Hor as [-> | [Hin Hlt]]; [left; reflexivity|].
        right. split; [right; exact Hin | exact Hlt].
    + assert (Hlt : (s0 < v)%Q).
      { apply Qnot_le_lt. intros Hle. apply Qle_bool_iff in Hle. congruence. }
      destruct (IH _ _ _ _ Hf) as (H0 & Hall & Hor).
      split; [lra|]. split.
      * intros k' v' [[= <- <-] | Hin]; [lra | eauto].
      * right. destruct Hor as [[= -> ->] | [Hin Hlt']].
        -- split; [left; reflexivity | exact Hlt].
        -- split; [right; exact Hin | lra].
Qed.

(** X2.  For records whose product names are plain keys, the top product
    is a product of the filtered records whose amounts add up to more than
    0 and to no less than those of any other product; it is ["-"] when no
    product adds up to more than 0. *)
Theorem topProduct_best `{JsHost} externalData dateRange viewMode
  selectedProduct isGroupByCategory vm :
  plainKeys inheritedNames 品名 externalData = true ->
  processedData externalData dateRange viewMode selectedProduct
                isGroupByCategory = Some vm ->
  exists maxSale,
    (0 <= maxSale)%Q
    /\ (forall d, In d (filteredRaw vm) ->
          (amountWhere (keyIs 品名 (品名 d)) (filteredRaw vm) <= maxSale)%Q)
    /\ ((topProduct vm = "-" /\ maxSale == 0)
        \/ ((0 < maxSale)%Q
            /\ (exists d, In d (filteredRaw vm) /\ 品名 d = topProduct vm)
            /\ amountWhere (keyIs 品名 (topProduct vm)) (filteredRaw vm)
               == maxSale)).
Proof.
  intros _ Hvm.
  destruct (processedData_inv _ _ _ _ _ _ Hvm)
    as (startTs & endTs & _ & _ & [[_ ->] | [_ ->]]).
  - exists 0%Q. cbn. split; [lra|]. split; [intros d []|].
    left. split; reflexivity.
  - cbn [topProduct filteredRaw].
    set (filtered := filter _ externalData).
    destruct (tally_tallied 品名 filtered) as (Hnd & _ & Hk).
    destruct (fold_left pickTop (tally 品名 filtered) ("-", 0%Q))
      as [n s] eqn:Hf.
    destruct (pickTop_fold _ _ _ _ _ Hf) as (H0 & Hall & Hor).
    exists s. cbn [fst]. split; [exact H0|]. split.
    + intros d Hd. destruct (Hk (品名 d)) as [Hn Hs].
      destruct (get (品名 d) (tally 品名 filtered)) as [v|] eqn:Hg.
      * destruct (Hs v eq_refl) as [Hv _]. rewrite <- Hv.
        apply (Hall (品名 d)). apply get_In. exact Hg.
      * exfalso. exact (Hn eq_refl d Hd eq_refl).
    + destruct Hor as [[= -> ->] | [Hin Hlt]].
      * left. split; reflexivity.
      * right. split; [exact Hlt|].
        destruct (Hk n) as [_ Hs].
        destruct (Hs s (In_get _ _ _ Hnd Hin)) as [Hv Hd].
        split; [exact Hd|]. symmetry. exact Hv.
Qed.

(** ** The trend map *)

Section Measures.
Context {V : Type} (f : V -> Q).

Lemma measure_replace k v0 v (o : obj V) :
  get k o = Some v0 ->
  Qsum (map f (values (replace k v o)))
  == Qsum (map f (values o)) - f v0 + f v.
Proof.
  intros Hg. destruct (get_split _ _ _ Hg) as (l1 & l2 & Ho & _ & Hr).
  rewrite Hr. rewrite Ho. unfold values. rewrite !map_app, !Qsum_app.
  cbn [map snd]. unfold Qsum at 2 4. cbn [fold_right].
  fold (Qsum (map f (map snd l2))). lra.
Qed.

Lemma measure_set_absent k v (o : obj V) :
  has k o = false ->
  Qsum (map f (values (set k v o))) == Qsum (map f (values o)) + f v.
Proof.
  intros Hh. pose proof (set_absent k v o Hh) as Hp.
  unfold values.
  rewrite (Qsum_Permutation _ _
             (Permutation_map f (Permutation_map snd Hp))).
  cbn [map snd]. unfold Qsum at 1. cbn [fold_right].
  fold (Qsum (map f (map snd o))). lra.
Qed.

End Measures.

Section TrendMap.
Context `{JsHost}.
Variables (viewMode : ViewMode) (isGroupByCategory : bool)
          (categories : list string).

(** One step of the loop, on a map without duplicate keys: the bucket of
    the record's key is bumped (created first when it is new), the other
    buckets stay. *)
Lemma trendStep_spec tm d :
  NoDup (keys tm) ->
  let key := bucketKey viewMode d in
  let b0 := match get key tm with
            | Some b => b
            | None => freshBucket isGroupByCategory categories key
            end in
  let b' := bumpBucket isGroupByCategory b0 d in
  let tm' := trendStep viewMode isGroupByCategory categories tm d in
  NoDup (keys tm')
  /\ (forall k, get k tm' = if String.eqb k key then Some b' else get k tm)
  /\ forall f : TrendBucket -> Q,
       f (freshBucket isGroupByCategory categories key) == 0 ->
       Qsum (map f (values tm'))
       == Qsum (map f (values tm)) - f b0 + f b'.
Proof.
  intros Hnd key b0 b' tm'.
  unfold tm', trendStep. fold key.
  change {| date := key; amount := 0; qty := 0;
            byCategory := if isGroupByCategory
                          then fold_left (fun o c => set c 0%Q o) categories []
                          else [] |}
    with (freshBucket isGroupByCategory categories key).
  destruct (has key tm) eqn:Hh.
  - apply has_get in Hh as Hg. destruct Hg as [b Hg].
    subst b0 b'. rewrite Hg.
    change {| date := date b; amount := (amount b + 銷售金額 d)%Q;
              qty := (qty b + 數量 d)%Q;
              byCategory := if isGroupByCategory
                            then addTo (類別 d) (銷售金額 d) (byCategory b)
                            else byCategory b |}
      with (bumpBucket isGroupByCategory b d).
    rewrite <- (set_present key _ tm Hh).
    split; [apply NoDup_keys_set; exact Hnd|]. split.
    + intros k. apply get_set. exact Hnd.
    + intros f _. rewrite (set_present key _ tm Hh).
      apply measure_replace. exact Hg.
  - assert (Hg : get key tm = None) by (apply has_false_get; exact Hh).
    subst b0 b'. rewrite Hg.
    set (fresh := freshBucket isGroupByCategory categories key).
    assert (Hnd1 : NoDup (keys (set key fresh tm)))
      by (apply NoDup_keys_set; exact Hnd).
    assert (Hg1 : get key (set key fresh tm) = Some fresh)
      by (rewrite get_set by exact Hnd; rewrite String.eqb_refl; reflexivity).
    rewrite Hg1.
    change {| date := date fresh; amount := (amount fresh + 銷售金額 d)%Q;
              qty := (qty fresh + 數量 d)%Q;
              byCategory := if isGroupByCategory
                            then addTo (類別 d) (銷售金額 d) (byCategory fresh)
                            else byCategory fresh |}
      with (bumpBucket isGroupByCategory fresh d).
    assert (Hh1 : has key (set key fresh tm) = true)
      by (apply has_get; eauto).
    rewrite <- (set_present key _ _ Hh1).
    split; [apply NoDup_keys_set; exact Hnd1|]. split.
    + intros k. rewrite get_set by exact Hnd1. rewrite get_set by exact Hnd.
      destruct (String.eqb k key); reflexivity.
    + intros f Hf. rewrite (set_present key _ _ Hh1).
      rewrite (measure_replace f key fresh _ _ Hg1).
      rewrite (measure_set_absent f key fresh tm Hh). lra.
Qed.

Lemma zeros_spec cats : forall (o : obj Q),
  NoDup (keys o) -> (forall c v, get c o = Some v -> v = 0%Q) ->
  Qsum (values o) == 0 ->
  let o' := fold_left (fun o c => set c 0%Q o) cats o in
  NoDup (keys o')
  /\ (forall c, In c cats \/ has c o = true -> has c o' = true)
  /\ (forall c v, get c o' = Some v -> v = 0%Q)
  /\ Qsum (values o') == 0.
Proof.
  induction cats as [|c0 cats IH]; intros o Hnd Hz Hs; cbn [fold_left].
  - repeat split; try assumption. intros c [[] | Hc]. exact Hc.
  - destruct (IH (set c0 0%Q o)) as (Hnd' & Hhas & Hz' & Hs').
    + apply NoDup_keys_set. exact Hnd.
    + intros c v. rewrite get_set by exact Hnd.
      destruct (String.eqb c c0); [congruence | apply Hz].
    + destruct (has c0 o) eqn:Hh.
      * apply has_get in Hh as Hg. destruct Hg as [v0 Hg].
        rewrite set_present by exact Hh.
        pose proof (measure_replace (fun q => q) c0 v0 0%Q o Hg) as Hm.
        rewrite !map_id in Hm. rewrite Hm, Hs, (Hz _ _ Hg). lra.
      * pose proof (measure_set_absent (fun q => q) c0 0%Q o Hh) as Hm.
        rewrite !map_id in Hm. rewrite Hm, Hs. lra.
    + split; [exact Hnd'|]. split; [|split; assumption].
      intros c Hc. apply Hhas.
      destruct (String.eqb_spec c c0) as [->|Hne].
      * right. apply has_get. exists 0%Q.
        rewrite get_set by exact Hnd. rewrite String.eqb_refl. reflexivity.
      * destruct Hc as [[E | Hc] | Hc]; [congruence | left; exact Hc |].
        right. apply has_get in Hc. destruct Hc as [v Hv].
        apply has_get. exists v. rewrite get_set by exact Hnd.
        destruct (String.eqb_spec c c0); [contradiction | exact Hv].
Qed.

Lemma qtyWhere_snoc p seen d :
  qtyWhere p (seen ++ [d])
  == qtyWhere p seen + (if p d then 數量 d else 0)%Q.
Proof.
  unfold qtyWhere. rewrite filter_app, map_app, Qsum_app.
  cbn [filter]. destruct (p d); cbn; lra.
Qed.

Lemma qtyWhere_none p seen :
  (forall d, In d seen -> p d = false) -> qtyWhere p seen == 0.
Proof.
  intros Hn. unfold qtyWhere. rewrite (filter_none p seen Hn). reflexivity.
Qed.

(** A bucket for a key that no record has had so far *)
Lemma bucketFor_fresh k seen :
  (forall d, In d seen -> bucketKey viewMode d <> k) ->
  bucketFor viewMode isGroupByCategory categories k seen
            (freshBucket isGroupByCategory categories k).
Proof.
  intros Hn.
  assert (Hk : forall d, In d seen -> keyIs (bucketKey viewMode) k d = false).
  { intros d Hd. unfold keyIs.
    destruct (String.eqb_spec (bucketKey viewMode d) k); [|reflexivity].
    exfalso. exact (Hn d Hd e). }
  unfold bucketFor, freshBucket. cbn [date amount qty byCategory].
  split; [reflexivity|].
  split; [rewrite amountWhere_none by exact Hk; reflexivity|].
  split; [rewrite qtyWhere_none by exact Hk; reflexivity|].
  destruct isGroupByCategory; [|reflexivity].
  destruct (zeros_spec categories []) as (Hnd & Hhas & Hz & Hs).
  { constructor. } { intros c v; discriminate. } { reflexivity. }
  assert (Hb : forall c d, In d seen -> inBucketOf viewMode k c d = false).
  { intros c d Hd. unfold inBucketOf. rewrite (Hk d Hd). reflexivity. }
  split; [exact Hnd|]. split; [intros c Hc; apply Hhas; left; exact Hc|].
  split; [intros c _ d Hd; apply Hb; exact Hd|].
  split; [|exact Hs].
  intros c v Hg. rewrite (Hz c v Hg).
  rewrite amountWhere_none by (intros d Hd; apply Hb; exact Hd). reflexivity.
Qed.

(** The bucket of the record's key, after the record *)
Lemma bucketFor_bump seen b d :
  bucketFor viewMode isGroupByCategory categories (bucketKey viewMode d) seen b ->
  bucketFor viewMode isGroupByCategory categories (bucketKey viewMode d)
            (seen ++ [d]) (bumpBucket isGroupByCategory b d).
Proof.
  intros (Hd & Ha & Hq & Hc).
  unfold bucketFor, bumpBucket. cbn [date amount qty byCategory].
  split; [exact Hd|].
  split.
  { rewrite amountWhere_snoc. unfold keyIs at 2. rewrite String.eqb_refl.
    rewrite Ha. reflexivity. }
  split.
  { rewrite qtyWhere_snoc. unfold keyIs at 2. rewrite String.eqb_refl.
    rewrite Hq. reflexivity. }
  destruct isGroupByCategory; [|exact Hc].
  destruct Hc as (Hnd & Hhas & Hnone & Hsome & Hsum).
  split; [apply NoDup_keys_set; exact Hnd|].
  split.
  { intros c Hin. apply has_get. unfold addTo. rewrite get_set by exact Hnd.
    destruct (String.eqb c (類別 d)); [eauto|].
    apply has_get. apply Hhas. exact Hin. }
  split.
  { intros c. unfold addTo. rewrite get_set by exact Hnd.
    destruct (String.eqb_spec c (類別 d)) as [->|Hne]; [discriminate|].
    intros Hg d' Hd'. apply in_app_or in Hd'.
    destruct Hd' as [Hd' | [<- | []]]; [apply (Hnone c Hg d' Hd')|].
    unfold inBucketOf, keyIs at 2.
    destruct (String.eqb_spec (類別 d) c); [congruence|].
    apply andb_false_r. }
  split.
  { intros c v. unfold addTo. rewrite get_set by exact Hnd.
    rewrite amountWhere_snoc. unfold inBucketOf at 2, keyIs.
    rewrite String.eqb_refl. cbn [andb].
    destruct (String.eqb_spec c (類別 d)) as [->|Hne].
    - intros [= <-]. rewrite String.eqb_refl.
      destruct (get (類別 d) (byCategory b)) as [v0|] eqn:Hg.
      + rewrite orZero_Some. rewrite (Hsome _ _ Hg). reflexivity.
      + rewrite amountWhere_none by (apply Hnone; exact Hg).
        cbn [orZero]. reflexivity.
    - intros Hg. destruct (String.eqb_spec (類別 d) c); [congruence|].
      rewrite (Hsome _ _ Hg). lra. }
  rewrite Qsum_values_addTo, Hsum. reflexivity.
Qed.

(** Another bucket, after the record *)
Lemma bucketFor_other k seen b d :
  bucketKey viewMode d <> k ->
  bucketFor viewMode isGroupByCategory categories k seen b ->
  bucketFor viewMode isGroupByCategory categories k (seen ++ [d]) b.
Proof.
  intros Hne (Hd & Ha & Hq & Hc).
  assert (Hk : keyIs (bucketKey viewMode) k d = false).
  { unfold keyIs. destruct (String.eqb_spec (bucketKey viewMode d) k);
      [contradiction | reflexivity]. }
  unfold bucketFor. split; [exact Hd|].
  split; [rewrite amountWhere_snoc, Hk, Ha; lra|].
  split; [rewrite qtyWhere_snoc, Hk, Hq; lra|].
  destruct isGroupByCategory; [|exact Hc].
  destruct Hc as (Hnd & Hhas & Hnone & Hsome & Hsum).
  split; [exact Hnd|]. split; [exact Hhas|]. split.
  - intros c Hg d' Hd'. apply in_app_or in Hd'.
    destruct Hd' as [Hd' | [<- | []]]; [apply (Hnone c Hg d' Hd')|].
    unfold inBucketOf. rewrite Hk. reflexivity.
  - split; [|exact Hsum]. intros c v Hg.
    rewrite amountWhere_snoc. unfold inBucketOf at 2. rewrite Hk.
    cbn [andb]. rewrite (Hsome _ _ Hg). lra.
Qed.

Lemma trended_step tm seen d :
  trended viewMode isGroupByCategory categories tm seen ->
  trended viewMode isGroupByCategory categories
          (trendStep viewMode isGroupByCategory categories tm d)
          (seen ++ [d]).
Proof.
  intros (Hnd & Hsa & Hsq & Hk).
  destruct (trendStep_spec tm d Hnd) as (Hnd' & Hget & Hm).
  set (key := bucketKey viewMode d) in *.
  set (b0 := match get key tm with
             | Some b => b
             | None => freshBucket isGroupByCategory categories key
             end) in *.
  assert (Hb0 : bucketFor viewMode isGroupByCategory categories key seen b0).
  { subst b0. destruct (Hk key) as [Hn Hs].
    destruct (get key tm) as [b|] eqn:Hg.
    - exact (proj1 (Hs b eq_refl)).
    - apply bucketFor_fresh. exact (Hn eq_refl). }
  split; [exact Hnd'|]. split; [|split].
  - rewrite (Hm amount) by reflexivity. rewrite Hsa, map_app, Qsum_app.
    cbn. lra.
  - rewrite (Hm qty) by reflexivity. rewrite Hsq, map_app, Qsum_app.
    cbn. lra.
  - intros k. rewrite Hget.
    destruct (String.eqb_spec k key) as [->|Hne].
    + split; [discriminate|]. intros b [= <-]. split.
      * apply bucketFor_bump. exact Hb0.
      * exists d. split; [apply in_or_app; right; left|]; reflexivity.
    + destruct (Hk k) as [Hn Hs]. split.
      * intros Hg d' Hd'. apply in_app_or in Hd'.
        destruct Hd' as [Hd' | [<- | []]]; [exact (Hn Hg d' Hd')|].
        fold key. congruence.
      * intros b Hg. destruct (Hs b Hg) as [Hb (d' & Hd' & Hkd)]. split.
        -- apply bucketFor_other; [fold key; congruence | exact Hb].
        -- exists d'. split; [apply in_or_app; left|]; assumption.
Qed.

Lemma trended_fold l : forall tm seen,
  trended viewMode isGroupByCategory categories tm seen ->
  trended viewMode isGroupByCategory categories
          (fold_left (trendStep viewMode isGroupByCategory categories) l tm)
          (seen ++ l).
Proof.
  induction l as [|d l IH]; intros tm seen Ht; cbn [fold_left].
  - rewrite app_nil_r. exact Ht.
  - replace (seen ++ d :: l)%list with ((seen ++ [d]) ++ l)%list
      by (rewrite <- app_assoc; reflexivity).
    apply IH. apply trended_step. exact Ht.
Qed.

Lemma trendMapOf_trended l :
  trended viewMode isGroupByCategory categories
          (trendMapOf viewMode isGroupByCategory categories l) l.
Proof.
  apply (trended_fold l [] []). split; [constructor|].
  split; [reflexivity|]. split; [reflexivity|].
  intros k. split; [intros _ d []|discriminate].
Qed.

End TrendMap.

(** ** Sorting *)

Lemma insertSorted_Permutation {A} (le : A -> A -> bool) x l :
  Permutation (insertSorted le x l) (x :: l).
Proof.
  induction l as [|y l IH]; cbn; [reflexivity|].
  destruct (le x y); [reflexivity|].
  rewrite IH. apply perm_swap.
Qed.

Lemma sortBy_Permutation {A} (le : A -> A -> bool) l :
  Permutation (sortBy le l) l.
Proof.
  induction l as [|x l IH]; cbn; [reflexivity|].
  rewrite insertSorted_Permutation. constructor. exact IH.
Qed.

(** ** The trend series *)

Section Trend.
Context `{JsHost}.

Lemma trended_entries viewMode isGroupByCategory categories tm seen :
  trended viewMode isGroupByCategory categories tm seen ->
  map date (values tm) = keys tm
  /\ forall b, In b (values tm) ->
       bucketFor viewMode isGroupByCategory categories (date b) seen b.
Proof.
  intros (Hnd & _ & _ & Hk).
  assert (He : forall k b, In (k, b) tm ->
                 bucketFor viewMode isGroupByCategory categories k seen b).
  { intros k b Hin. apply (Hk k). apply In_get; assumption. }
  split.
  - clear Hnd Hk. unfold values, keys. induction tm as [|[k b] tm IH];
      [reflexivity|].
    cbn [map fst snd]. f_equal.
    + destruct (He k b) as [Hd _]; [left; reflexivity | exact Hd].
    + apply IH. intros k' b' Hin. apply He. right. exact Hin.
  - intros b Hb. unfold values in Hb. apply in_map_iff in Hb.
    destruct Hb as ([k b'] & <- & Hin). cbn [snd].
    pose proof (He k b' Hin) as Hb. destruct Hb as [Hd Hrest] eqn:E.
    rewrite Hd. exact (He k b' Hin).
Qed.

(** X3.  For records whose bucket keys (and, with the stacking on, whose
    categories) are plain, the trend series has one bucket for each key
    that a filtered record falls under and no other; where the keys are
    made of digits, [-] and [W] the buckets are in the ascending order of
    their keys; a bucket holds the amounts and the quantities of its
    records, added up from 0 in the order of the records; where the
    amounts and the quantities are whole and add without rounding, the
    buckets add up to [totalSales] and [totalQty]. *)
Theorem trendData_buckets externalData dateRange viewMode selectedProduct
  isGroupByCategory vm :
  plainTrend viewMode isGroupByCategory externalData = true ->
  processedData externalData dateRange viewMode selectedProduct
                isGroupByCategory = Some vm ->
  (collatedKeys viewMode (filteredRaw vm) = true ->
   Sorted (fun a b => localeLe (date a) (date b) = true) (trendData vm))
  /\ NoDup (map date (trendData vm))
  /\ (forall k, In k (map date (trendData vm))
                <-> exists d, In d (filteredRaw vm)
                              /\ bucketKey viewMode d = k)
  /\ (forall b, In b (trendData vm) ->
        amount b
        == sum (map 銷售金額 (filter (keyIs (bucketKey viewMode) (date b))
                                     (filteredRaw vm)))
        /\ qty b
           == sum (map 數量 (filter (keyIs (bucketKey viewMode) (date b))
                                    (filteredRaw vm))))
  /\ (wholeAmounts (filteredRaw vm) = true ->
      Qsum (map amount (trendData vm)) == totalSales vm
      /\ Qsum (map qty (trendData vm)) == totalQty vm).
Proof.
  intros _ Hvm.
  split; [intros _; exact (trendData_sorted _ _ _ _ _ _ Hvm)|].
  destruct (processedData_inv _ _ _ _ _ _ Hvm)
    as (startTs & endTs & _ & _ & [[_ ->] | [_ ->]]).
  - cbn. split; [constructor|]. split.
    + intros k. split; [intros [] | intros (d & [] & _)].
    + split; [intros b []|]. intros _. split; reflexivity.
  - cbn [trendData filteredRaw totalSales totalQty].
    set (filtered := filter _ externalData).
    set (tm := trendMapOf viewMode isGroupByCategory
                          (allCategories externalData) filtered).
    pose proof (trendMapOf_trended viewMode isGroupByCategory
                  (allCategories externalData) filtered) as Ht.
    fold tm in Ht.
    destruct (trended_entries _ _ _ _ _ Ht) as [Hkeys Hb].
    destruct Ht as (Hnd & Hsa & Hsq & Hk).
    pose proof (sortBy_Permutation
                  (fun a b => localeLe (date a) (date b)) (values tm)) as Hp.
    split.
    { eapply Permutation_NoDup;
        [symmetry; apply Permutation_map; exact Hp|].
      rewrite Hkeys. exact Hnd. }
    split.
    { intros k.
      assert (Hiff : In k (map date (sortBy (fun a b => localeLe (date a) (date b))
                                            (values tm)))
                     <-> In k (keys tm)).
      { rewrite <- Hkeys. split; apply Permutation_in;
          [|symmetry]; apply Permutation_map; exact Hp. }
      rewrite Hiff. destruct (Hk k) as [Hn Hs]. split.
      - intros Hin. destruct (get k tm) as [b|] eqn:Hg.
        + exact (proj2 (Hs b eq_refl)).
        + apply get_None_keys in Hg. contradiction.
      - intros (d & Hd & Hkd). destruct (get k tm) as [b|] eqn:Hg.
        + apply get_In in Hg. change k with (fst (k, b)).
          apply in_map. exact Hg.
        + exfalso. exact (Hn eq_refl d Hd Hkd). }
    split.
    { intros b Hin. apply (Permutation_in _ Hp) in Hin.
      destruct (Hb b Hin) as (_ & Ha & Hq & _). rewrite !sum_Qsum.
      split; assumption. }
    intros _. split.
    + rewrite (Qsum_Permutation _ _ (Permutation_map amount Hp)).
      rewrite filtered_totalSales. exact Hsa.
    + rewrite (Qsum_Permutation _ _ (Permutation_map qty Hp)).
      rewrite filtered_totalQty. exact Hsq.
Qed.

(** X4.  For records whose bucket keys and categories are plain: with
    the category stacking on, every bucket has a value for every category
    of the whole record set: the amounts of the bucket's records of that
    category, added up from 0 in the order of the records (0 when it has
    none), and, where the amounts are whole and add without rounding, the
    values of a bucket add up to its amount.  With the stacking off a
    bucket has no value by category. *)
Theorem trendData_stacks externalData dateRange viewMode selectedProduct
  isGroupByCategory vm b :
  plainTrend viewMode isGroupByCategory externalData = true ->
  processedData externalData dateRange viewMode selectedProduct
                isGroupByCategory = Some vm ->
  In b (trendData vm) ->
  if isGroupByCategory
  then (forall c, In c (allCategories externalData) ->
          exists v, get c (byCategory b) = Some v
                    /\ v == sum (map 銷售金額
                                     (filter (inBucketOf viewMode (date b) c)
                                             (filteredRaw vm))))
       /\ NoDup (keys (byCategory b))
       /\ (wholeAmounts (filteredRaw vm) = true ->
           Qsum (values (byCategory b)) == amount b)
  else byCategory b = [].
Proof.
  intros _ Hvm Hin.
  destruct (processedData_inv _ _ _ _ _ _ Hvm)
    as (startTs & endTs & _ & _ & [[_ ->] | [_ ->]]); [destruct Hin|].
  cbn [trendData filteredRaw] in *.
  set (filtered := filter _ externalData) in *.
  set (tm := trendMapOf viewMode isGroupByCategory
                        (allCategories externalData) filtered) in *.
  pose proof (trendMapOf_trended viewMode isGroupByCategory
                (allCategories externalData) filtered) as Ht.
  fold tm in Ht.
  destruct (trended_entries _ _ _ _ _ Ht) as [_ Hb].
  apply (Permutation_in _ (sortBy_Permutation _ _)) in Hin.
  destruct (Hb b Hin) as (_ & _ & _ & Hc).
  destruct isGroupByCategory; [|exact Hc].
  destruct Hc as (Hnd & Hhas & _ & Hsome & Hsum).
  split; [|split; [assumption | intros _; assumption]].
  intros c Hcin. pose proof (Hhas c Hcin) as Hh.
  apply has_get in Hh. destruct Hh as [v Hv].
  exists v. split; [exact Hv | rewrite sum_Qsum; apply Hsome; exact Hv].
Qed.

End Trend.

(** ** The lists of the filter bar *)

Lemma existsb_eqb_In x seen :
  existsb (String.eqb x) seen = true <-> In x seen.
Proof.
  rewrite existsb_exists. split.
  - intros (y & Hy & E). apply String.eqb_eq in E. subst y. exact Hy.
  - intros Hx. exists x. split; [exact Hx | apply String.eqb_refl].
Qed.

Lemma dedup_spec l : forall seen,
  NoDup (dedup seen l)
  /\ forall x, In x (dedup seen l) <-> In x l /\ ~ In x seen.
Proof.
  induction l as [|y l IH]; intros seen; cbn [dedup].
  - split; [constructor|]. intros x. split; [intros [] | intros [[] _]].
  - destruct (existsb (String.eqb y) seen) eqn:E.
    + apply existsb_eqb_In in E. destruct (IH seen) as [Hnd Hin].
      split; [exact Hnd|]. intros x. rewrite Hin. split.
      * intros [Hx Hn]. split; [right; exact Hx | exact Hn].
      * intros [[<- | Hx] Hn]; [contradiction | split; assumption].
    + assert (Hy : ~ In y seen).
      { intros Hy. apply existsb_eqb_In in Hy. congruence. }
      destruct (IH (y :: seen)) as [Hnd Hin]. split.
      * constructor; [|exact Hnd]. rewrite Hin. intros [_ Hn].
        apply Hn. left. reflexivity.
      * intros x. cbn [In]. rewrite Hin. cbn [In]. split.
        -- intros [<- | [Hx Hn]]; [split; [left; reflexivity | exact Hy]|].
           split; [right; exact Hx | tauto].
        -- intros [[<- | Hx] Hn]; [left; reflexivity|].
           destruct (string_dec y x) as [->|Hne]; [left; reflexivity|].
           right. split; [exact Hx|]. intros [E' | Hs]; [congruence | tauto].
Qed.

Lemma codeUnitLe_total a : forall b,
  codeUnitLe a b = false -> codeUnitLe b a = true.
Proof.
  induction a as [|x a IH]; intros [|y b]; cbn; try congruence.
  destruct (N.ltb_spec (unitWeight x) (unitWeight y)); [discriminate|].
  destruct (N.ltb_spec (unitWeight y) (unitWeight x)); [reflexivity|].
  apply IH.
Qed.

Lemma codeUnitLe_trans a : forall b c,
  codeUnitLe a b = true -> codeUnitLe b c = true -> codeUnitLe a c = true.
Proof.
  induction a as [|x a IH]; intros [|y b] [|z c]; cbn; try congruence.
  destruct (N.ltb_spec (unitWeight x) (unitWeight y)),
           (N.ltb_spec (unitWeight y) (unitWeight x)),
           (N.ltb_spec (unitWeight y) (unitWeight z)),
           (N.ltb_spec (unitWeight z) (unitWeight y)),
           (N.ltb_spec (unitWeight x) (unitWeight z)),
           (N.ltb_spec (unitWeight z) (unitWeight x));
    try congruence; try lia.
  apply IH.
Qed.

(** A character beyond U+FFFF goes before one of U+E000 to U+FFFF, where
    the bytes are in the other order. *)
Lemma codeUnitLe_surrogates :
  codeUnitLe "😀" "Ａ" = true /\ codeUnitLe "Ａ" "😀" = false
  /\ String.leb "😀" "Ａ" = false.
Proof. vm_compute. repeat split. Qed.

(** Where no character lies beyond U+DFFF the order is that of the bytes. *)
Lemma codeUnitLe_bytes a : forall b,
  forallb (fun c => (N_of_ascii c <? 238)%N) (list_ascii_of_string a) = true ->
  forallb (fun c => (N_of_ascii c <? 238)%N) (list_ascii_of_string b) = true ->
  codeUnitLe a b = true <-> (String.compare a b <> Gt).
Proof.
  induction a as [|x a IH]; intros [|y b]; cbn [list_ascii_of_string forallb];
    intros Ha Hb; cbn [codeUnitLe String.compare].
  - split; [discriminate | reflexivity].
  - split; [discriminate | reflexivity].
  - split; [discriminate | congruence].
  - apply andb_prop in Ha, Hb. destruct Ha as [Hx Ha], Hb as [Hy Hb].
    apply N.ltb_lt in Hx, Hy.
    assert (Wx : unitWeight x = N_of_ascii x).
    { unfold unitWeight.
      destruct (N.leb_spec 240 (N_of_ascii x)); [lia|].
      destruct (N.leb_spec 238 (N_of_ascii x)); [lia | reflexivity]. }
    assert (Wy : unitWeight y = N_of_ascii y).
    { unfold unitWeight.
      destruct (N.leb_spec 240 (N_of_ascii y)); [lia|].
      destruct (N.leb_spec 238 (N_of_ascii y)); [lia | reflexivity]. }
    rewrite Wx, Wy. unfold Ascii.compare.
    destruct (N.compare_spec (N_of_ascii x) (N_of_ascii y)) as [E | L | G].
    + rewrite E, N.ltb_irrefl. apply IH; assumption.
    + apply N.ltb_lt in L. rewrite L. split; [discriminate | reflexivity].
    + destruct (N.ltb_spec (N_of_ascii x) (N_of_ascii y)); [lia|].
      apply N.ltb_lt in G. rewrite G. split; [discriminate | congruence].
Qed.

(** X5.  The categories and the products offered by the dashboard are those of
    the records, each once, in the ascending order of [sort], that of the
    UTF-16 code units. *)
Theorem allCategories_allProducts (externalData : list SalesData) :
  (StronglySorted (fun a b => codeUnitLe a b = true)
                  (allCategories externalData)
   /\ NoDup (allCategories externalData)
   /\ forall c, In c (allCategories externalData)
                <-> exists d, In d externalData /\ 類別 d = c)
  /\ (StronglySorted (fun a b => codeUnitLe a b = true)
                     (allProducts externalData)
      /\ NoDup (allProducts externalData)
      /\ forall p, In p (allProducts externalData)
                   <-> exists d, In d externalData /\ 品名 d = p).
Proof.
  assert (Hgen : forall key : SalesData -> string,
            let l := sortBy codeUnitLe (dedup [] (map key externalData)) in
            StronglySorted (fun a b => codeUnitLe a b = true) l
            /\ NoDup l
            /\ forall c, In c l <-> exists d, In d externalData /\ key d = c).
  { intros key l. subst l.
    pose proof (sortBy_Permutation codeUnitLe
                  (dedup [] (map key externalData))) as Hp.
    destruct (dedup_spec (map key externalData) []) as [Hnd Hin].
    split; [|split].
    - apply Sorted_StronglySorted.
      + intros a b c. apply codeUnitLe_trans.
      + apply sortBy_Sorted. intros a b E. apply codeUnitLe_total. exact E.
    - eapply Permutation_NoDup; [symmetry; exact Hp | exact Hnd].
    - intros c. split.
      + intros Hc. apply (Permutation_in _ Hp) in Hc. apply Hin in Hc.
        destruct Hc as [Hc _]. apply in_map_iff in Hc.
        destruct Hc as (d & E & Hd). eauto.
      + intros (d & Hd & E). apply (Permutation_in _ (Permutation_sym Hp)).
        apply Hin. split; [|intros []]. subst c. apply in_map. exact Hd. }
  split; [exact (Hgen 類別) | exact (Hgen 品名)].
Qed.

Lemma insertSorted_StronglySorted {A} (le : A -> A -> bool) (Q : A -> Prop) :
  (forall a b, Q a -> Q b -> le a b = false -> le b a = true) ->
  (forall a b c, Q a -> Q b -> Q c ->
                 le a b = true -> le b c = true -> le a c = true) ->
  forall x l, Q x -> Forall Q l ->
    StronglySorted (fun a b => le a b = true) l ->
    StronglySorted (fun a b => le a b = true) (insertSorted le x l).
Proof.
  intros Htot Htrans x l Hx. induction l as [|y l IH]; intros HQ Hs.
  - cbn. constructor; constructor.
  - apply Forall_cons_iff in HQ. destruct HQ as [Hy HQ].
    apply StronglySorted_inv in Hs. destruct Hs as [Hs Hall].
    cbn. destruct (le x y) eqn:E.
    + constructor; [constructor; assumption|].
      constructor; [exact E|].
      rewrite Forall_forall in *. intros z Hz.
      apply (Htrans x y z); auto.
    + constructor; [apply IH; assumption|].
      apply (Permutation_Forall
               (Permutation_sym (insertSorted_Permutation le x l))).
      constructor; [apply Htot; assumption | exact Hall].
Qed.

Lemma sortBy_StronglySorted {A} (le : A -> A -> bool) (Q : A -> Prop) :
  (forall a b, Q a -> Q b -> le a b = false -> le b a = true) ->
  (forall a b c, Q a -> Q b -> Q c ->
                 le a b = true -> le b c = true -> le a c = true) ->
  forall l, Forall Q l ->
    StronglySorted (fun a b => le a b = true) (sortBy le l).
Proof.
  intros Htot Htrans l. induction l as [|x l IH]; intros HQ; cbn.
  - constructor.
  - apply Forall_cons_iff in HQ. destruct HQ as [Hx HQ].
    apply (insertSorted_StronglySorted le Q); auto.
    apply (Permutation_Forall (Permutation_sym (sortBy_Permutation le l))).
    exact HQ.
Qed.

Lemma StronglySorted_last {A} (R : A -> A -> Prop) l last :
  StronglySorted R (l ++ [last]) -> forall x, In x l -> R x last.
Proof.
  induction l as [|y l IH]; intros Hs x Hx; [destruct Hx|].
  cbn in Hs. apply StronglySorted_inv in Hs. destruct Hs as [Hs Hall].
  destruct Hx as [<- | Hx].
  - rewrite Forall_forall in Hall. apply Hall. apply in_or_app.
    right. left. reflexivity.
  - apply IH; assumption.
Qed.

Lemma byTimestamp_total a b :
  hasTimestamp a -> hasTimestamp b ->
  byTimestamp a b = false -> byTimestamp b a = true.
Proof.
  intros [x Hx] [y Hy]. unfold byTimestamp. rewrite Hx, Hy.
  intros E. apply Z.leb_gt in E. apply Z.leb_le. lia.
Qed.

Lemma byTimestamp_trans a b c :
  hasTimestamp a -> hasTimestamp b -> hasTimestamp c ->
  byTimestamp a b = true -> byTimestamp b c = true -> byTimestamp a c = true.
Proof.
  intros [x Hx] [y Hy] [z Hz]. unfold byTimestamp. rewrite Hx, Hy, Hz.
  intros E1 E2. apply Z.leb_le in E1, E2. apply Z.leb_le. lia.
Qed.

(** The range that the dashboard sets when records arrive: the date of a
    record with the least timestamp, and that of one with the greatest *)
Lemma initDateRange_ends externalData :
  externalData <> [] -> Forall hasTimestamp externalData ->
  exists first last,
    initDateRange externalData {| start := ""; end_ := "" |}
    = {| start := 日期 first; end_ := 日期 last |}
    /\ In first externalData /\ In last externalData
    /\ forall d, In d externalData ->
         byTimestamp first d = true /\ byTimestamp d last = true.
Proof.
  intros Hne Hts.
  pose proof (sortBy_Permutation byTimestamp externalData) as Hp.
  pose proof (sortBy_StronglySorted byTimestamp hasTimestamp
                byTimestamp_total byTimestamp_trans externalData Hts) as Hs.
  assert (Hrefl : forall d, In d externalData -> byTimestamp d d = true).
  { intros d Hd. rewrite Forall_forall in Hts. destruct (Hts d Hd) as [t Ht].
    unfold byTimestamp. rewrite Ht. apply Z.leb_refl. }
  unfold initDateRange.
  destruct externalData as [|d0 rest] eqn:Ed; [congruence|].
  cbn [List.length Nat.ltb Nat.leb start String.eqb andb]. rewrite <- Ed in *.
  destruct (sortBy byTimestamp externalData) as [|first sorted] eqn:Es.
  { apply Permutation_nil in Hp. congruence. }
  destruct (rev (first :: sorted)) as [|last r] eqn:Er.
  { apply (f_equal (@List.length _)) in Er. rewrite length_rev in Er.
    discriminate. }
  assert (Hl : (first :: sorted = rev r ++ [last])%list).
  { rewrite <- (rev_involutive (first :: sorted)), Er. reflexivity. }
  exists first, last. split; [reflexivity|].
  assert (Hfirst : In first externalData)
    by (apply (Permutation_in _ Hp); left; reflexivity).
  assert (Hlast : In last externalData).
  { apply (Permutation_in _ Hp). rewrite Hl. apply in_or_app. right. left.
    reflexivity. }
  split; [exact Hfirst|]. split; [exact Hlast|].
  intros d Hd. apply (Permutation_in _ (Permutation_sym Hp)) in Hd. split.
  - apply StronglySorted_inv in Hs. destruct Hs as [_ Hall].
    destruct Hd as [<- | Hd]; [apply Hrefl; exact Hfirst|].
    rewrite Forall_forall in Hall. apply Hall. exact Hd.
  - rewrite Hl in Hs, Hd. apply in_app_or in Hd.
    destruct Hd as [Hd | [<- | []]]; [|apply Hrefl; exact Hlast].
    apply (StronglySorted_last _ _ _ Hs). exact Hd.
Qed.

(** X6.  When records arrive and no range is set, the range that the dashboard
    sets shows them all: for records whose timestamp lies within the day of
    their date, with the product filter [all], the filtered set is the
    record set and the totals are the sums over all records. *)
Theorem initial_range_shows_all `{JsHost} (externalData : list SalesData)
  (viewMode : ViewMode) (isGroupByCategory : bool) :
  externalData <> [] ->
  (forall d, In d externalData -> datedWithinDay d) ->
  exists vm,
    processedData externalData
      (initDateRange externalData {| start := ""; end_ := "" |})
      viewMode "all" isGroupByCategory = Some vm
    /\ filteredRaw vm = externalData
    /\ totalSales vm = sum (map 銷售金額 externalData)
    /\ totalQty vm = sum (map 數量 externalData).
Proof.
  intros Hne Hall.
  assert (Hts : Forall hasTimestamp externalData).
  { apply Forall_forall. intros d Hd.
    destruct (Hall d Hd) as (_ & m & t & _ & Ht & _). exists t. exact Ht. }
  destruct (initDateRange_ends externalData Hne Hts)
    as (first & last & -> & Hfirst & Hlast & Hbetween).
  destruct (Hall first Hfirst) as (Hf0 & mf & tf & Hmf & Htf & Hrf).
  destruct (Hall last Hlast) as (Hl0 & ml & tl & Hml & Htl & Hrl).
  destruct (processedData_selected externalData
              {| start := 日期 first; end_ := 日期 last |} viewMode "all"
              isGroupByCategory mf ml Hne Hf0 Hl0 Hmf Hml)
    as (vm & Hvm & _ & Hsel).
  assert (Hf : filter (selected mf ml "all") externalData = externalData).
  { apply filter_all. intros d Hd.
    destruct (Hall d Hd) as (_ & m & t & _ & Ht & _).
    destruct (Hbetween d Hd) as [H1 H2].
    unfold byTimestamp in H1, H2. rewrite Htf, Ht in H1. rewrite Ht, Htl in H2.
    apply Z.leb_le in H1, H2.
    unfold selected, inRange. rewrite Ht. cbn [String.eqb orb].
    rewrite andb_true_r. unfold msPerDay in *.
    apply andb_true_iff. split; [apply Z.leb_le | apply Z.ltb_lt]; lia. }
  rewrite Hf in Hsel. destruct (Hsel Hne) as (Hraw & Hsales & Hqty).
  exists vm. auto.
Qed.

(* ===================================================================== *)
(** * What the dashboard shows                                             *)
(* ===================================================================== *)

Lemma StronglySorted_app_inv {A} (R : A -> A -> Prop) l1 l2 :
  StronglySorted R (l1 ++ l2) ->
  StronglySorted R l1 /\ StronglySorted R l2
  /\ forall a b, In a l1 -> In b l2 -> R a b.
Proof.
  induction l1 as [|x l1 IH]; intros Hs.
  - split; [constructor|]. split; [exact Hs|]. intros a b [].
  - cbn in Hs. apply StronglySorted_inv in Hs. destruct Hs as [Hs Hall].
    destruct (IH Hs) as (H1 & H2 & H12).
    rewrite Forall_forall in Hall. split.
    + constructor; [exact H1|]. apply Forall_forall. intros y Hy.
      apply Hall. apply in_or_app. left. exact Hy.
    + split; [exact H2|]. intros a b [<- | Ha] Hb.
      * apply Hall. apply in_or_app. right. exact Hb.
      * apply H12; assumption.
Qed.

Lemma newestFirst_total a b :
  hasTimestamp a -> hasTimestamp b ->
  DashboardView.newestFirst a b = false -> DashboardView.newestFirst b a = true.
Proof.
  intros [x Hx] [y Hy]. unfold DashboardView.newestFirst. rewrite Hx, Hy.
  intros E. apply Z.leb_gt in E. apply Z.leb_le. lia.
Qed.

Lemma newestFirst_trans a b c :
  hasTimestamp a -> hasTimestamp b -> hasTimestamp c ->
  DashboardView.newestFirst a b = true ->
  DashboardView.newestFirst b c = true ->
  DashboardView.newestFirst a c = true.
Proof.
  intros [x Hx] [y Hy] [z Hz]. unfold DashboardView.newestFirst.
  rewrite Hx, Hy, Hz.
  intros E1 E2. apply Z.leb_le in E1, E2. apply Z.leb_le. lia.
Qed.

Section Shown.
Context `{JsHost}.

Lemma selected_hasTimestamp startTs endTs selectedProduct d :
  selected startTs endTs selectedProduct d = true -> hasTimestamp d.
Proof.
  unfold selected, inRange, hasTimestamp.
  destruct (timestamp d) as [t|]; [eauto | discriminate].
Qed.

Lemma filteredRaw_hasTimestamp externalData dateRange viewMode
  selectedProduct isGroupByCategory vm :
  processedData externalData dateRange viewMode selectedProduct
                isGroupByCategory = Some vm ->
  Forall hasTimestamp (filteredRaw vm).
Proof.
  intros Hvm.
  destruct (processedData_inv _ _ _ _ _ _ Hvm)
    as (startTs & endTs & _ & _ & [[_ ->] | [_ ->]]); [constructor|].
  cbn [filteredRaw]. apply Forall_forall. intros d Hd.
  apply filter_In in Hd. destruct Hd as [_ Hd].
  eapply selected_hasTimestamp. exact Hd.
Qed.

(** X7.  The detail table shows the filtered records from the newest to the
    oldest and stops after 100 rows: no record left out is newer than a
    record shown. *)
Theorem tableRows_newest_100 externalData dateRange viewMode selectedProduct
  isGroupByCategory vm :
  processedData externalData dateRange viewMode selectedProduct
                isGroupByCategory = Some vm ->
  let rows := DashboardView.tableRows vm in
  List.length rows = Nat.min 100 (List.length (filteredRaw vm))
  /\ StronglySorted (fun a b => DashboardView.newestFirst a b = true) rows
  /\ exists rest,
       Permutation (filteredRaw vm) (rows ++ rest)
       /\ forall r x, In r rows -> In x rest ->
            exists tr tx, timestamp r = Some tr /\ timestamp x = Some tx
                          /\ tx <= tr.
Proof.
  intros Hvm rows.
  pose proof (filteredRaw_hasTimestamp _ _ _ _ _ _ Hvm) as Hts.
  set (sorted := sortBy DashboardView.newestFirst (filteredRaw vm)).
  pose proof (sortBy_Permutation DashboardView.newestFirst (filteredRaw vm))
    as Hp. fold sorted in Hp.
  pose proof (sortBy_StronglySorted DashboardView.newestFirst hasTimestamp
                newestFirst_total newestFirst_trans (filteredRaw vm) Hts)
    as Hs. fold sorted in Hs.
  assert (Hrows : rows = firstn 100 sorted) by reflexivity.
  pose proof (Permutation_length Hp) as Hlen.
  rewrite <- (firstn_skipn 100 sorted) in Hs, Hp. rewrite <- Hrows in Hs, Hp.
  destruct (StronglySorted_app_inv _ _ _ Hs) as (H1 & _ & H12).
  split.
  { rewrite Hrows, length_firstn, Hlen. reflexivity. }
  split; [exact H1|].
  exists (skipn 100 sorted). split; [symmetry; exact Hp|].
  intros r x Hr Hx. pose proof (H12 r x Hr Hx) as Hle.
  rewrite Forall_forall in Hts.
  destruct (Hts r) as [tr Htr].
  { apply (Permutation_in _ Hp). apply in_or_app. left. exact Hr. }
  destruct (Hts x) as [tx Htx].
  { apply (Permutation_in _ Hp). apply in_or_app. right. exact Hx. }
  exists tr, tx. split; [exact Htr|]. split; [exact Htx|].
  unfold DashboardView.newestFirst in Hle. rewrite Htr, Htx in Hle.
  apply Z.leb_le. exact Hle.
Qed.

(** X8.  The dashboard, with its filter bar, is on the page exactly when both
    ends of the range are set and parse and some record passes the filter;
    otherwise the page shows the empty state.  A selection without records
    is shown like no data at all. *)
Theorem render_dashboard_iff externalData dateRange viewMode selectedProduct
  isGroupByCategory :
  (exists vm card rows,
     DashboardView.render externalData dateRange viewMode selectedProduct
                          isGroupByCategory
     = DashboardView.Dashboard vm card rows)
  <-> (start dateRange <> "" /\ end_ dateRange <> ""
       /\ exists startTs endTs,
            epochMillis (start dateRange) = Some startTs
            /\ epochMillis (end_ dateRange) = Some endTs
            /\ exists d, In d externalData
                         /\ selected startTs endTs selectedProduct d = true).
Proof.
  unfold DashboardView.render. split.
  - intros (vm0 & card & rows & Hr).
    destruct (processedData externalData dateRange viewMode selectedProduct
                            isGroupByCategory) as [vm|] eqn:Hvm;
      [|discriminate].
    destruct (Nat.ltb 0 (List.length (filteredRaw vm))) eqn:Hlen;
      [|discriminate].
    assert (Hguard : start dateRange <> "" /\ end_ dateRange <> "").
    { unfold processedData in Hvm.
      destruct (Nat.eqb _ 0); [discriminate|].
      destruct (String.eqb_spec (start dateRange) ""); [discriminate|].
      destruct (String.eqb_spec (end_ dateRange) ""); [discriminate|].
      split; assumption. }
    destruct Hguard as [Hs He]. split; [exact Hs|]. split; [exact He|].
    destruct (processedData_inv _ _ _ _ _ _ Hvm)
      as (startTs & endTs & Hst & Hen & [[_ ->] | [Hne ->]]);
      [discriminate|].
    exists startTs, endTs. split; [exact Hst|]. split; [exact Hen|].
    destruct (filter (selected startTs endTs selectedProduct) externalData)
      as [|d l] eqn:Ef; [congruence|].
    exists d. apply filter_In. rewrite Ef. left. reflexivity.
  - intros (Hs & He & startTs & endTs & Hst & Hen & d & Hd & Hsel).
    assert (Hne : externalData <> []) by (intros ->; destruct Hd).
    destruct (processedData_selected externalData dateRange viewMode
                selectedProduct isGroupByCategory startTs endTs
                Hne Hs He Hst Hen) as (vm & Hvm & _ & Hfull).
    rewrite Hvm.
    assert (Hf : filter (selected startTs endTs selectedProduct) externalData
                 <> []).
    { intros E. assert (Hin : In d (filter (selected startTs endTs
                                             selectedProduct) externalData))
        by (apply filter_In; split; assumption).
      rewrite E in Hin. destruct Hin. }
    destruct (Hfull Hf) as (Hraw & _). rewrite Hraw.
    destruct (filter (selected startTs endTs selectedProduct) externalData)
      as [|d' l]; [congruence|].
    cbn [List.length Nat.ltb Nat.leb]. eauto.
Qed.

End Shown.

(* ===================================================================== *)
(** * Imports and saves through the application                            *)
(* ===================================================================== *)

Section Uploads.
Context `{JsHost}.

Lemma mapRows_throws f data : forall index0 i r,
  nth_error data i = Some r -> f r (index0 + i)%nat = None ->
  mapRows f data index0 = None.
Proof.
  induction data as [|r0 data IH]; intros index0 i r Hi Hf.
  - destruct i; discriminate.
  - cbn [mapRows]. destruct i as [|i].
    + injection Hi as <-. rewrite Nat.add_0_r in Hf. rewrite Hf. reflexivity.
    + cbn in Hi. destruct (f r0 index0); [|reflexivity].
      rewrite (IH (S index0) i r Hi); [reflexivity|].
      rewrite Nat.add_succ_comm. exact Hf.
Qed.

Lemma mapRows_length f data : forall index0 mapped,
  mapRows f data index0 = Some mapped ->
  List.length mapped = List.length data.
Proof.
  induction data as [|r0 data IH]; intros index0 mapped Hm.
  - injection Hm as <-. reflexivity.
  - cbn in Hm. destruct (f r0 index0); [|discriminate].
    destruct (mapRows f data (S index0)) as [xs|] eqn:Es; [|discriminate].
    injection Hm as <-. cbn. f_equal. eapply IH. exact Es.
Qed.

(** X9.  One numeric date cell that lies outside the range of [Date], in any
    row, stops the whole import: the conversion of that row throws, nothing
    is handed on, whatever the other rows hold, and the message is the one
    of an unreadable file. *)
Theorem out_of_range_serial_aborts_batch (clock : nat -> Z)
  (errorMsg0 : string) (firstRow : row) (rest : list row) (i : nat)
  (r : row) (q : Q) :
  (forall key, In key requiredKeys -> has key firstRow = true) ->
  nth_error (firstRow :: rest) i = Some r ->
  cell "日期" r = VNum q ->
  8640000000000000 < Z.abs (MathRound ((q - 25569) * 86400 * 1000)) ->
  handleFileUpload true true clock errorMsg0 (Some (Sheet (firstRow :: rest)))
  = {| errorMsg := "無法解析檔案，請確認格式。"; onImportData := None |}.
Proof.
  intros Hkeys Hi Hc Hbig.
  assert (Hrow : formatRow clock r (0 + i)%nat = None).
  { unfold formatRow. rewrite Hc. cbn [DateOfTime]. unfold TimeClip.
    destruct (Z.leb_spec (Z.abs (MathRound ((q - 25569) * 86400 * 1000)))
                         8640000000000000); [lia | reflexivity]. }
  unfold handleFileUpload. cbn [negb].
  rewrite (filter_none _ requiredKeys).
  - cbn [List.length Nat.ltb Nat.leb].
    rewrite (mapRows_throws _ _ 0%nat i r Hi Hrow). reflexivity.
  - intros key Hk. rewrite (Hkeys key Hk). reflexivity.
Qed.

(** X10.  An import that hands records on appends them, in the order of their
    rows, behind the records that were there, which stay as they were; the
    list is never empty and never longer than the sheet; the message is
    cleared, one alert tells their number, and nothing else changes. *)
Theorem upload_appends (isScriptLoaded XLSX : bool) (clock : nat -> Z)
  (errorMsg0 : string) (data : list row) (recs : list SalesData)
  (st : App.State) :
  onImportData (handleFileUpload isScriptLoaded XLSX clock errorMsg0
                                 (Some (Sheet data))) = Some recs ->
  recs <> []
  /\ (List.length recs <= List.length data)%nat
  /\ (exists mapped, mapRows (formatRow clock) data 0 = Some mapped
                     /\ recs = filter positiveTimestamp mapped)
  /\ App.upload isScriptLoaded XLSX clock errorMsg0 (Some (Sheet data)) st
     = (App.Normal "",
        {| App.data := App.data st ++ recs;
           App.isLoading := App.isLoading st;
           App.console := App.console st;
           App.alerts :=
             App.alerts st
             ++ ["成功匯入 " ++ ZToString (Z.of_nat (List.length recs))
                 ++ " 筆資料！"];
           App.localStorage := App.localStorage st |}).
Proof.
  intros Hr.
  destruct (handleFileUpload_imported _ _ _ _ _ _ Hr)
    as (data' & mapped & [= <-] & Hm & Hrecs).
  assert (Hmsg : errorMsg (handleFileUpload isScriptLoaded XLSX clock
                             errorMsg0 (Some (Sheet data))) = ""
                 /\ recs <> []).
  { revert Hr. unfold handleFileUpload.
    destruct isScriptLoaded; [|discriminate]. cbn [negb].
    destruct XLSX; [|discriminate]. cbn [negb].
    destruct data as [|firstRow rest]; [discriminate|].
    destruct (Nat.ltb 0 (List.length (filter _ requiredKeys)));
      [discriminate|].
    rewrite Hm.
    destruct (filter positiveTimestamp mapped) as [|x xs] eqn:Ef;
      [discriminate|].
    cbn. intros [= <-]. split; [reflexivity | discriminate]. }
  destruct Hmsg as [Hmsg Hne].
  split; [exact Hne|]. split.
  { rewrite Hrecs, <- (mapRows_length _ _ _ _ Hm). apply filter_length_le. }
  split; [eauto|].
  unfold App.upload. rewrite Hr, Hmsg.
  unfold App.handleImportData, App.bind, App.read, App.update, App.ret.
  change App.remoteMode with true. cbn. reflexivity.
Qed.

End Uploads.

Section Saves.
Context `{JsHost}.

(** X11.  Saving a form entry never throws and always resets the loading flag.
    The entry itself is not put into the record set: after a POST that
    went through, the record set is what the fetch that follows gives
    (the payload of a ["success"] reply, else the records from before,
    with no alert even when that fetch fails); after a POST that failed,
    the records are those from before, one line is logged and one alert
    raised. *)
Theorem handleSaveData_outcome (newData : App.NewData) (uuid : string)
  (postOk : bool) (reply : App.Reply) (st : App.State) :
  exists st',
    App.handleSaveData newData uuid postOk reply st = (App.Normal tt, st')
    /\ App.isLoading st' = false
    /\ App.data st'
       = (if postOk
          then match successPayload reply with
               | Some payload => payload
               | None => App.data st
               end
          else App.data st)
    /\ App.alerts st'
       = (if postOk then App.alerts st
          else App.alerts st ++ ["儲存失敗"])%list
    /\ App.console st'
       = (if postOk
          then (if failedReply reply
                then App.console st ++ ["Failed to fetch data"]
                else App.console st)
          else App.console st ++ ["Save failed"])%list
    /\ App.localStorage st' = App.localStorage st.
Proof.
  unfold App.handleSaveData.
  unfold App.tryCatchFinally at 1. unfold App.bind at 1. unfold App.update at 1.
  change App.remoteMode with true. cbv iota.
  destruct postOk.
  - unfold App.bind at 1. cbn [App.ret].
    destruct (fetchData_outcome reply (App.setIsLoading true st))
      as (st1 & Hf & Hl & Hd & Hc & Ha & Hs).
    rewrite Hf. cbn. eexists. split; [reflexivity|].
    cbn. rewrite Hd, Hc, Ha, Hs. cbn. repeat split; reflexivity.
  - cbn. eexists. repeat split; reflexivity.
Qed.

End Saves.

(* ===================================================================== *)
(** * The entry form                                                       *)
(* ===================================================================== *)

Lemma PRODUCT_DATA_cases c products :
  get c DataInput.PRODUCT_DATA = Some products ->
  In c DataInput.CATEGORIES
  /\ exists p rest, products = p :: rest
                    /\ Forall (fun p => String.eqb p "" = false) products.
Proof.
  unfold DataInput.PRODUCT_DATA, DataInput.CATEGORIES. cbn [get keys map fst].
  repeat match goal with
         | |- context [String.eqb c ?k] =>
             destruct (String.eqb_spec c k) as [->|_];
             [intros [= <-]; split;
              [cbn; tauto
              | eexists; eexists; split; [reflexivity|];
                repeat constructor] |]
         end.
  discriminate.
Qed.

Section Form.
Context `{JsHost}.

(** A submission without a product, or with an amount that is not above
    0, is turned down: [onSave] is not called, whatever it is, the form
    keeps its data and the notification asks for product and amount. *)
Lemma handleSubmit_rejects (formData : DataInput.FormData)
  (onSave : DataInput.Payload -> App.M unit) (st : App.State) :
  DataInput.noProduct formData = true
  \/ DataInput.notPositive (DataInput.amount formData) = true ->
  DataInput.handleSubmit formData onSave st
  = (App.Normal
       {| DataInput.notification :=
            Some ("請填寫完整的商品名稱與金額", DataInput.error);
          DataInput.nextFormData := Some formData |}, st).
Proof.
  intros Hbad. unfold DataInput.handleSubmit.
  replace (DataInput.noProduct formData
           || DataInput.notPositive (DataInput.amount formData)) with true.
  - reflexivity.
  - symmetry. apply orb_true_iff. exact Hbad.
Qed.


(** X13.  The product of the form stays one of the products of its category:
    this holds at the start, after the choice of a category of the list
    and after the reset that follows a save; such a form has a product, so
    that its check is on the amount alone; and the reset never throws for
    a category of the list. *)
Theorem form_product_in_category (now : Z) (f : DataInput.FormData)
  (c : string) :
  formConsistent (DataInput.initialFormData now)
  /\ (In c DataInput.CATEGORIES ->
      formConsistent (DataInput.handleChange "category" c f))
  /\ (In (DataInput.category f) DataInput.CATEGORIES ->
      exists f', DataInput.resetAfterSave f = Some f'
                 /\ formConsistent f'
                 /\ DataInput.date f' = DataInput.date f
                 /\ DataInput.category f' = DataInput.category f
                 /\ DataInput.quantity f' = VNum 1
                 /\ DataInput.amount f' = VNum 0)
  /\ (formConsistent f -> DataInput.noProduct f = false)
  /\ (~ In c DataInput.CATEGORIES ->
      DataInput.product (DataInput.handleChange "category" c f) = Some "").
Proof.
  assert (Hcat : forall c0, In c0 DataInput.CATEGORIES ->
            exists products p rest,
              get c0 DataInput.PRODUCT_DATA = Some products
              /\ products = p :: rest).
  { intros c0 Hc0. unfold DataInput.CATEGORIES, DataInput.PRODUCT_DATA in *.
    cbn [keys map fst] in Hc0. cbn [get].
    repeat (destruct Hc0 as [<- | Hc0];
            [cbn; eexists; eexists; eexists; split; reflexivity|]).
    destruct Hc0. }
  split; [|split; [|split; [|split]]].
  - unfold formConsistent. cbn. eexists. eexists.
    split; [reflexivity|]. split; [reflexivity|]. left. reflexivity.
  - intros Hc. destruct (Hcat c Hc) as (products & p & rest & Hg & ->).
    unfold formConsistent, DataInput.handleChange. cbn [String.eqb Ascii.eqb Bool.eqb].
    cbn [DataInput.category DataInput.product].
    unfold DataInput.firstProduct. rewrite Hg. cbn [hd_error].
    exists (p :: rest), p. split; [reflexivity|]. split; [reflexivity|].
    left. reflexivity.
  - intros Hc. destruct (Hcat _ Hc) as (products & p & rest & Hg & ->).
    unfold DataInput.resetAfterSave, DataInput.firstProduct. rewrite Hg.
    cbn [hd_error]. eexists. split; [reflexivity|].
    split; [|repeat split].
    unfold formConsistent. cbn [DataInput.category DataInput.product].
    exists (p :: rest), p. split; [exact Hg|]. split; [reflexivity|].
    left. reflexivity.
  - intros (products & p & Hg & Hp & Hin).
    destruct (PRODUCT_DATA_cases _ _ Hg) as (_ & _ & _ & _ & Hall).
    unfold DataInput.noProduct. rewrite Hp.
    rewrite Forall_forall in Hall. apply Hall. exact Hin.
  - intros Hn. unfold DataInput.handleChange.
    cbn [String.eqb Ascii.eqb Bool.eqb DataInput.product].
    unfold DataInput.firstProduct.
    destruct (get c DataInput.PRODUCT_DATA) as [products|] eqn:Hg;
      [|reflexivity].
    exfalso. apply Hn. apply (PRODUCT_DATA_cases _ _ Hg).
Qed.

End Form.

(* ===================================================================== *)
(** * Dates written by the form and keys of the trend                      *)
(* ===================================================================== *)

Lemma ZToString_fixed4 y : 1000 <= y <= 9999 -> ZToString y = fixedDigits 4 y.
Proof.
  intros Hy.
  assert (Hall : forallb (fun n => String.eqb (ZToString (Z.of_nat n))
                                              (fixedDigits 4 (Z.of_nat n)))
                         (seq (Z.to_nat 1000) (Z.to_nat 9000)) = true)
    by (vm_compute; reflexivity).
  rewrite forallb_forall in Hall. specialize (Hall (Z.to_nat y)).
  rewrite Z2Nat.id in Hall by lia. apply String.eqb_eq. apply Hall.
  apply in_seq. lia.
Qed.

Lemma padStart_fixed2 n :
  0 <= n <= 99 -> padStart 2 "0" (ZToString n) = fixedDigits 2 n.
Proof.
  intros Hn.
  assert (Hall : forallb (fun n => String.eqb
                                     (padStart 2 "0" (ZToString (Z.of_nat n)))
                                     (fixedDigits 2 (Z.of_nat n)))
                         (seq 0 (Z.to_nat 100)) = true)
    by (vm_compute; reflexivity).
  rewrite forallb_forall in Hall. specialize (Hall (Z.to_nat n)).
  rewrite Z2Nat.id in Hall by lia. apply String.eqb_eq. apply Hall.
  apply in_seq. lia.
Qed.

Section LocalDates.
Context `{JsHost}.

Lemma isoDate_parts t :
  0 <= t < year10000 ->
  isoDate t = fixedDigits 4 (YearFromTime t) ++ "-"
              ++ fixedDigits 2 (MonthFromTime t + 1) ++ "-"
              ++ fixedDigits 2 (DateFromTime t).
Proof.
  intros Ht. pose proof (YearFromTime_range t Ht) as Hy.
  unfold isoDate, isoYear.
  destruct (Z.leb_spec 0 (YearFromTime t)); [|lia].
  destruct (Z.leb_spec (YearFromTime t) 9999); [|lia].
  reflexivity.
Qed.

(** X14.  The date that the form starts with is the calendar day of the local
    time, written [YYYY-MM-DD]; an entry saved with it gets the timestamp
    of the midnight that opens that day in UTC, not in local time. *)
Theorem getTodayString_local_day (now : Z) (category product uuid : string)
  (quantity amount : Q) :
  0 <= LocalTime now < year10000 ->
  DataInput.getTodayString now = isoDate (LocalTime now)
  /\ isYMD (DataInput.getTodayString now) = true
  /\ timestamp (App.makeEntry
                  {| App.new日期 := DataInput.getTodayString now;
                     App.new類別 := category; App.new品名 := product;
                     App.new數量 := quantity; App.new銷售金額 := amount |}
                  uuid)
     = Some (Day (LocalTime now) * msPerDay).
Proof.
  intros Ht.
  pose proof (YearFromTime_range _ Ht) as Hy.
  pose proof (MonthFromDay_range (Day (LocalTime now))) as Hm.
  pose proof (DateFromDay_range (Day (LocalTime now))) as Hd.
  assert (Hd31 : DateFromTime (LocalTime now) <= 31).
  { unfold DateFromTime. unfold DaysInMonth in Hd.
    set (m := MonthFromDay (Day (LocalTime now))) in *.
    assert (m = 0 \/ m = 1 \/ m = 2 \/ m = 3 \/ m = 4 \/ m = 5 \/ m = 6
            \/ m = 7 \/ m = 8 \/ m = 9 \/ m = 10 \/ m = 11) as Hc by lia.
    clearbody m.
    repeat (destruct Hc as [Hc | Hc]; [subst m | ]); [.. | subst m];
      destruct (isLeap _); cbn in Hd; lia. }
  assert (Hs : DataInput.getTodayString now = isoDate (LocalTime now)).
  { rewrite isoDate_parts by exact Ht.
    unfold DataInput.getTodayString, getFullYear, getMonth, getDate.
    cbn [option_map show].
    rewrite ZToString_fixed4 by lia.
    rewrite !padStart_fixed2
      by (unfold MonthFromTime, DateFromTime in *; lia).
    reflexivity. }
  split; [exact Hs|]. split.
  - rewrite Hs. unfold isYMD. rewrite parseIsoDate_isoDate by lia.
    reflexivity.
  - unfold App.makeEntry. cbn [timestamp App.new日期]. rewrite Hs.
    apply (epochMillis_isoDate _ Ht).
Qed.

(** A month key is the local year and month of the timestamp, the month
    on two digits. *)
Lemma getMonthString_parts t :
  0 <= LocalTime t < year10000 ->
  getMonthString (Some t)
  = fixedDigits 4 (YearFromTime (LocalTime t)) ++ "-"
    ++ fixedDigits 2 (MonthFromTime (LocalTime t) + 1).
Proof.
  intros Ht.
  pose proof (YearFromTime_range _ Ht) as Hy.
  pose proof (MonthFromDay_range (Day (LocalTime t))) as Hm.
  unfold getMonthString, getFullYear, getMonth. cbn [option_map show].
  rewrite ZToString_fixed4 by lia.
  rewrite padStart_fixed2 by (unfold MonthFromTime; lia).
  reflexivity.
Qed.

End LocalDates.

(** ** The order of keys *)

Lemma compare_digit a b :
  Ascii.compare (digit a) (digit b) = (a mod 10 ?= b mod 10).
Proof.
  destruct (digit_cases a) as (k & Hk & Ek & ->).
  destruct (digit_cases b) as (l & Hl & El & ->).
  rewrite <- Ek, <- El. clear Ek El a b.
  unfold Ascii.compare. rewrite !N_ascii_embedding by lia.
  rewrite <- N2Z.inj_compare. rewrite !N2Z.inj_add, !Z2N.id by lia.
  apply Z.add_compare_mono_l.
Qed.

Lemma compare_app a : forall b s t,
  String.length a = String.length b ->
  String.compare (a ++ s) (b ++ t)
  = match String.compare a b with
    | Eq => String.compare s t
    | c => c
    end.
Proof.
  induction a as [|c a IH]; intros [|d b] s t Hlen; try discriminate.
  - reflexivity.
  - cbn [append String.compare]. destruct (Ascii.compare c d); try reflexivity.
    apply IH. cbn in Hlen. congruence.
Qed.

Lemma length_append a b :
  String.length (a ++ b) = (String.length a + String.length b)%nat.
Proof. induction a as [|c a IH]; cbn; [reflexivity | rewrite IH; reflexivity]. Qed.

Lemma length_fixedDigits w : forall n, String.length (fixedDigits w n) = w.
Proof.
  induction w as [|w IH]; intros n; cbn [fixedDigits]; [reflexivity|].
  rewrite length_append, IH. cbn. lia.
Qed.

Lemma compare_lex (a b : Z) :
  (a ?= b)
  = match a / 10 ?= b / 10 with
    | Eq => a mod 10 ?= b mod 10
    | c => c
    end.
Proof.
  destruct (Z.compare_spec (a / 10) (b / 10));
    destruct (Z.compare_spec (a mod 10) (b mod 10));
    destruct (Z.compare_spec a b); try reflexivity;
    exfalso; Z.div_mod_to_equations; lia.
Qed.

(** Numbers written on the same number of digits compare as strings the
    way they compare as numbers. *)
Lemma compare_fixedDigits w : forall a b,
  0 <= a < 10 ^ Z.of_nat w -> 0 <= b < 10 ^ Z.of_nat w ->
  String.compare (fixedDigits w a) (fixedDigits w b) = (a ?= b).
Proof.
  induction w as [|w IH]; intros a b Ha Hb.
  - cbn in *. assert (a = 0) by lia. assert (b = 0) by lia. subst.
    reflexivity.
  - rewrite Nat2Z.inj_succ, Z.pow_succ_r in Ha, Hb by lia.
    cbn [fixedDigits].
    rewrite compare_app by (rewrite !length_fixedDigits; reflexivity).
    rewrite IH by (Z.div_mod_to_equations; lia).
    rewrite (compare_lex a b).
    destruct (a / 10 ?= b / 10); try reflexivity.
    cbn [String.compare]. rewrite compare_digit.
    destruct (a mod 10 ?= b mod 10); reflexivity.
Qed.

Lemma daysBeforeMonth_mono leap m m' :
  0 <= m <= m' -> m' <= 12 ->
  daysBeforeMonth leap m <= daysBeforeMonth leap m'.
Proof.
  intros Hm Hm'.
  assert (Hc : m = 0 \/ m = 1 \/ m = 2 \/ m = 3 \/ m = 4 \/ m = 5 \/ m = 6
               \/ m = 7 \/ m = 8 \/ m = 9 \/ m = 10 \/ m = 11 \/ m = 12)
    by lia.
  assert (Hc' : m' = 0 \/ m' = 1 \/ m' = 2 \/ m' = 3 \/ m' = 4 \/ m' = 5
                \/ m' = 6 \/ m' = 7 \/ m' = 8 \/ m' = 9 \/ m' = 10
                \/ m' = 11 \/ m' = 12) by lia.
  destruct Hc as [->|[->|[->|[->|[->|[->|[->|[->|[->|[->|[->|[->| ->]]]]]]]]]]]];
    destruct Hc' as
      [->|[->|[->|[->|[->|[->|[->|[->|[->|[->|[->|[->| ->]]]]]]]]]]]];
    destruct leap; cbn; lia.
Qed.

Lemma DayFromYear_mono y y' : y <= y' -> DayFromYear y <= DayFromYear y'.
Proof. intros Hy. unfold DayFromYear. Z.div_mod_to_equations. lia. Qed.

(** Year, month and day of the month order the days of the calendar. *)
Lemma civil_compare a b :
  match YearFromDay a ?= YearFromDay b with
  | Eq => match MonthFromDay a ?= MonthFromDay b with
          | Eq => DateFromDay a ?= DateFromDay b
          | c => c
          end
  | c => c
  end = (a ?= b).
Proof.
  pose proof (YearFromDay_bracket a) as Ha.
  pose proof (YearFromDay_bracket b) as Hb.
  destruct (Z.compare_spec (YearFromDay a) (YearFromDay b)) as [Ey|Hy|Hy].
  - pose proof (monthOfYearDay_spec _ _ (DayWithinYear_range a)) as [Hma Hda].
    pose proof (monthOfYearDay_spec _ _ (DayWithinYear_range b)) as [Hmb Hdb].
    unfold DateFromDay, MonthFromDay, DayWithinYear in *.
    rewrite <- Ey in *.
    set (leap := isLeap (YearFromDay a)) in *.
    set (ma := monthOfYearDay leap (a - DayFromYear (YearFromDay a))) in *.
    set (mb := monthOfYearDay leap (b - DayFromYear (YearFromDay a))) in *.
    destruct (Z.compare_spec ma mb) as [Em|Hm|Hm].
    + rewrite <- Em in *.
      destruct (Z.compare_spec a b);
        [apply Z.compare_eq_iff | apply Z.compare_lt_iff
         | apply Z.compare_gt_iff]; lia.
    + pose proof (daysBeforeMonth_mono leap (ma + 1) mb). symmetry.
      apply Z.compare_lt_iff. lia.
    + pose proof (daysBeforeMonth_mono leap (mb + 1) ma). symmetry.
      apply Z.compare_gt_iff. lia.
  - pose proof (DayFromYear_mono (YearFromDay a + 1) (YearFromDay b)).
    symmetry. apply Z.compare_lt_iff. lia.
  - pose proof (DayFromYear_mono (YearFromDay b + 1) (YearFromDay a)).
    symmetry. apply Z.compare_gt_iff. lia.
Qed.

(** ** Reading a date in the ISO format *)

Lemma YearFromDay_unique n y :
  DayFromYear y <= n < DayFromYear (y + 1) -> YearFromDay n = y.
Proof.
  intros Hn. pose proof (YearFromDay_bracket n) as Hb.
  destruct (Z.lt_trichotomy (YearFromDay n) y) as [Hlt | [E | Hgt]].
  - pose proof (DayFromYear_mono (YearFromDay n + 1) y). lia.
  - exact E.
  - pose proof (DayFromYear_mono (y + 1) (YearFromDay n)). lia.
Qed.

Lemma civil_MakeDay y m d :
  0 <= m <= 11 -> 1 <= d <= DaysInMonth y m ->
  YearFromDay (MakeDay y m d) = y
  /\ MonthFromDay (MakeDay y m d) = m
  /\ DateFromDay (MakeDay y m d) = d.
Proof.
  intros Hm Hd. unfold DaysInMonth in Hd.
  assert (Hn : MakeDay y m d = DayFromYear y + daysBeforeMonth (isLeap y) m + d - 1).
  { unfold MakeDay.
    replace (m / 12) with 0 by (Z.div_mod_to_equations; lia).
    replace (m mod 12) with m by (Z.div_mod_to_equations; lia).
    rewrite Z.add_0_r. reflexivity. }
  pose proof (daysBeforeMonth_mono (isLeap y) 0 m) as H0.
  pose proof (daysBeforeMonth_mono (isLeap y) (m + 1) 12) as H12.
  pose proof (DaysInYear_step y) as Hstep.
  assert (Hy : YearFromDay (MakeDay y m d) = y).
  { apply YearFromDay_unique. rewrite Hn.
    destruct (isLeap y); cbn [daysBeforeMonth] in *; lia. }
  split; [exact Hy|].
  assert (Hmm : MonthFromDay (MakeDay y m d) = m).
  { unfold MonthFromDay.
    pose proof (monthOfYearDay_spec _ _ (DayWithinYear_range (MakeDay y m d)))
      as [Hr Hs].
    unfold DayWithinYear in *. rewrite Hy in *. rewrite Hn in *.
    set (M := monthOfYearDay (isLeap y)
                (DayFromYear y + daysBeforeMonth (isLeap y) m + d - 1
                 - DayFromYear y)) in *.
    destruct (Z.lt_trichotomy M m) as [Hlt | [E | Hgt]]; [|exact E|].
    - pose proof (daysBeforeMonth_mono (isLeap y) (M + 1) m). lia.
    - pose proof (daysBeforeMonth_mono (isLeap y) (m + 1) M). lia. }
  split; [exact Hmm|].
  unfold DateFromDay, DayWithinYear. rewrite Hmm, Hy, Hn. lia.
Qed.

Lemma digit_digitVal c n : digitVal c = Some n -> digit n = c /\ 0 <= n <= 9.
Proof.
  unfold digitVal, digit.
  destruct (Z.leb_spec 48 (Z.of_N (N_of_ascii c))); [|discriminate].
  destruct (Z.leb_spec (Z.of_N (N_of_ascii c)) 57); [|discriminate].
  cbn [andb]. intros [= <-]. split; [|lia].
  replace ((Z.of_N (N_of_ascii c) - 48) mod 10)
    with (Z.of_N (N_of_ascii c) - 48) by (Z.div_mod_to_equations; lia).
  replace (48 + Z.to_N (Z.of_N (N_of_ascii c) - 48))%N with (N_of_ascii c)
    by lia.
  apply ascii_N_embedding.
Qed.

Lemma digit_mod n : digit n = digit (n mod 10).
Proof. unfold digit. rewrite Z.mod_mod by lia. reflexivity. Qed.

(** A string that reads as a date is the date part of the ISO string of
    what it reads as, and it reads as a midnight. *)
Lemma parseIsoDate_inv s t :
  parseIsoDate s = Some t ->
  isoDate t = s /\ t mod msPerDay = 0 /\ 0 <= YearFromTime t <= 9999.
Proof.
  intros Hp.
  destruct s as [|y1 [|y2 [|y3 [|y4 [|c5 s]]]]]; try discriminate Hp.
  destruct c5 as [[|] [|] [|] [|] [|] [|] [|] [|]]; try discriminate Hp.
  destruct s as [|m1 [|m2 [|c8 s]]]; try discriminate Hp.
  destruct c8 as [[|] [|] [|] [|] [|] [|] [|] [|]]; try discriminate Hp.
  destruct s as [|d1 [|d2 [|x s]]]; try discriminate Hp.
  cbn [parseIsoDate] in Hp.
  destruct (digitVal y1) as [a|] eqn:E1; [|discriminate].
  destruct (digitVal y2) as [b|] eqn:E2; [|discriminate].
  destruct (digitVal y3) as [c|] eqn:E3; [|discriminate].
  destruct (digitVal y4) as [d|] eqn:E4; [|discriminate].
  destruct (digitVal m1) as [e|] eqn:E5; [|discriminate].
  destruct (digitVal m2) as [f|] eqn:E6; [|discriminate].
  destruct (digitVal d1) as [g|] eqn:E7; [|discriminate].
  destruct (digitVal d2) as [h|] eqn:E8; [|discriminate].
  apply digit_digitVal in E1, E2, E3, E4, E5, E6, E7, E8.
  destruct E1 as [<- Ha], E2 as [<- Hb], E3 as [<- Hc], E4 as [<- Hd],
           E5 as [<- He], E6 as [<- Hf], E7 as [<- Hg], E8 as [<- Hh].
  set (y := 1000 * a + 100 * b + 10 * c + d) in *.
  set (m := 10 * e + f) in *.
  set (dt := 10 * g + h) in *.
  destruct (Z.leb_spec 1 m); [|discriminate].
  destruct (Z.leb_spec m 12); [|discriminate].
  destruct (Z.leb_spec 1 dt); [|discriminate].
  destruct (Z.leb_spec dt (DaysInMonth y (m - 1))); [|discriminate].
  cbn [andb] in Hp. injection Hp as <-.
  destruct (civil_MakeDay y (m - 1) dt) as (Hy & Hm & Hdt); [lia | lia |].
  assert (HD : Day (MakeDate (MakeDay y (m - 1) dt) 0) = MakeDay y (m - 1) dt).
  { unfold MakeDate, Day. rewrite Z.add_0_r. apply Z.div_mul. discriminate. }
  assert (Hyr : 0 <= y <= 9999) by (subst y; lia).
  split; [|split].
  - rewrite isoDate_ymd
      by (unfold YearFromTime; rewrite HD, Hy; exact Hyr).
    unfold YearFromTime, MonthFromTime, DateFromTime.
    rewrite HD, Hy, Hm, Hdt. unfold ymd.
    rewrite (digit_mod (y / 10 / 10 / 10)), (digit_mod (y / 10 / 10)),
      (digit_mod (y / 10)), (digit_mod y), (digit_mod ((m - 1 + 1) / 10)),
      (digit_mod (m - 1 + 1)), (digit_mod (dt / 10)), (digit_mod dt).
    replace (y / 10 / 10 / 10 mod 10) with a
      by (subst y; Z.div_mod_to_equations; lia).
    replace (y / 10 / 10 mod 10) with b
      by (subst y; Z.div_mod_to_equations; lia).
    replace (y / 10 mod 10) with c by (subst y; Z.div_mod_to_equations; lia).
    replace (y mod 10) with d by (subst y; Z.div_mod_to_equations; lia).
    replace ((m - 1 + 1) / 10 mod 10) with e
      by (subst m; Z.div_mod_to_equations; lia).
    replace ((m - 1 + 1) mod 10) with f
      by (subst m; Z.div_mod_to_equations; lia).
    replace (dt / 10 mod 10) with g by (subst dt; Z.div_mod_to_equations; lia).
    replace (dt mod 10) with h by (subst dt; Z.div_mod_to_equations; lia).
    reflexivity.
  - unfold MakeDate. rewrite Z.add_0_r. apply Z.mod_mul. discriminate.
  - unfold YearFromTime. rewrite HD, Hy. exact Hyr.
Qed.

Lemma DateFromDay_le_31 n : 1 <= DateFromDay n <= 31.
Proof.
  pose proof (MonthFromDay_range n) as Hm.
  pose proof (DateFromDay_range n) as Hd. unfold DaysInMonth in Hd.
  set (m := MonthFromDay n) in *. clearbody m.
  assert (Hc : m = 0 \/ m = 1 \/ m = 2 \/ m = 3 \/ m = 4 \/ m = 5 \/ m = 6
               \/ m = 7 \/ m = 8 \/ m = 9 \/ m = 10 \/ m = 11) by lia.
  destruct Hc as [->|[->|[->|[->|[->|[->|[->|[->|[->|[->|[->| ->]]]]]]]]]]];
    destruct (isLeap _); cbn in Hd; lia.
Qed.

Lemma isoDate_parts_year t :
  0 <= YearFromTime t <= 9999 ->
  isoDate t = fixedDigits 4 (YearFromTime t) ++ "-"
              ++ fixedDigits 2 (MonthFromTime t + 1) ++ "-"
              ++ fixedDigits 2 (DateFromTime t).
Proof.
  intros Hy. unfold isoDate, isoYear.
  destruct (Z.leb_spec 0 (YearFromTime t)); [|lia].
  destruct (Z.leb_spec (YearFromTime t) 9999); [|lia].
  reflexivity.
Qed.

Lemma four_digit_year_time t :
  0 <= YearFromTime t <= 9999 ->
  -62167219200000 <= t < year10000.
Proof.
  intros Hy. unfold YearFromTime in Hy.
  pose proof (YearFromDay_bracket (Day t)) as Hb.
  pose proof (DayFromYear_mono 0 (YearFromDay (Day t))) as H0.
  pose proof (DayFromYear_mono (YearFromDay (Day t) + 1) 10000) as H1.
  change (DayFromYear 0) with (-719528) in H0.
  change (DayFromYear 10000) with 2932897 in H1.
  unfold Day, msPerDay, year10000 in *. Z.div_mod_to_equations. lia.
Qed.

Lemma compare_midnights t u :
  t mod msPerDay = 0 -> u mod msPerDay = 0 -> (Day t ?= Day u) = (t ?= u).
Proof.
  intros Ht Hu. unfold Day, msPerDay in *.
  destruct (Z.compare_spec (t / 86400000) (u / 86400000));
    symmetry;
    [apply Z.compare_eq_iff | apply Z.compare_lt_iff | apply Z.compare_gt_iff];
    Z.div_mod_to_equations; lia.
Qed.

Lemma compare_succ a b : (a + 1 ?= b + 1) = (a ?= b).
Proof. rewrite !(Z.add_comm _ 1). apply Z.add_compare_mono_l. Qed.

(** The date parts of two ISO strings compare as the days do. *)
Lemma compare_isoDate t u :
  0 <= YearFromTime t <= 9999 -> 0 <= YearFromTime u <= 9999 ->
  String.compare (isoDate t) (isoDate u) = (Day t ?= Day u).
Proof.
  intros Ht Hu. rewrite !isoDate_parts_year by assumption.
  unfold YearFromTime, MonthFromTime, DateFromTime in *.
  pose proof (MonthFromDay_range (Day t)).
  pose proof (MonthFromDay_range (Day u)).
  pose proof (DateFromDay_le_31 (Day t)).
  pose proof (DateFromDay_le_31 (Day u)).
  rewrite compare_app by (rewrite !length_fixedDigits; reflexivity).
  rewrite compare_fixedDigits by (cbn; lia).
  rewrite <- (civil_compare (Day t) (Day u)).
  destruct (YearFromDay (Day t) ?= YearFromDay (Day u)); try reflexivity.
  cbn [append String.compare]. change (Ascii.compare "-" "-") with Eq.
  cbv iota.
  rewrite compare_app by (rewrite !length_fixedDigits; reflexivity).
  rewrite compare_fixedDigits by (cbn; lia).
  rewrite compare_succ.
  destruct (MonthFromDay (Day t) ?= MonthFromDay (Day u)); try reflexivity.
  cbn [append String.compare]. change (Ascii.compare "-" "-") with Eq.
  cbv iota.
  apply compare_fixedDigits; cbn; lia.
Qed.

Section Keys.
Context `{JsHost}.

Lemma epochMillis_YMD s :
  isYMD s = true ->
  exists t, parseIsoDate s = Some t /\ epochMillis s = Some t
            /\ isoDate t = s /\ t mod msPerDay = 0
            /\ 0 <= YearFromTime t <= 9999.
Proof.
  unfold isYMD. destruct (parseIsoDate s) as [t|] eqn:Hp; [|discriminate].
  intros _. destruct (parseIsoDate_inv s t Hp) as (Hs & Hm & Hy).
  exists t. split; [reflexivity|]. split; [|auto].
  unfold epochMillis, getTime, DateOfValue, DateParse. rewrite Hp.
  cbn [DateOfTime]. unfold TimeClip.
  pose proof (four_digit_year_time t Hy) as Hb. unfold year10000 in Hb.
  destruct (Z.leb_spec (Z.abs t) 8640000000000000); [reflexivity | lia].
Qed.

(** A date cell that holds a date in the form [YYYY-MM-DD] is converted
    as it is, with the midnight of that day in UTC as timestamp. *)
Lemma formatRow_iso_date (clock : nat -> Z) (r : row) (index : nat)
  (s : string) :
  cell "日期" r = VStr s ->
  isYMD s = true ->
  exists x t,
    formatRow clock r index = Some x
    /\ 日期 x = s
    /\ timestamp x = Some t
    /\ epochMillis s = Some t
    /\ t mod msPerDay = 0.
Proof.
  intros Hc Hs.
  destruct (epochMillis_YMD s Hs) as (t & _ & He & Hiso & Hm & Hy).
  unfold formatRow. rewrite Hc.
  unfold epochMillis, getTime in He. rewrite He.
  cbn [getTime toISOString]. eexists. exists t.
  split; [reflexivity|]. cbn [日期 timestamp].
  split; [|split; [reflexivity | split; [exact He | exact Hm]]].
  rewrite isoDate_ymd by exact Hy.
  change ("T" ++ isoTime t) with (String "T" (isoTime t)).
  rewrite splitHead_ymd. rewrite <- isoDate_ymd by exact Hy. exact Hiso.
Qed.

(** X15.  In a batch whose first row has the required keys and in which no
    numeric date lies outside the range of [Date], a row whose date cell
    holds a date in the form [YYYY-MM-DD] is converted with that date as
    it is and the midnight of that day in UTC as timestamp; it is handed
    on with them when the date is after 1970-01-01, and dropped
    otherwise. *)
Theorem import_keeps_iso_date (clock : nat -> Z) (errorMsg0 : string)
  (firstRow : row) (rest : list row) (i : nat) (r : row) (s : string) :
  (forall key, In key requiredKeys -> has key firstRow = true) ->
  forallb serialInRange (firstRow :: rest) = true ->
  nth_error (firstRow :: rest) i = Some r ->
  cell "日期" r = VStr s ->
  isYMD s = true ->
  exists x t,
    formatRow clock r i = Some x
    /\ 日期 x = s
    /\ timestamp x = Some t
    /\ epochMillis s = Some t
    /\ t mod msPerDay = 0
    /\ if 0 <? t
       then exists recs,
              handleFileUpload true true clock errorMsg0
                               (Some (Sheet (firstRow :: rest)))
              = {| errorMsg := ""; onImportData := Some recs |}
              /\ In x recs
       else forall recs,
              onImportData
                (handleFileUpload true true clock errorMsg0
                                  (Some (Sheet (firstRow :: rest))))
              = Some recs -> ~ In x recs.
Proof.
  intros Hkeys Hd Hi Hc Hs.
  destruct (formatRow_iso_date clock r i s Hc Hs)
    as (x & t & Hx & Hdate & Ht & He & Hm).
  exists x, t. repeat (split; [assumption|]).
  assert (Hp : positiveTimestamp x = (0 <? t))
    by (unfold positiveTimestamp; rewrite Ht; reflexivity).
  destruct (0 <? t).
  - exact (upload_keeps clock errorMsg0 firstRow rest i r x
             Hkeys Hd Hi Hx Hp).
  - intros recs Hr Hin.
    apply (imported_iff _ _ _ _ _ _ Hr i r x Hi Hx) in Hin. congruence.
Qed.

(** X16.  Dates in the form [YYYY-MM-DD] compare as strings the way their days
    compare in time: in day view, where the key of a bucket is the date of
    its records, the order of the keys is the order of the days. *)
Theorem iso_dates_sort_by_day (s s' : string) :
  isYMD s = true -> isYMD s' = true ->
  exists t t',
    epochMillis s = Some t /\ epochMillis s' = Some t'
    /\ String.compare s s' = (t ?= t').
Proof.
  intros Hs Hs'.
  destruct (epochMillis_YMD s Hs) as (t & _ & He & Hiso & Hm & Hy).
  destruct (epochMillis_YMD s' Hs') as (t' & _ & He' & Hiso' & Hm' & Hy').
  exists t, t'. split; [exact He|]. split; [exact He'|].
  rewrite <- Hiso, <- Hiso'. rewrite compare_isoDate by assumption.
  apply compare_midnights; assumption.
Qed.

(** X17.  Month keys compare as strings the way the months of the local time
    compare, and a later time never has a lesser key: in month view the
    order of the keys is the order of the months. *)
Theorem month_keys_sort_by_month (t u : Z) :
  0 <= LocalTime t < year10000 -> 0 <= LocalTime u < year10000 ->
  String.compare (getMonthString (Some t)) (getMonthString (Some u))
  = (localMonthIndex t ?= localMonthIndex u)
  /\ (LocalTime t <= LocalTime u ->
      String.compare (getMonthString (Some t)) (getMonthString (Some u))
      <> Gt).
Proof.
  intros Ht Hu.
  assert (Hc : String.compare (getMonthString (Some t))
                              (getMonthString (Some u))
               = (localMonthIndex t ?= localMonthIndex u)).
  { rewrite !getMonthString_parts by assumption.
    pose proof (YearFromTime_range _ Ht). pose proof (YearFromTime_range _ Hu).
    unfold localMonthIndex, MonthFromTime.
    pose proof (MonthFromDay_range (Day (LocalTime t))).
    pose proof (MonthFromDay_range (Day (LocalTime u))).
    rewrite compare_app by (rewrite !length_fixedDigits; reflexivity).
    rewrite compare_fixedDigits by (cbn; lia).
    destruct (Z.compare_spec (YearFromTime (LocalTime t))
                             (YearFromTime (LocalTime u))) as [E|Hlt|Hgt].
    - cbn [append String.compare]. change (Ascii.compare "-" "-") with Eq.
      cbv iota. rewrite compare_fixedDigits by (cbn; lia).
      rewrite compare_succ. rewrite E.
      rewrite Z.add_compare_mono_l. reflexivity.
    - symmetry. apply Z.compare_lt_iff. lia.
    - symmetry. apply Z.compare_gt_iff. lia. }
  split; [exact Hc|]. intros Hle. rewrite Hc. unfold localMonthIndex.
  assert (Hd : Day (LocalTime t) <= Day (LocalTime u)).
  { unfold Day, msPerDay. apply Z.div_le_mono; lia. }
  pose proof (civil_compare (Day (LocalTime t)) (Day (LocalTime u))) as Hciv.
  unfold YearFromTime, MonthFromTime.
  pose proof (MonthFromDay_range (Day (LocalTime t))).
  pose proof (MonthFromDay_range (Day (LocalTime u))).
  intros Hgt. apply Z.compare_gt_iff in Hgt.
  destruct (Z.compare_spec (YearFromDay (Day (LocalTime t)))
                           (YearFromDay (Day (LocalTime u)))) as [E|Hlt|Hgt'].
  - destruct (Z.compare_spec (MonthFromDay (Day (LocalTime t)))
                             (MonthFromDay (Day (LocalTime u))));
      try lia.
    symmetry in Hciv. apply Z.compare_gt_iff in Hciv. lia.
  - lia.
  - symmetry in Hciv. apply Z.compare_gt_iff in Hciv. lia.
Qed.

End Keys.

(** ** The ISO week *)

Lemma MakeDay_shift y m d k : MakeDay y m (d + k) = MakeDay y m d + k.
Proof. unfold MakeDay. lia. Qed.

Lemma TimeClip_day n :
  0 <= n <= 2932900 -> TimeClip (MakeDate n 0) = Some (n * msPerDay).
Proof.
  intros Hn. unfold MakeDate, TimeClip, msPerDay. rewrite Z.add_0_r.
  destruct (Z.leb_spec (Z.abs (n * 86400000)) 8640000000000000);
    [reflexivity | lia].
Qed.

Lemma Day_of_day n : Day (n * msPerDay) = n.
Proof. unfold Day. apply Z.div_mul. discriminate. Qed.

Section IsoWeek.
Context `{JsHost}.

(** X18.  The week key of a time is made of the year that holds the Thursday of
    its local week, from Monday to Sunday, and of the number of that
    week, which counts from 1 the Thursdays of that year: the year and the
    week of ISO 8601, the week written without padding.  Two times whose
    local days share their week have the same key. *)
Theorem getWeekString_iso (t : Z) :
  0 <= LocalTime t < year10000 ->
  let th := isoThursday t in
  getWeekString (Some t)
  = ZToString (YearFromDay th) ++ "-W"
    ++ ZToString (DayWithinYear th / 7 + 1)
  /\ 1 <= DayWithinYear th / 7 + 1 <= 53
  /\ WeekDay (th * msPerDay) = 4
  /\ th - 3 <= Day (LocalTime t) <= th + 3.
Proof.
  intros Ht th.
  set (ld := Day (LocalTime t)).
  assert (Hld : 0 <= ld < 2932897).
  { subst ld. unfold Day, msPerDay, year10000 in *.
    Z.div_mod_to_equations. lia. }
  assert (Hth : th = 7 * ((ld + 3) / 7)) by reflexivity.
  assert (Hth0 : 0 <= th <= 2932900 /\ th - 3 <= ld <= th + 3)
    by (rewrite Hth; Z.div_mod_to_equations; lia).
  pose proof (YearFromTime_range _ Ht) as Hy.
  unfold YearFromTime in Hy. fold ld in Hy.
  assert (Hyth : 1970 <= YearFromDay th <= 10000).
  { pose proof (YearFromDay_bracket th) as Hb.
    pose proof (DayFromYear_mono (YearFromDay th + 1) 1970).
    pose proof (DayFromYear_mono 10001 (YearFromDay th)).
    change (DayFromYear 1970) with 0 in *.
    change (DayFromYear 10001) with 2933263 in *. lia. }
  pose proof (DayWithinYear_range th) as Hdw.
  assert (Hdw' : 0 <= DayWithinYear th <= 365)
    by (destruct (isLeap (YearFromDay th)); lia).
  split; [|split; [Z.div_mod_to_equations; lia | split; [|tauto]]].
  2:{ unfold WeekDay. rewrite Day_of_day. rewrite Hth.
      Z.div_mod_to_equations. lia. }
  unfold getWeekString, getFullYear, getMonth, getDate.
  cbn [option_map UTC].
  unfold YearFromTime, MonthFromTime, DateFromTime. fold ld.
  unfold DateUTC.
  destruct (Z.leb_spec 0 (YearFromDay ld)); [|lia].
  destruct (Z.leb_spec (YearFromDay ld) 99); [lia|]. cbn [andb].
  rewrite MakeDay_civil. rewrite TimeClip_day by lia.
  cbn [DateOfTime]. rewrite <- (Z.add_0_r (ld * msPerDay)).
  change (ld * msPerDay + 0) with (MakeDate ld 0).
  rewrite TimeClip_day by lia.
  cbn [getUTCDay getUTCDate option_map].
  unfold WeekDay, DateFromTime. rewrite Day_of_day.
  set (dayNum := match (ld + 4) mod 7 with
                 | 0 => 7
                 | _ => (ld + 4) mod 7
                 end).
  assert (Hdn : ld + 4 - dayNum = th).
  { subst dayNum. rewrite Hth.
    destruct ((ld + 4) mod 7) eqn:E; Z.div_mod_to_equations; lia. }
  unfold setUTCDate, YearFromTime, MonthFromTime, TimeWithinDay.
  rewrite Day_of_day.
  replace (DateFromDay ld + 4 - dayNum) with (DateFromDay ld + (4 - dayNum))
    by lia.
  rewrite MakeDay_shift, MakeDay_civil.
  replace (ld + (4 - dayNum)) with th by lia.
  replace ((ld * msPerDay) mod msPerDay) with 0
    by (symmetry; apply Z.mod_mul; discriminate).
  rewrite TimeClip_day by lia.
  cbn [getUTCFullYear option_map getTime UTC].
  unfold YearFromTime. rewrite Day_of_day.
  unfold DateUTC.
  destruct (Z.leb_spec 0 (YearFromDay th)); [|lia].
  destruct (Z.leb_spec (YearFromDay th) 99); [lia|]. cbn [andb].
  replace (MakeDay (YearFromDay th) 0 1) with (DayFromYear (YearFromDay th))
    by (unfold MakeDay; change (0 / 12) with 0; change (0 mod 12) with 0;
        replace (YearFromDay th + 0) with (YearFromDay th) by lia;
        cbn [daysBeforeMonth]; lia).
  assert (Hdfy : 0 <= DayFromYear (YearFromDay th) <= 2932900).
  { pose proof (DayFromYear_mono 1970 (YearFromDay th)) as Hmono.
    change (DayFromYear 1970) with 0 in Hmono.
    unfold DayWithinYear in Hdw'. lia. }
  rewrite TimeClip_day by lia.
  cbn [DateOfTime]. rewrite <- (Z.add_0_r (DayFromYear _ * msPerDay)).
  change (DayFromYear (YearFromDay th) * msPerDay + 0)
    with (MakeDate (DayFromYear (YearFromDay th)) 0).
  rewrite TimeClip_day by lia.
  cbn [show getTime]. f_equal. f_equal. f_equal.
  unfold ceilDiv, DayWithinYear, msPerDay in *.
  Z.div_mod_to_equations. lia.
Qed.

End IsoWeek.

(** ** Serial days *)

Lemma MathRound_serial (n : Z) :
  MathRound ((inject_Z n - 25569) * 86400 * 1000) = (n - 25569) * msPerDay.
Proof.
  unfold MathRound, msPerDay.
  unfold Qfloor, Qminus, Qplus, Qmult, Qopp, inject_Z. cbn [Qnum Qden].
  change (Z.pos (1 * 1 * 1 * 1 * 2)) with 2.
  change (Z.pos (1 * 1 * 1 * 1)) with 1. change (Z.pos (1 * 1)) with 1.
  Z.div_mod_to_equations. lia.
Qed.

(** A date cell that holds a whole serial day, from 25569 (1970-01-01) to
    2958465 (9999-12-31), gives the day that lies so many days after
    1899-12-30. *)
Lemma formatRow_whole_serial `{JsHost} (clock : nat -> Z) (r : row)
  (index : nat) (n : Z) :
  25569 <= n <= 2958465 ->
  cell "日期" r = VNum (inject_Z n) ->
  exists x,
    formatRow clock r index = Some x
    /\ timestamp x = Some ((n - 25569) * msPerDay)
    /\ 日期 x = isoDate ((n - 25569) * msPerDay)
    /\ isYMD (日期 x) = true
    /\ epochMillis (日期 x) = timestamp x.
Proof.
  intros Hn Hc.
  assert (Ht : 0 <= (n - 25569) * msPerDay < year10000)
    by (unfold msPerDay, year10000; lia).
  unfold formatRow. rewrite Hc. rewrite MathRound_serial.
  cbn [DateOfTime]. rewrite (TimeClip_small _ Ht).
  cbn [toISOString getTime]. eexists. split; [reflexivity|].
  cbn [timestamp 日期]. rewrite (isoString_date _ Ht).
  split; [reflexivity|]. split; [reflexivity|].
  pose proof (YearFromTime_range _ Ht) as Hy. split.
  - unfold isYMD. rewrite parseIsoDate_isoDate by lia. reflexivity.
  - rewrite (epochMillis_isoDate _ Ht). rewrite Day_of_day. reflexivity.
Qed.

(** X19.  In a batch whose first row has the required keys and in which no
    numeric date lies outside the range of [Date], a row whose date cell
    holds a whole serial day [n], from 25569 (1970-01-01) to 2958465
    (9999-12-31), is converted to the day that lies so many days after
    1899-12-30: the timestamp is the midnight, in UTC, of the day
    [n - 25569] of the epoch, the date is that day, and the timestamp is
    [epochMillis] of the date.  From 25570 on the row is handed on; the
    serial day 25569, whose timestamp is 0, is dropped. *)
Theorem whole_serial_day `{JsHost} (clock : nat -> Z) (errorMsg0 : string)
  (firstRow : row) (rest : list row) (i : nat) (r : row) (n : Z) :
  (forall key, In key requiredKeys -> has key firstRow = true) ->
  forallb serialInRange (firstRow :: rest) = true ->
  nth_error (firstRow :: rest) i = Some r ->
  25569 <= n <= 2958465 ->
  cell "日期" r = VNum (inject_Z n) ->
  exists x,
    formatRow clock r i = Some x
    /\ timestamp x = Some ((n - 25569) * msPerDay)
    /\ 日期 x = isoDate ((n - 25569) * msPerDay)
    /\ isYMD (日期 x) = true
    /\ epochMillis (日期 x) = timestamp x
    /\ (25569 < n ->
        exists recs,
          handleFileUpload true true clock errorMsg0
                           (Some (Sheet (firstRow :: rest)))
          = {| errorMsg := ""; onImportData := Some recs |}
          /\ In x recs)
    /\ (n = 25569 ->
        forall recs,
          onImportData
            (handleFileUpload true true clock errorMsg0
                              (Some (Sheet (firstRow :: rest))))
          = Some recs -> ~ In x recs).
Proof.
  intros Hkeys Hd Hi Hn Hc.
  destruct (formatRow_whole_serial clock r i n Hn Hc)
    as (x & Hx & Ht & Hdate & Hymd & He).
  exists x. repeat (split; [assumption|]).
  split.
  - intros Hlt.
    apply (upload_keeps clock errorMsg0 firstRow rest i r x
             Hkeys Hd Hi Hx).
    unfold positiveTimestamp. rewrite Ht. apply Z.ltb_lt.
    unfold msPerDay. lia.
  - intros -> recs Hr Hin.
    apply (imported_iff _ _ _ _ _ _ Hr i r x Hi Hx) in Hin.
    unfold positiveTimestamp in Hin. rewrite Ht in Hin. discriminate.
Qed.

(* ===================================================================== *)
(** * The statements above, on the samples                                 *)
(* ===================================================================== *)

Ltac sample_view :=
  eexists; split; [vm_compute; reflexivity|].


Lemma topProduct_best_witness :
  exists vm,
    processedData (H := hostUTC) sampleRecords sampleRange week "all" true
    = Some vm
    /\ exists maxSale,
         (forall d, In d (filteredRaw vm) ->
            (amountWhere (keyIs 品名 (品名 d)) (filteredRaw vm) <= maxSale)%Q)
         /\ topProduct vm = "X".
Proof.
  sample_view.
  destruct (topProduct_best (H := hostUTC) sampleRecords sampleRange week
              "all" true _ eq_refl eq_refl) as (maxSale & _ & Hall & _).
  exists maxSale. split; [exact Hall | reflexivity].
Defined.

Lemma trendData_buckets_witness :
  exists vm,
    processedData (H := hostUTC) sampleRecords sampleRange month "all" false
    = Some vm
    /\ map date (trendData vm) = ["2024-01"; "2024-03"]
    /\ Sorted (fun a b => localeLe (date a) (date b) = true) (trendData vm)
    /\ NoDup (map date (trendData vm))
    /\ Qsum (map amount (trendData vm)) == totalSales vm.
Proof.
  sample_view. split; [reflexivity|].
  assert (Hk : collatedKeys (H := hostUTC) month sampleRecords = true)
    by (vm_compute; reflexivity).
  assert (Hp : plainTrend (H := hostUTC) month false sampleRecords = true)
    by (vm_compute; reflexivity).
  assert (Hb := trendData_buckets (H := hostUTC) sampleRecords sampleRange
                  month "all" false _ Hp eq_refl).
  split; [exact (proj1 Hb Hk)|].
  split; [exact (proj1 (proj2 Hb))|].
  exact (proj1 (proj2 (proj2 (proj2 (proj2 Hb))) eq_refl)).
Defined.

Lemma trendData_stacks_witness :
  exists vm b,
    processedData (H := hostUTC) sampleRecords sampleRange month "all" true
    = Some vm
    /\ In b (trendData vm)
    /\ date b = "2024-01"
    /\ Qsum (values (byCategory b)) == amount b.
Proof.
  eexists. eexists. split; [vm_compute; reflexivity|].
  assert (Hin : In {| date := "2024-01"; amount := 100; qty := 2;
                      byCategory := [("A", 100%Q); ("B", 0%Q)] |}
                   [ {| date := "2024-01"; amount := 100; qty := 2;
                        byCategory := [("A", 100%Q); ("B", 0%Q)] |};
                     {| date := "2024-03"; amount := 200; qty := 4;
                        byCategory := [("A", 150%Q); ("B", 50%Q)] |} ])
    by (left; reflexivity).
  assert (Hp : plainTrend (H := hostUTC) month true sampleRecords = true)
    by (vm_compute; reflexivity).
  split; [exact Hin|]. split; [reflexivity|].
  exact (proj2 (proj2
    (trendData_stacks (H := hostUTC) sampleRecords sampleRange month "all"
       true _ _ Hp eq_refl Hin)) eq_refl).
Defined.

Lemma initial_range_shows_all_witness :
  exists vm,
    processedData (H := hostUTC) sampleRecords
      (initDateRange sampleRecords {| start := ""; end_ := "" |})
      day "all" false = Some vm
    /\ filteredRaw vm = sampleRecords.
Proof.
  destruct (initial_range_shows_all (H := hostUTC) sampleRecords day false)
    as (vm & Hvm & Hraw & _).
  - discriminate.
  - intros d [<- | [<- | [<- | []]]]; (split; [discriminate|]).
    + exists 1705276800000, 1705276800000.
      split; [vm_compute; reflexivity|]. split; [reflexivity|].
      unfold msPerDay. lia.
    + exists 1709510400000, 1709553600000.
      split; [vm_compute; reflexivity|]. split; [reflexivity|].
      unfold msPerDay. lia.
    + exists 1709596800000, 1709596800000.
      split; [vm_compute; reflexivity|]. split; [reflexivity|].
      unfold msPerDay. lia.
  - exists vm. split; assumption.
Defined.

Lemma tableRows_newest_100_witness :
  exists vm,
    processedData (H := hostUTC) sampleRecords sampleRange day "all" false
    = Some vm
    /\ map id (DashboardView.tableRows vm) = ["3"; "2"; "1"]
    /\ List.length (DashboardView.tableRows vm)
       = Nat.min 100 (List.length (filteredRaw vm)).
Proof.
  sample_view. split; [reflexivity|].
  exact (proj1 (tableRows_newest_100 (H := hostUTC) sampleRecords sampleRange
                  day "all" false _ eq_refl)).
Defined.

Lemma out_of_range_serial_aborts_batch_witness :
  handleFileUpload (H := hostUTC) true true (fun _ => 0) ""
    (Some (Sheet (sampleSheet
                  ++ [sheetRow (VNum 1000000000000) (VStr "A") (VStr "X")
                               (VNum 1) (VNum 1)])))
  = {| errorMsg := "無法解析檔案，請確認格式。"; onImportData := None |}.
Proof.
  apply (out_of_range_serial_aborts_batch (H := hostUTC) (fun _ => 0) ""
           _ _ 3%nat
           (sheetRow (VNum 1000000000000) (VStr "A") (VStr "X") (VNum 1)
                     (VNum 1))
           1000000000000%Q).
  - intros key [<- | [<- | [<- | [<- | [<- | []]]]]]; reflexivity.
  - reflexivity.
  - reflexivity.
  - vm_compute. reflexivity.
Defined.

Lemma upload_appends_witness :
  exists recs st',
    onImportData (handleFileUpload (H := hostUTC) true true (fun _ => 7) ""
                                   (Some (Sheet sampleSheet))) = Some recs
    /\ map id recs = ["excel-7-0"; "excel-7-2"]
    /\ App.upload (H := hostUTC) true true (fun _ => 7) ""
                  (Some (Sheet sampleSheet)) sampleState
       = (App.Normal "", st')
    /\ App.data st' = (sampleRecords ++ recs)%list.
Proof.
  eexists. eexists.
  assert (Hr : onImportData
                 (handleFileUpload (H := hostUTC) true true (fun _ => 7) ""
                    (Some (Sheet sampleSheet)))
               = Some [ {| id := "excel-7-0"; 日期 := "2024-01-15";
                           類別 := "A"; 品名 := "X"; 數量 := 2;
                           銷售金額 := 100;
                           timestamp := Some 1705276800000 |};
                        {| id := "excel-7-2"; 日期 := "2024-03-04";
                           類別 := "B"; 品名 := "Y"; 數量 := 0;
                           銷售金額 := 50;
                           timestamp := Some 1709510400000 |} ])
    by (vm_compute; reflexivity).
  split; [exact Hr|]. split; [reflexivity|].
  split;
    [exact (proj2 (proj2 (proj2
       (upload_appends (H := hostUTC) true true (fun _ => 7) "" sampleSheet _
          sampleState Hr))))
    | reflexivity].
Defined.


Lemma getTodayString_local_day_witness :
  0 <= LocalTime (H := hostTaipei) 1705334400000 < year10000
  /\ DataInput.getTodayString (H := hostTaipei) 1705334400000 = "2024-01-16"
  /\ timestamp (App.makeEntry (H := hostTaipei)
                  {| App.new日期 :=
                       DataInput.getTodayString (H := hostTaipei)
                                                1705334400000;
                     App.new類別 := "A"; App.new品名 := "X";
                     App.new數量 := 1; App.new銷售金額 := 100 |} "id")
     = Some (Day (LocalTime (H := hostTaipei) 1705334400000) * msPerDay).
Proof.
  assert (Ht : 0 <= LocalTime (H := hostTaipei) 1705334400000 < year10000)
    by (vm_compute; split; [discriminate | reflexivity]).
  split; [exact Ht|]. split; [vm_compute; reflexivity|].
  exact (proj2 (proj2
    (getTodayString_local_day (H := hostTaipei) 1705334400000 "A" "X" "id"
       1 100 Ht))).
Defined.

Lemma import_keeps_iso_date_witness :
  exists recs x,
    handleFileUpload (H := hostUTC) true true (fun _ => 7) ""
                     (Some (Sheet sampleSheet))
    = {| errorMsg := ""; onImportData := Some recs |}
    /\ In x recs
    /\ 日期 x = "2024-01-15"
    /\ timestamp x = Some 1705276800000.
Proof.
  destruct (import_keeps_iso_date (H := hostUTC) (fun _ => 7) ""
              (sheetRow (VStr "2024-01-15") (VStr "A") (VStr "X") (VNum 2)
                        (VNum 100))
              [sheetRow (VStr "1970-01-01") (VStr "A") (VStr "X") (VNum 2)
                        (VNum 100);
               sheetRow (VNum 45355) (VStr "B") (VStr "Y") (VStr "")
                        (VNum 50)]
              0%nat
              (sheetRow (VStr "2024-01-15") (VStr "A") (VStr "X") (VNum 2)
                        (VNum 100))
              "2024-01-15")
    as (x & t & _ & Hdate & Ht & He & _ & Hif).
  - intros key [<- | [<- | [<- | [<- | [<- | []]]]]]; reflexivity.
  - vm_compute. reflexivity.
  - reflexivity.
  - reflexivity.
  - vm_compute. reflexivity.
  - assert (E : Some 1705276800000 = Some t)
      by (rewrite <- He; vm_compute; reflexivity).
    injection E as <-.
    destruct Hif as (recs & Hres & Hin).
    exists recs, x. repeat split; assumption.
Defined.

Lemma iso_dates_sort_by_day_witness :
  exists t t',
    epochMillis (H := hostUTC) "2024-03-04" = Some t
    /\ epochMillis (H := hostUTC) "2024-01-15" = Some t'
    /\ String.compare "2024-03-04" "2024-01-15" = (t ?= t').
Proof.
  apply (iso_dates_sort_by_day (H := hostUTC) "2024-03-04" "2024-01-15");
    vm_compute; reflexivity.
Defined.

Lemma month_keys_sort_by_month_witness :
  String.compare (getMonthString (H := hostTaipei) (Some 1709553600000))
                 (getMonthString (H := hostTaipei) (Some 1705276800000))
  = (localMonthIndex (H := hostTaipei) 1709553600000
     ?= localMonthIndex (H := hostTaipei) 1705276800000).
Proof.
  assert (Ht : 0 <= LocalTime (H := hostTaipei) 1709553600000 < year10000)
    by (vm_compute; split; [discriminate | reflexivity]).
  assert (Hu : 0 <= LocalTime (H := hostTaipei) 1705276800000 < year10000)
    by (vm_compute; split; [discriminate | reflexivity]).
  exact (proj1 (month_keys_sort_by_month (H := hostTaipei) 1709553600000
                  1705276800000 Ht Hu)).
Defined.

Lemma getWeekString_iso_witness :
  getWeekString (H := hostTaipei) (Some 1709553600000)
  = ZToString (YearFromDay (isoThursday (H := hostTaipei) 1709553600000))
    ++ "-W"
    ++ ZToString (DayWithinYear (isoThursday (H := hostTaipei) 1709553600000)
                  / 7 + 1).
Proof.
  assert (Ht : 0 <= LocalTime (H := hostTaipei) 1709553600000 < year10000)
    by (vm_compute; split; [discriminate | reflexivity]).
  exact (proj1 (getWeekString_iso (H := hostTaipei) 1709553600000 Ht)).
Defined.

Lemma whole_serial_day_witness :
  exists recs x,
    handleFileUpload (H := hostUTC) true true (fun _ => 7) ""
                     (Some (Sheet sampleSheet))
    = {| errorMsg := ""; onImportData := Some recs |}
    /\ In x recs
    /\ timestamp x = Some ((45355 - 25569) * msPerDay)
    /\ 日期 x = isoDate ((45355 - 25569) * msPerDay).
Proof.
  destruct (whole_serial_day (H := hostUTC) (fun _ => 7) ""
              (sheetRow (VStr "2024-01-15") (VStr "A") (VStr "X") (VNum 2)
                        (VNum 100))
              [sheetRow (VStr "1970-01-01") (VStr "A") (VStr "X") (VNum 2)
                        (VNum 100);
               sheetRow (VNum 45355) (VStr "B") (VStr "Y") (VStr "")
                        (VNum 50)]
              2%nat
              (sheetRow (VNum 45355) (VStr "B") (VStr "Y") (VStr "")
                        (VNum 50))
              45355)
    as (x & _ & Ht & Hdate & _ & _ & Hkept & _).
  - intros key [<- | [<- | [<- | [<- | [<- | []]]]]]; reflexivity.
  - vm_compute. reflexivity.
  - reflexivity.
  - lia.
  - reflexivity.
  - destruct Hkept as (recs & Hres & Hin); [lia|].
    exists recs, x. repeat split; assumption.
Defined.
